(* ===== verification/_CoqProject ===== *)
-Q . S2P
Prelude.v
Db.v
Store.v
Session.v
TaskManager.v
TaskComments.v
Reports.v
Input.v
Shell.v
Scenarios.v
Freshness.v
Dates.v
Staleness.v
Contract.v
Locks.v
Objects.v
Part2.v
