(* ===== verification/Prelude.v ===== *)
(** * A verification development for the Task_manegement task tracker

    ** The program

    [src/task_manager_system.py] is an interactive menu over a MySQL
    database [Task_db].  Class [TaskManager] (lines 7-139) owns a
    connection and the table [tasks_]; class [TaskComments] (lines
    143-240) inherits from it, opens a second connection of its own and
    owns [task_comments] (a foreign key to [tasks_] with ON DELETE
    CASCADE) and the two spreadsheet reports; [main] (lines 242-366) builds
    one object of each class and loops over a twelve-entry menu, parsing
    the user's input with [int] and [datetime.strptime].
    [src/Task_manager_part2.py] repeats class [TaskComments] without
    importing [TaskManager], so running it raises [NameError]; nothing
    imports it.

    ** How the development models it (a shallow embedding)

    - [Prelude] (this file): the monad [PyM S E A = S -> (E + A) * S] of
      Python statements (an exception keeps the effects done before it),
      its laws, the preservation predicate [pym_preserves] with its
      combinator lemmas, the tactic [preserves_step], sorted-key lemmas,
      and [py_for] for [for] loops.
    - [Db]: the two [CREATE TABLE] schemas as records ([task_row],
      [comment_row], [table] with its AUTO_INCREMENT counter, [db]) and
      every SQL string of the source as a statement ([Stmt]): writes are
      [PyM db sql_error] computations, queries functions of the rows read.
      InnoDB under MySQL 8 defaults: strict mode (too long or out-of-range
      values are errors 1406/1264), 32-bit [INT] keys whose AUTO_INCREMENT
      counter saturates at 2147483647 ([next_key], [bump]: the key is then
      handed out again and the INSERT fails as a duplicate, 1062), a
      failed INSERT still consuming its AUTO_INCREMENT value ([burn_key]),
      the case-folding collation [utf8mb4_0900_ai_ci] on ASCII.
      [DbFacts] proves that every statement keeps [db_wf] (keys sorted,
      unique, in the [INT] range and below the counter unless it has
      saturated; values in their column domains; referential integrity);
      [DbSpec] gives each statement's result.
    - [Store]: the contract of section 4 of the specification as an
      abstract store (tasks and comments in [gmap Z], two id counters),
      the abstraction [abs] of a database, the write statements of the
      methods as operations [op] ([run_op] sends the statement of [Db],
      [run_op_timeout] is what one leaves when it times out on a lock), and
      the refinement of every write statement into its abstract operation.
    - [Session]: the process state [world] (database, the snapshot and
      the locks of each connection, files written, standard input,
      printed lines) and the primitives [execute_query], [execute_write]
      (the [CREATE TABLE]s), [execute_op] (the methods' INSERT, UPDATE and
      DELETE), [commit], [print], [input], [to_excel].  mysql-connector
      opens connections with autocommit off at REPEATABLE READ, so the
      first read of a transaction fixes a snapshot that only [commit]
      drops; writes act on the latest rows.  The program never rolls back,
      so a failed statement leaves its InnoDB locks to the open
      transaction until the connection commits ([failed_locks]: the shared
      gap lock of a comment refused by its foreign key, the exclusive row
      lock of an UPDATE refused on a column length); a statement of the
      other connection that needs a conflicting lock ([waits_for]: a task
      INSERT into a locked gap, a comment's foreign-key check on a locked
      row) waits [innodb_lock_wait_timeout] and fails with 1205, only the
      statement rolled back, its AUTO_INCREMENT value consumed.  The classes [StmtInvariant] and
      [WorldInvariant] are the interface between the primitives and the
      program: method and shell lemmas are proved once against them and
      instantiated for [db_wf], for "no row has completed set" and for
      the length of standard input.
    - [TaskManager]: the nine methods of class [TaskManager], one
      definition each, with their preservation lemmas and behaviour
      theorems.
    - [TaskComments], [Reports]: the methods of class [TaskComments];
      [Reports] adds pandas' [to_datetime] (int64 nanoseconds, range
      1677-09-22 to 2262-04-11) and [to_excel] (at most 1048576 rows).
    - [Input]: CPython's [int(str)], [strptime('%Y-%m-%d')] (the
      regular expression [_strptime] compiles, with backtracking) and
      [str(date)], executable on [list ascii].
    - [Shell]: [main] as [dispatch] (one branch per choice, reading
      input lines in the source's order, each under its own [except]),
      [iteration] (menu, choice read outside any [try], outer
      [except Exception]) and [main_loop] on fuel.  The class
      [MethodInvariant] is the interface for properties that a write and
      its commit restore together: reads, prints and inputs keep them,
      each write method as a whole, and [dispatch], [iteration] and the
      loop are proved once against it.
    - [Scenarios]: whole runs of [main] from an empty schema, evaluated by
      [vm_compute].
    - [Freshness]: the invariant that the [TaskManager] connection's
      snapshot always holds the current tasks, proved per method because
      a write and its commit are two steps (an instance of
      [MethodInvariant]).
    - [Dates]: the invariant that every stored due date is a valid
      calendar date, carried from [strptime] in [dispatch] to the
      statements that write dates.
    - [Staleness]: the snapshot of the [TaskComments] connection in
      general: kept through any run without a new comment, ended by a
      successful one (another instance of [MethodInvariant]).
    - [Contract]: the store contract of [Store] as a machine [a_rel]
      (an operation whose precondition holds, or a comment id consumed by
      a refused or timed-out comment; a task id consumed by a timed-out
      insert is a create followed by its delete), the refinement of the
      whole loop into it (a third instance of [MethodInvariant]), and what
      a failed write leaves of the contract.
    - [Locks]: what the locks of failed statements do to a session: a
      refused comment makes the next task insert into its gap time out,
      and on a store without tasks freezes task creation for the rest of
      the session (a fourth instance of [MethodInvariant]); a failed
      status update makes comments on its task time out.
    - [Objects]: the Python layer around the methods.  Class bodies are
      maps from names to [def]s ([TaskManager_body], [TaskComments_body]);
      attribute lookup [resolve] follows the base class and decides the
      relation [has_method]; [__init__] ([py_init]) calls
      [mysql.connector.connect] ([connect], against a [server] record:
      host, accounts, databases) and then the [initialize_database] the
      instance's class resolves; [make_objects] and [py_main] are lines
      242-251 of [main]; a module is its list of top-level statements
      ([top_stmt]: import, class, def, the [__name__] guard), run by
      [exec_module] against the installed modules.
    - [Part2]: [src/Task_manager_part2.py], its methods translated from
      that file, its class body and its module.

    ** What is proved

    - Invariants: every reachable world is well formed, current rows and
      snapshots alike, and no row ever has [completed] set (the label
      "Completed" of [view_tasks] is dead code); the [TaskManager]
      connection never reads stale tasks; every stored due date is a
      date [datetime.date] accepts.
    - Refinement: each successful write implements its operation of the
      store contract (create, partial update, assign, mark, cascading
      delete, add comment); a failed write, a lock wait timeout included,
      changes nothing abstract but a counter: the comment counter for a
      refused or timed-out comment, the task counter for a timed-out
      create.  Composed with the loop: every store the program reaches,
      whatever the input, is one the contract reaches from the initial
      store.
    - Behaviour of each method on its success and error branches: fresh
      keys and committed inserts, partial updates that write exactly the
      fields given, refusal of over-long titles, the duplicate-key error
      once the key counter has saturated, silent success of updates of
      missing ids, cascade on delete, foreign-key refusal that still burns
      a key and keeps a lock, case-insensitive filtering, listings of the
      [TaskManager] connection that show the current tasks.
    - Locks: a comment refused by the foreign key makes the next
      [add_task] fail with 1205; on a store without tasks no task can be
      created again in the session, whatever the input; a status update
      refused on its length makes a comment on the task fail with 1205.
    - Reports: the LEFT JOIN keeps every task; a report exports the
      connection's snapshot, not the current tables; pandas' datetime
      range makes the member report fail for tasks due after 2262.
    - Input: [strptime] reads back every date [str(date)] prints.
    - The program as a whole: running [src/task_manager_system.py] as a
      script against a server that accepts its credentials is
      [Shell.main], so every theorem about [main] is a theorem about the
      file; importing it runs nothing; a refused connection ends it with
      an uncaught error before any output; the constructors must run in
      the order of lines 248-249 (the foreign key of [task_comments] needs
      [tasks_]).  [src/Task_manager_part2.py] always stops with
      [NameError] at line 4, and its class body is an exact copy of the
      main module's [TaskComments].
    - Termination: one iteration more than the number of input lines is
      always enough fuel, and more fuel changes nothing; the loop ends
      only with choice 12 or end of input.
    - Snapshots of the [TaskComments] connection: it never commits after a
      report or comment listing, so later reports and listings read a
      stale snapshot; once it holds one, every later run keeps it unless a
      comment is added (safety), and from every reachable world menu entry
      8 with an existing task and a comment that fits ends it in one turn,
      while the comment counter has not saturated and no failed update
      has left a lock on that task's row (liveness).  [Scenarios] replays
      the two example scenarios of the specification and the stale reads
      on single runs (regression examples, not claims).

    ** Bounds and what is not modelled

    Fuel: [main_loop_total] shows that [S (length stdin)] iterations
    suffice, because each iteration but the last consumes a line.
    Attribute lookup runs on [size] of the class table, enough since a
    chain of bases visits each class at most once.
    Locks: a gap lock is taken to spread over the merged gap as soon as a
    row is deleted (InnoDB does so when it purges the record, shortly
    after the commit); the 50 s of a lock wait are not modelled as time;
    the shared locks a duplicate-key error leaves (only possible once a
    counter has saturated) are not recorded; the locks of a successful
    write are not recorded either, since the commit of its method follows
    before the other connection sends anything.
    Not modelled: network failures once a connection is open, and
    other processes using the database; the contents of the spreadsheet
    beyond its rows; collation of non-ASCII characters (compared byte for
    byte), and the non-ASCII digits and spaces that [int] and [strptime]
    also accept; the commented-out code of lines 194-204; multiple
    inheritance and calls whose arguments do not fit the [def] (the
    program has neither); the contents of the imported modules beyond
    their presence (the names imported with [from datetime import] are
    taken to exist). *)

From stdpp Require Export base list strings gmap.
From Stdlib Require Export ZArith Lia Sorted.

Declare Scope tm_scope.
Delimit Scope tm_scope with tm.
Open Scope Z_scope.

(** ** The Python evaluation monad

    A Python statement runs against a world, may raise an exception, and
    keeps every effect it performed before raising (a printed line, a
    committed row).  [PyM S E A] is therefore a state monad whose result
    is an exception or a value, the state being returned in both cases. *)

Definition PyM (S E A : Type) : Type := S → (E + A) * S.

#[export] Instance pym_ret {S E} : MRet (PyM S E) := λ A a s, (inr a, s).
#[export] Instance pym_bind {S E} : MBind (PyM S E) :=
  λ A B f m s,
    match m s with
    | (inl e, s') => (inl e, s')
    | (inr a, s') => f a s'
    end.

Definition pym_raise {S E A} (e : E) : PyM S E A := λ s, (inl e, s).

(** [try: m except e: h e] : the handler sees the state reached when [m]
    raised. *)
Definition pym_catch {S E A} (m : PyM S E A) (h : E → PyM S E A) : PyM S E A :=
  λ s, match m s with
       | (inl e, s') => h e s'
       | r => r
       end.

Definition pym_get {S E} : PyM S E S := λ s, (inr s, s).
Definition pym_put {S E} (s : S) : PyM S E unit := λ _, (inr tt, s).
Definition pym_modify {S E} (f : S → S) : PyM S E unit := λ s, (inr tt, f s).

Notation "'raise' e" := (pym_raise e) (at level 10) : tm_scope.

Section PyMLaws.
Context {S E : Type}.

Lemma pym_bind_ret_l {A B} (a : A) (k : A → PyM S E B) :
  (x ← mret a; k x) = k a.
Proof. reflexivity. Qed.

Lemma pym_bind_ret_r {A} (m : PyM S E A) s : (x ← m; mret x) s = m s.
Proof.
  unfold mbind, pym_bind, mret, pym_ret.
  by destruct (m s) as [[e|a] s'].
Qed.

Lemma pym_bind_assoc {A B C} (m : PyM S E A) (f : A → PyM S E B)
      (g : B → PyM S E C) s :
  (y ← (x ← m; f x); g y) s = (x ← m; y ← f x; g y) s.
Proof.
  unfold mbind, pym_bind.
  by destruct (m s) as [[e|a] s'].
Qed.

Lemma pym_run_bind {A B} (m : PyM S E A) (k : A → PyM S E B) s :
  (x ← m; k x) s =
    match m s with (inl e, s') => (inl e, s') | (inr a, s') => k a s' end.
Proof. reflexivity. Qed.

(** An effect preserved by every step of a computation is preserved by
    the whole: the workhorse of the invariant proofs. *)
Definition pym_preserves {A} (P : S → Prop) (m : PyM S E A) : Prop :=
  ∀ s, P s → P (m s).2.

Lemma pym_preserves_ret {A} P (a : A) : pym_preserves P (mret a).
Proof. by intros s. Qed.

Lemma pym_preserves_raise {A} P (e : E) : pym_preserves (A:=A) P (pym_raise e).
Proof. by intros s. Qed.

Lemma pym_preserves_bind {A B} P (m : PyM S E A) (k : A → PyM S E B) :
  pym_preserves P m → (∀ a, pym_preserves P (k a)) →
  pym_preserves P (x ← m; k x).
Proof.
  intros Hm Hk s Hs. rewrite pym_run_bind.
  specialize (Hm s Hs). destruct (m s) as [[e|a] s']; simpl in *; auto.
  by apply Hk.
Qed.

(** Bind when the continuation needs a property [R] of the value [m]
    returns. *)
Lemma pym_preserves_bind_post {A B} P (R : A → Prop) (m : PyM S E A) (k : A → PyM S E B) :
  pym_preserves P m → (∀ s a s', m s = (inr a, s') → R a) →
  (∀ a, R a → pym_preserves P (k a)) →
  pym_preserves P (x ← m; k x).
Proof.
  intros Hm HR Hk s Hs. rewrite pym_run_bind.
  specialize (Hm s Hs). destruct (m s) as [[e|a] s'] eqn:Hms; simpl in *; auto.
  by apply (Hk a (HR _ _ _ Hms)).
Qed.

Lemma pym_preserves_catch {A} P (m : PyM S E A) (h : E → PyM S E A) :
  pym_preserves P m → (∀ e, pym_preserves P (h e)) →
  pym_preserves P (pym_catch m h).
Proof.
  intros Hm Hh s Hs. unfold pym_catch.
  specialize (Hm s Hs). destruct (m s) as [[e|a] s']; simpl in *; auto.
  by apply Hh.
Qed.

Lemma pym_preserves_get P : pym_preserves P pym_get.
Proof. by intros s. Qed.
End PyMLaws.

Create HintDb tm discriminated.
Create Rewrite HintDb tm_rw.
#[export] Hint Resolve pym_preserves_ret pym_preserves_raise pym_preserves_get
  pym_preserves_bind pym_preserves_catch : tm.
#[export] Hint Rewrite @pym_bind_ret_l @pym_bind_assoc @pym_bind_ret_r : tm_rw.

(** Run a closed computation step by step. *)
Ltac pym_simpl :=
  unfold mbind, mret, pym_bind, pym_ret, pym_raise, pym_catch, pym_get, pym_put,
    pym_modify in *;
  simpl in *.

(** ** Lists of keyed rows

    A table is a list of rows whose keys strictly increase (the clustered
    primary-key order of InnoDB).  The lemmas below are what every
    operation on a table needs: filtering, re-mapping without touching the
    key, and appending a row with a key above all others. *)

(** Filtering keeps what held of every element. *)
Lemma Forall_filter_keep {A} (Q : A → Prop) (P : A → Prop) `{∀ x, Decision (P x)}
      (l : list A) :
  Forall Q l → Forall Q (filter P l).
Proof.
  induction 1 as [|x l Hx Hl IH]; [constructor|].
  rewrite filter_cons. case_decide; [constructor|]; auto.
Qed.

Lemma not_Exists_Forall {A} (P : A → Prop) (l : list A) : ¬ Exists P l → Forall (λ x, ¬ P x) l.
Proof. intros H. apply Forall_forall. intros x Hx HP. apply H, Exists_exists. eauto. Qed.

Section KeyedLists.
Context {A : Type} (key : A → Z).

Definition keys_sorted (l : list A) : Prop := StronglySorted Z.lt (map key l).

Definition keys_below (bound : Z) (l : list A) : Prop :=
  Forall (λ r, key r < bound) l.

Lemma keys_sorted_filter (P : A → Prop) `{∀ x, Decision (P x)} l :
  keys_sorted l → keys_sorted (filter P l).
Proof.
  unfold keys_sorted. induction l as [|x l IH]; simpl; intros Hs; [done|].
  apply StronglySorted_inv in Hs as [Hs Hall].
  rewrite filter_cons. case_decide; simpl; auto.
  constructor; auto. apply Forall_map. apply Forall_filter_keep.
  by apply (Forall_map key) in Hall.
Qed.

Lemma keys_sorted_map (f : A → A) l :
  (∀ x, key (f x) = key x) → keys_sorted l → keys_sorted (map f l).
Proof.
  intros Hf. unfold keys_sorted. rewrite map_map.
  by rewrite (map_ext _ key Hf).
Qed.

Lemma keys_sorted_snoc l x bound :
  keys_sorted l → keys_below bound l → bound ≤ key x →
  keys_sorted (l ++ [x]).
Proof.
  unfold keys_sorted, keys_below. induction l as [|y l IH]; simpl;
    intros Hs Hb Hx.
  - repeat constructor.
  - apply StronglySorted_inv in Hs as [Hs Hall]. inversion Hb; subst.
    constructor; [by apply IH|].
    rewrite map_app. apply Forall_app; split; [done|].
    repeat constructor. lia.
Qed.

Lemma keys_below_filter (P : A → Prop) `{∀ x, Decision (P x)} b l :
  keys_below b l → keys_below b (filter P l).
Proof. apply Forall_filter_keep. Qed.

Lemma keys_below_map (f : A → A) b l :
  (∀ x, key (f x) = key x) → keys_below b l → keys_below b (map f l).
Proof.
  unfold keys_below. intros Hf H. apply Forall_map.
  eapply Forall_impl; [exact H|]. simpl. intros x. by rewrite Hf.
Qed.

Lemma keys_below_snoc b b' l x :
  keys_below b l → b ≤ b' → key x < b' → keys_below b' (l ++ [x]).
Proof.
  unfold keys_below. intros H Hb Hx. apply Forall_app; split.
  - eapply Forall_impl; [exact H|]. simpl. lia.
  - by repeat constructor.
Qed.

Lemma keys_sorted_NoDup l : keys_sorted l → NoDup (map key l).
Proof.
  unfold keys_sorted. induction l as [|x l IH]; simpl; intros Hs;
    [constructor|].
  apply StronglySorted_inv in Hs as [Hs Hall]. constructor; auto.
  intros Hin. rewrite Forall_forall in Hall. apply Hall in Hin. lia.
Qed.

End KeyedLists.

#[export] Hint Resolve keys_sorted_filter keys_sorted_map keys_below_filter
  keys_below_map Forall_filter_keep : tm.

(** [for x in l: body(x)] *)
Fixpoint py_for {S E A} (l : list A) (body : A → PyM S E unit) : PyM S E unit :=
  match l with
  | [] => mret tt
  | x :: l' => body x;; py_for l' body
  end.

Lemma pym_preserves_py_for {S E A} (P : S → Prop) (l : list A) (body : A → PyM S E unit) :
  (∀ x, pym_preserves P (body x)) → pym_preserves P (py_for l body).
Proof.
  intros Hb. induction l as [|x l IH]; simpl; [apply pym_preserves_ret|].
  apply pym_preserves_bind; auto.
Qed.
#[export] Hint Resolve pym_preserves_py_for : tm.

(** Python truthiness of an optional string argument: [None] and [""] are
    false. *)
Definition truthy (o : option string) : bool :=
  match o with Some s => negb (String.eqb s "") | None => false end.

(** Decompose a [pym_preserves] goal along the structure of the program;
    what is left are the primitive effects. *)
Ltac preserves_step :=
  repeat match goal with
    | |- pym_preserves _ (mbind _ _) => apply pym_preserves_bind; [|intros ?]
    | |- pym_preserves _ (pym_catch _ _) => apply pym_preserves_catch; [|intros ?]
    | |- pym_preserves _ (mret _) => apply pym_preserves_ret
    | |- pym_preserves _ (pym_raise _) => apply pym_preserves_raise
    | |- pym_preserves _ pym_get => apply pym_preserves_get
    | |- pym_preserves _ (py_for _ _) => apply pym_preserves_py_for; intros ?
    | |- pym_preserves _ (match ?x with _ => _ end) => destruct x
    | |- pym_preserves _ (if ?b then _ else _) => destruct b
  end.


Lemma py_for_ext {S E A} (l : list A) (b1 b2 : A → PyM S E unit) :
  (∀ x, x ∈ l → b1 x = b2 x) → py_for l b1 = py_for l b2.
Proof.
  induction l as [|x l IH]; intros H; simpl; [done|].
  rewrite (H x), IH; [done| |]; set_solver.
Qed.
