(* ===== verification/Db.v ===== *)
(** * Db: the schema of [tasks_] and [task_comments] and the SQL statements
    the program sends, with their InnoDB semantics

    Module [Tables] holds the data: the column domains of the two
    [CREATE TABLE] statements of [src/task_manager_system.py]
    (lines 20-31 and 156-163), rows as records, a table as its rows in
    primary-key order with its AUTO_INCREMENT counter, and the invariant
    the engine keeps on them.  Module [Stmt] gives each SQL string of the
    source its meaning as a statement on the database: writes are
    [PyM db sql_error] computations (a failed statement can still consume
    an AUTO_INCREMENT value; the counter saturates at the largest [INT]),
    queries are functions of the database read.  Locks are not a matter
    of one statement: [Session.execute_op] adds them.
    The strict SQL mode of MySQL 8 (the server default) is assumed: a value
    that does not fit its column is an error, not a truncation. *)

From S2P Require Import Prelude.

Module Tables.

(** A [DATE] value, as the [datetime.date] the shell passes. *)
Record date := mkDate { year : Z; month : Z; day : Z }.

#[export] Instance date_eq_dec : EqDecision date.
Proof. solve_decision. Defined.

(** Signed 32-bit [INT] and the length bounds of the string columns. *)
Definition INT_MIN : Z := -2147483648.
Definition INT_MAX : Z := 2147483647.
Definition int_fits (z : Z) : bool := (INT_MIN <=? z) && (z <=? INT_MAX).

Definition varchar_fits (n : nat) (s : string) : bool := Nat.leb (String.length s) n.

(** [TEXT] holds at most 65535 bytes. *)
Definition TEXT_MAX : nat := 65535.

Definition opt_varchar_fits (n : nat) (o : option string) : bool :=
  match o with None => true | Some s => varchar_fits n s end.

(** The server errors the statements of the program can raise. *)
Inductive sql_error :=
| ER_DATA_TOO_LONG (column : string)           (* 1406 *)
| ER_WARN_DATA_OUT_OF_RANGE (column : string)  (* 1264 *)
| ER_NO_REFERENCED_ROW_2                       (* 1452: foreign key *)
| ER_BAD_FIELD_ERROR (column : string)         (* 1054: unknown column *)
| ER_NO_SUCH_TABLE (table : string)            (* 1146 *)
| ER_FK_CANNOT_OPEN_PARENT (table : string)    (* 1824 *)
| ER_DUP_ENTRY (key : Z)                       (* 1062: duplicate primary key *)
| ER_LOCK_WAIT_TIMEOUT                         (* 1205: lock wait timeout exceeded *)
| ER_PARSE_ERROR                               (* 1064 *)
| ER_ACCESS_DENIED_ERROR                       (* 1045: connect, bad user or password *)
| ER_BAD_DB_ERROR (database : string)          (* 1049: connect, unknown database *)
| CR_CONN_HOST_ERROR.                          (* 2003: connect, no server listening *)

#[export] Instance sql_error_eq_dec : EqDecision sql_error.
Proof. solve_decision. Defined.

(** A row of [tasks_]: the eight columns of its [CREATE TABLE]. *)
Record task_row := mkTask {
  task_id : Z;
  title : string;
  description : string;
  due_date : date;
  priority : Z;
  assigned_to : option string;
  status : string;
  completed : bool
}.

#[export] Instance task_row_eq_dec : EqDecision task_row.
Proof. solve_decision. Defined.

(** A row of [task_comments]. *)
Record comment_row := mkComment {
  comment_id : Z;
  comment_task_id : Z;
  comment : string
}.

#[export] Instance comment_row_eq_dec : EqDecision comment_row.
Proof. solve_decision. Defined.

(** A table: rows in primary-key order and the next AUTO_INCREMENT value. *)
Record table (R : Type) := mkTable { rows : list R; auto_increment : Z }.
Arguments mkTable {R} _ _.
Arguments rows {R} _.
Arguments auto_increment {R} _.

Definition empty_table {R} : table R := mkTable [] 1.

(** The database [Task_db]: a table is [None] until it is created. *)
Record db := mkDb {
  tasks_ : option (table task_row);
  task_comments : option (table comment_row)
}.

Definition empty_db : db := mkDb None None.

Definition set_tasks (t : table task_row) (d : db) : db := mkDb (Some t) (task_comments d).
Definition set_comments (c : table comment_row) (d : db) : db := mkDb (tasks_ d) (Some c).

(** The rows of a table that may not exist yet, as a query sees them. *)
Definition task_rows (d : db) : list task_row :=
  match tasks_ d with Some t => rows t | None => [] end.
Definition comment_rows (d : db) : list comment_row :=
  match task_comments d with Some c => rows c | None => [] end.

(** ** The engine's invariant *)

(** Every stored value fits its column. *)
Definition task_row_fits (r : task_row) : Prop :=
  varchar_fits 255 (title r) = true ∧ varchar_fits TEXT_MAX (description r) = true ∧
  int_fits (priority r) = true ∧ opt_varchar_fits 255 (assigned_to r) = true ∧
  varchar_fits 20 (status r) = true ∧ int_fits (task_id r) = true.

Definition comment_row_fits (c : comment_row) : Prop :=
  int_fits (comment_task_id c) = true ∧ varchar_fits TEXT_MAX (comment c) = true ∧
  int_fits (comment_id c) = true.

(** The counter lies above every stored key, unless it has saturated at
    the largest [INT] (see [next_key]). *)
Definition counter_above {R} (key : R → Z) (t : table R) : Prop :=
  auto_increment t = INT_MAX ∨ keys_below key (auto_increment t) (rows t).

(** Primary keys strictly increase and lie in [1, INT_MAX], below the
    counter unless it has saturated; the counter lies in [1, INT_MAX]. *)
Definition table_wf {R} (key : R → Z) (fits : R → Prop) (t : table R) : Prop :=
  keys_sorted key (rows t) ∧ counter_above key t ∧
  Forall (λ r, 1 ≤ key r ≤ INT_MAX) (rows t) ∧ Forall fits (rows t) ∧
  1 ≤ auto_increment t ≤ INT_MAX.

(** Referential integrity of [FOREIGN KEY (task_id) REFERENCES tasks_(id)]. *)
Definition fk_ok (d : db) : Prop :=
  Forall (λ c, ∃ r, r ∈ task_rows d ∧ task_id r = comment_task_id c) (comment_rows d).

Definition db_wf (d : db) : Prop :=
  (∀ t, tasks_ d = Some t → table_wf task_id task_row_fits t) ∧
  (∀ c, task_comments d = Some c → table_wf comment_id comment_row_fits c) ∧
  (is_Some (task_comments d) → is_Some (tasks_ d)) ∧
  fk_ok d.

(** MySQL 8's default collation [utf8mb4_0900_ai_ci] compares strings
    case-insensitively (and without padding); on ASCII that is equality
    after lower-casing. *)
Definition ascii_lower (a : Ascii.ascii) : Ascii.ascii :=
  let n := Ascii.nat_of_ascii a in
  if (Nat.leb 65 n && Nat.leb n 90)%bool then Ascii.ascii_of_nat (n + 32) else a.

Fixpoint string_lower (s : string) : string :=
  match s with
  | EmptyString => EmptyString
  | String a s' => String (ascii_lower a) (string_lower s')
  end.

Definition collate_eq (a b : string) : bool := String.eqb (string_lower a) (string_lower b).

(** [WHERE assigned_to = %s]: a NULL column never matches. *)
Definition assignee_matches (name : string) (r : task_row) : bool :=
  match assigned_to r with Some a => collate_eq a name | None => false end.

End Tables.

Export Tables.

Module Stmt.

(** A write statement: it may fail, and still leave a trace in the
    database (an AUTO_INCREMENT value consumed by a failed INSERT). *)
Abbreviation write := (PyM db sql_error unit).

Definition fail {A} (e : sql_error) : PyM db sql_error A := pym_raise e.
Definition commit_db (d' : db) : write := pym_put d'.

(** [CREATE TABLE IF NOT EXISTS tasks_ (...)], lines 20-31. *)
Definition create_tasks_table : write :=
  d ← pym_get;
  match tasks_ d with
  | Some _ => mret tt
  | None => commit_db (set_tasks empty_table d)
  end.

(** [CREATE TABLE IF NOT EXISTS task_comments (...)], lines 156-163: the
    foreign key needs the parent table. *)
Definition create_comments_table : write :=
  d ← pym_get;
  match task_comments d, tasks_ d with
  | Some _, _ => mret tt
  | None, None => fail (ER_FK_CANNOT_OPEN_PARENT "tasks_")
  | None, Some _ => commit_db (set_comments empty_table d)
  end.

(** The key InnoDB hands out for [id INT AUTO_INCREMENT] (line 22) and the
    counter after it: the counter saturates at the largest [INT], so once
    it is reached every INSERT is given 2147483647 again (and fails as a
    duplicate while that row exists). *)
Definition next_key {R} (t : table R) : Z := Z.min (auto_increment t) INT_MAX.
Definition bump (k : Z) : Z := Z.min (k + 1) INT_MAX.

(** The table after a key was drawn for a row that is not stored: the
    value is consumed all the same. *)
Definition burn_key {R} (t : table R) : table R := mkTable (rows t) (bump (next_key t)).

(** [INSERT INTO tasks_ (title, description, due_date, priority,
    assigned_to, completed) VALUES (...)], line 37.  Values are converted
    in column order; [status] takes its default ['Pending']; the key is
    drawn, then checked against the primary index. *)
Definition insert_task (ttl desc : string) (due : date) (prio : Z)
    (who : option string) (done_ : bool) : write :=
  d ← pym_get;
  match tasks_ d with
  | None => fail (ER_NO_SUCH_TABLE "tasks_")
  | Some t =>
    if negb (varchar_fits 255 ttl) then fail (ER_DATA_TOO_LONG "title")
    else if negb (varchar_fits TEXT_MAX desc) then fail (ER_DATA_TOO_LONG "description")
    else if negb (int_fits prio) then fail (ER_WARN_DATA_OUT_OF_RANGE "priority")
    else if negb (opt_varchar_fits 255 who) then fail (ER_DATA_TOO_LONG "assigned_to")
    else
      let k := next_key t in
      if bool_decide (Exists (λ r, task_id r = k) (rows t)) then
        _ ← commit_db (set_tasks (burn_key t) d);
        fail (ER_DUP_ENTRY k)
      else
        commit_db (set_tasks
          (mkTable (rows t ++ [mkTask k ttl desc due prio who "Pending" done_]) (bump k)) d)
  end.

(** One [field = %s] item of the SET clause that [update_task_details]
    builds (lines 66-70). *)
Inductive set_item :=
| SetStatus (s : string)
| SetDueDate (d : date).

Definition apply_set (r : task_row) (u : set_item) : task_row :=
  match u with
  | SetStatus s => mkTask (task_id r) (title r) (description r) (due_date r)
                          (priority r) (assigned_to r) s (completed r)
  | SetDueDate dd => mkTask (task_id r) (title r) (description r) dd
                            (priority r) (assigned_to r) (status r) (completed r)
  end.

Definition check_set (u : set_item) : option sql_error :=
  match u with
  | SetStatus s => if varchar_fits 20 s then None else Some (ER_DATA_TOO_LONG "status")
  | SetDueDate _ => None
  end.

(** Update the rows whose key is [k]; the values are stored (and checked)
    only when a row matches. *)
Definition update_where_id (k : Z) (chk : option sql_error) (f : task_row → task_row) : write :=
  d ← pym_get;
  match tasks_ d with
  | None => fail (ER_NO_SUCH_TABLE "tasks_")
  | Some t =>
    if bool_decide (Exists (λ r, task_id r = k) (rows t)) then
      match chk with
      | Some e => fail e
      | None =>
        commit_db (set_tasks
          (mkTable (map (λ r, if decide (task_id r = k) then f r else r) (rows t))
                   (auto_increment t)) d)
      end
    else mret tt
  end.

(** [UPDATE tasks_ SET {set_clause} WHERE id = %s], line 80: the SET
    clause lists the items in order; with no item the text
    [UPDATE tasks_ SET  WHERE id = %s] is not valid SQL. *)
Definition update_task (updates : list set_item) (k : Z) : write :=
  match updates with
  | [] => fail ER_PARSE_ERROR
  | _ => update_where_id k (head (omap check_set updates)) (λ r, foldl apply_set r updates)
  end.

(** [UPDATE tasks_ SET assigned_to = %s WHERE id = %s], line 86. *)
Definition update_assigned_to (who : string) (k : Z) : write :=
  update_where_id k (if varchar_fits 255 who then None else Some (ER_DATA_TOO_LONG "assigned_to"))
    (λ r, mkTask (task_id r) (title r) (description r) (due_date r) (priority r)
                 (Some who) (status r) (completed r)).

(** [UPDATE tasks_ SET status = 'completed' WHERE id = %s], line 114. *)
Definition update_status_completed (k : Z) : write :=
  update_where_id k None (λ r, apply_set r (SetStatus "completed")).

(** [DELETE FROM tasks_ WHERE id = %s], line 121, with the
    [ON DELETE CASCADE] of the foreign key (line 161). *)
Definition delete_task (k : Z) : write :=
  d ← pym_get;
  match tasks_ d with
  | None => fail (ER_NO_SUCH_TABLE "tasks_")
  | Some t =>
    commit_db (mkDb (Some (mkTable (filter (λ r, task_id r ≠ k) (rows t)) (auto_increment t)))
                    (match task_comments d with
                     | None => None
                     | Some c => Some (mkTable (filter (λ x, comment_task_id x ≠ k) (rows c))
                                               (auto_increment c))
                     end))
  end.

(** [INSERT INTO task_comments (task_id, comment) VALUES (%s, %s)],
    line 167.  The key is drawn before the foreign-key check, so a
    comment on a missing task consumes it; the primary index is checked
    after the foreign key. *)
Definition insert_comment (tid : Z) (text : string) : write :=
  d ← pym_get;
  match task_comments d with
  | None => fail (ER_NO_SUCH_TABLE "task_comments")
  | Some c =>
    if negb (int_fits tid) then fail (ER_WARN_DATA_OUT_OF_RANGE "task_id")
    else if negb (varchar_fits TEXT_MAX text) then fail (ER_DATA_TOO_LONG "comment")
    else
      let k := next_key c in
      if bool_decide (Exists (λ r, task_id r = tid) (task_rows d)) then
        if bool_decide (Exists (λ x, comment_id x = k) (rows c)) then
          _ ← commit_db (set_comments (burn_key c) d);
          fail (ER_DUP_ENTRY k)
        else commit_db (set_comments (mkTable (rows c ++ [mkComment k tid text]) (bump k)) d)
      else
        _ ← commit_db (set_comments (burn_key c) d);
        fail ER_NO_REFERENCED_ROW_2
  end.

(** ** Queries: functions of the database the statement reads *)

(** A query on [tasks_]: the projection [f] of its rows, or an error when
    the table does not exist. *)
Definition on_tasks {A} (f : list task_row → A) (d : db) : sql_error + A :=
  match tasks_ d with Some t => inr (f (rows t)) | None => inl (ER_NO_SUCH_TABLE "tasks_") end.

Definition where_assignee (flt : option string) (l : list task_row) : list task_row :=
  match flt with
  | None => l
  | Some name => filter (λ r, assignee_matches name r = true) l
  end.

(** [SELECT id, title, due_date, priority, status, completed FROM tasks_
    [WHERE assigned_to = %s]], lines 45 and 48. *)
Definition view_row := (Z * string * date * Z * string * bool)%type.
Definition select_view (flt : option string) (d : db) : sql_error + list view_row :=
  on_tasks (λ rs, (λ r, (task_id r, title r, due_date r, priority r, status r, completed r))
                   <$> where_assignee flt rs) d.

(** [SELECT id, title, due_date, priority, status FROM tasks_
    [WHERE assigned_to = %s]], lines 95, 98 and 219. *)
Definition short_row := (Z * string * date * Z * string)%type.
Definition select_short (flt : option string) (d : db) : sql_error + list short_row :=
  on_tasks (λ rs, (λ r, (task_id r, title r, due_date r, priority r, status r))
                   <$> where_assignee flt rs) d.

(** [SELECT assigned_to FROM tasks_], line 128: one value per row. *)
Definition select_assignees (d : db) : sql_error + list (option string) :=
  on_tasks (λ rs, assigned_to <$> rs) d.

(** [SELECT * FROM task_comments [WHERE assigned_to = %s]], lines 176
    and 179: the table has no [assigned_to] column. *)
Definition select_comments (flt : option string) (d : db) : sql_error + list comment_row :=
  match task_comments d with
  | None => inl (ER_NO_SUCH_TABLE "task_comments")
  | Some c =>
    match flt with
    | Some _ => inl (ER_BAD_FIELD_ERROR "assigned_to")
    | None => inr (rows c)
    end
  end.

(** [SELECT tasks_.id, title, description, due_date, priority,
    assigned_to, status, task_comments.id, task_id, comment FROM tasks_
    LEFT JOIN task_comments ON tasks_.id = task_comments.task_id],
    line 207: every task, once per matching comment, or once with NULL
    comment columns when it has none; tasks in key order and, through the
    index on [task_id], the comments of a task in key order. *)
Definition report_row :=
  (Z * string * string * date * Z * option string * string
   * option Z * option Z * option string)%type.

Definition join_row (r : task_row) (c : option comment_row) : report_row :=
  (task_id r, title r, description r, due_date r, priority r, assigned_to r, status r,
   comment_id <$> c, comment_task_id <$> c, comment <$> c).

Definition left_join (ts : list task_row) (cs : list comment_row) : list report_row :=
  ts ≫= (λ r, match filter (λ c, comment_task_id c = task_id r) cs with
              | [] => [join_row r None]
              | ms => (λ c, join_row r (Some c)) <$> ms
              end).

Definition select_report (d : db) : sql_error + list report_row :=
  match tasks_ d, task_comments d with
  | None, _ => inl (ER_NO_SUCH_TABLE "tasks_")
  | _, None => inl (ER_NO_SUCH_TABLE "task_comments")
  | Some t, Some c => inr (left_join (rows t) (rows c))
  end.

End Stmt.

Export Stmt.

(** ** The engine keeps its invariant *)

Module DbFacts.

Section TableFacts.
Context {R : Type} (key : R → Z) (fits : R → Prop).

Lemma table_wf_map (f : R → R) (t : table R) :
  (∀ x, key (f x) = key x) → (∀ x, fits x → fits (f x)) →
  table_wf key fits t → table_wf key fits (mkTable (map f (rows t)) (auto_increment t)).
Proof.
  intros Hk Hf (Hs & Hb & Hpos & Hfit & Hai); unfold table_wf, counter_above in *; simpl.
  refine (conj _ (conj _ (conj _ (conj _ Hai)))); [eauto with tm|destruct Hb; eauto with tm| |].
  - apply Forall_map. eapply Forall_impl; [exact Hpos|]. simpl. intros x. by rewrite Hk.
  - apply Forall_map. eapply Forall_impl; [exact Hfit|]. auto.
Qed.

Lemma table_wf_filter (P : R → Prop) `{∀ x, Decision (P x)} (t : table R) :
  table_wf key fits t → table_wf key fits (mkTable (filter P (rows t)) (auto_increment t)).
Proof.
  intros (Hs & Hb & Hpos & Hfit & Hai); unfold table_wf, counter_above in *; simpl.
  refine (conj _ (conj _ (conj _ (conj _ Hai)))); [|destruct Hb|..]; eauto with tm.
Qed.

Lemma bump_range k : 1 ≤ k ≤ INT_MAX → k ≤ bump k ≤ INT_MAX ∧ (bump k = INT_MAX ∨ k < bump k).
Proof. unfold bump, INT_MAX. lia. Qed.

(** A key the counter hands out that no row has is above every stored
    key: below saturation by the counter, at it because keys fit an [INT]. *)
Lemma next_key_fresh (t : table R) :
  table_wf key fits t → Forall (λ r, key r ≠ next_key t) (rows t) →
  next_key t = auto_increment t ∧ 1 ≤ next_key t ≤ INT_MAX ∧
  Forall (λ r, key r < next_key t) (rows t).
Proof.
  intros (_ & Hb & Hpos & _ & Hai) Hne. unfold next_key in *.
  rewrite Z.min_l in * by lia. split_and!; [done|lia|lia|].
  destruct Hb as [Hmax|Hb]; [|done]. rewrite Forall_forall in Hpos, Hne |- *.
  intros r Hr. specialize (Hpos r Hr). specialize (Hne r Hr). lia.
Qed.

(** Below saturation, the key drawn is fresh. *)
Lemma next_key_unused (t : table R) :
  table_wf key fits t → auto_increment t < INT_MAX → Forall (λ r, key r ≠ next_key t) (rows t).
Proof.
  intros (_ & [Hmax|Hb] & _ & _ & Hai) Hlt; [lia|]. unfold next_key. rewrite Z.min_l by lia.
  eapply Forall_impl; [exact Hb|]. simpl. lia.
Qed.

Lemma table_wf_snoc (t : table R) x :
  table_wf key fits t → fits x → key x = next_key t → Forall (λ r, key r ≠ key x) (rows t) →
  table_wf key fits (mkTable (rows t ++ [x]) (bump (key x))).
Proof.
  intros Hwf Hx Hkx Hne. rewrite Hkx in Hne |- *.
  destruct (next_key_fresh t Hwf Hne) as (Hk & Hr & Hlt).
  destruct Hwf as (Hs & Hb & Hpos & Hfit & Hai); unfold table_wf, counter_above; simpl.
  destruct (bump_range (next_key t) Hr) as [Hbr Hsat]. split_and!.
  - eapply keys_sorted_snoc; [exact Hs|exact Hlt|]. lia.
  - destruct Hsat as [Hsat|Hgt]; [by left|right]. eapply keys_below_snoc; [exact Hlt| |]; lia.
  - apply Forall_app; split; [done|]. repeat constructor; lia.
  - apply Forall_app; split; [done|]. by repeat constructor.
  - lia.
  - lia.
Qed.

Lemma table_wf_burn (t : table R) : table_wf key fits t → table_wf key fits (burn_key t).
Proof.
  intros (Hs & Hb & Hpos & Hfit & Hai); unfold table_wf, counter_above, burn_key, next_key in *;
    simpl. rewrite Z.min_l by lia.
  destruct (bump_range (auto_increment t) Hai) as [Hbr [Hsat|Hgt]]; split_and!; auto; try lia.
  right. destruct Hb as [Hmax|Hb]; [lia|]. eapply Forall_impl; [exact Hb|]. simpl. lia.
Qed.
Lemma empty_table_wf : table_wf key fits empty_table.
Proof.
  unfold table_wf, counter_above, keys_sorted, keys_below, INT_MAX; simpl.
  split; [apply SSorted_nil|]. split; [right; constructor|]. split_and!; [constructor|constructor|lia|lia].
Qed.
End TableFacts.

Lemma int_fits_iff z : int_fits z = true ↔ INT_MIN ≤ z ≤ INT_MAX.
Proof. unfold int_fits. rewrite andb_true_iff, !Z.leb_le. done. Qed.

Lemma fk_ok_tasks_map d d' (g : task_row → task_row) :
  (∀ r, task_id (g r) = task_id r) →
  task_rows d' = map g (task_rows d) → comment_rows d' = comment_rows d →
  fk_ok d → fk_ok d'.
Proof.
  intros Hg Ht Hc. unfold fk_ok. rewrite Ht, Hc. intros H.
  eapply Forall_impl; [exact H|]. intros c (r & Hr & Hid). exists (g r). rewrite Hg. split; [|done].
  apply list_elem_of_In, in_map, list_elem_of_In, Hr.
Qed.

Lemma fk_ok_tasks_snoc d d' x :
  task_rows d' = task_rows d ++ [x] → comment_rows d' = comment_rows d →
  fk_ok d → fk_ok d'.
Proof.
  intros Ht Hc. unfold fk_ok. rewrite Ht, Hc. intros H.
  eapply Forall_impl; [exact H|]. intros c (r & Hr & Hid). exists r. split; [|done]. set_solver.
Qed.

Lemma fk_ok_comments_snoc d d' c :
  task_rows d' = task_rows d → comment_rows d' = comment_rows d ++ [c] →
  (∃ r, r ∈ task_rows d ∧ task_id r = comment_task_id c) →
  fk_ok d → fk_ok d'.
Proof.
  intros Ht Hc Hr. unfold fk_ok. rewrite Ht, Hc. intros H.
  apply Forall_app; split; [done|]. by repeat constructor.
Qed.

Lemma fk_ok_delete d d' k :
  task_rows d' = filter (λ r, task_id r ≠ k) (task_rows d) →
  comment_rows d' = filter (λ c, comment_task_id c ≠ k) (comment_rows d) →
  fk_ok d → fk_ok d'.
Proof.
  intros Ht Hc. unfold fk_ok. rewrite Ht, Hc. intros H.
  apply Forall_forall. intros c Hc'. apply list_elem_of_filter in Hc' as [Hne Hc'].
  rewrite Forall_forall in H. destruct (H c Hc') as (r & Hr & Hid).
  exists r. split; [|done]. apply list_elem_of_filter. split; [congruence|done].
Qed.

Lemma exists_key_elem (k : Z) (l : list task_row) :
  bool_decide (Exists (λ r, task_id r = k) l) = true → ∃ r, r ∈ l ∧ task_id r = k.
Proof. rewrite bool_decide_eq_true, Exists_exists. done. Qed.

Ltac wf_unfold :=
  unfold pym_preserves, db_wf, set_tasks, set_comments, commit_db, fail,
         task_rows, comment_rows in *; simpl in *.

Lemma create_tasks_table_wf : pym_preserves db_wf create_tasks_table.
Proof.
  intros [[t|] [c|]] Hwf; unfold create_tasks_table; pym_simpl; wf_unfold; auto.
  - destruct Hwf as (_ & _ & Hsome & _). by destruct Hsome.
  - split_and!; try done; [|by constructor].
    intros ? [= <-]. apply empty_table_wf.
Qed.

Lemma create_comments_table_wf : pym_preserves db_wf create_comments_table.
Proof.
  intros [[t|] [c|]] Hwf; unfold create_comments_table; pym_simpl; wf_unfold; auto.
  destruct Hwf as (Ht & _ & _ & _). split_and!; auto; [|by constructor].
  intros ? [= <-]. apply empty_table_wf.
Qed.

Lemma insert_task_wf ttl desc due prio who done_ :
  pym_preserves db_wf (insert_task ttl desc due prio who done_).
Proof.
  intros [[t|] c] Hwf; unfold insert_task, fail, commit_db; pym_simpl; [|done].
  destruct (varchar_fits 255 ttl) eqn:H1; simpl; [|done].
  destruct (varchar_fits TEXT_MAX desc) eqn:H2; simpl; [|done].
  destruct (int_fits prio) eqn:H3; simpl; [|done].
  destruct (opt_varchar_fits 255 who) eqn:H4; simpl; [|done].
  destruct Hwf as (Ht & Hc & Hsome & Hfk); simpl in *.
  case_bool_decide as Hex; simpl; split_and!; simpl; auto.
  - intros ? [= <-]. by apply table_wf_burn, Ht.
  - intros ? [= <-]. apply not_Exists_Forall in Hex.
    destruct (next_key_fresh _ _ _ (Ht t eq_refl) Hex) as (_ & Hrange & _).
    eapply (table_wf_snoc task_id task_row_fits t); [exact (Ht t eq_refl)| |reflexivity|exact Hex].
    repeat split; auto. apply int_fits_iff. unfold INT_MIN; simpl; lia.
  - eapply fk_ok_tasks_snoc; [| |exact Hfk]; reflexivity.
Qed.

Lemma foldl_apply_set_key r us : task_id (foldl apply_set r us) = task_id r.
Proof. revert r. induction us as [|[] us IH]; intros r; simpl; rewrite ?IH; done. Qed.

Lemma foldl_apply_set_fits r us :
  omap check_set us = [] → task_row_fits r → task_row_fits (foldl apply_set r us).
Proof.
  revert r. induction us as [|[s|dd] us IH]; intros r; simpl; [auto| |].
  - destruct (varchar_fits 20 s) eqn:Hs; simpl; [|done].
    intros Hus Hr. apply IH; [done|]. unfold task_row_fits in *. simpl. tauto.
  - intros Hus Hr. apply IH; [done|]. unfold task_row_fits in *. simpl. tauto.
Qed.

Lemma cond_update_key k (f : task_row → task_row) r :
  (∀ r, task_id (f r) = task_id r) →
  task_id (if decide (task_id r = k) then f r else r) = task_id r.
Proof. intros Hkey. case_decide; auto. Qed.

Lemma update_where_id_wf k chk f :
  (∀ r, task_id (f r) = task_id r) →
  (chk = None → ∀ r, task_row_fits r → task_row_fits (f r)) →
  pym_preserves db_wf (update_where_id k chk f).
Proof.
  intros Hkey Hfit [[t|] c] Hwf; unfold update_where_id, fail, commit_db; pym_simpl; [|done].
  case_bool_decide; simpl; [|done]. destruct chk; simpl; [done|].
  destruct Hwf as (Ht & Hc & Hsome & Hfk); simpl in *.
  split_and!; simpl; auto.
  - intros ? [= <-]. apply table_wf_map; auto using cond_update_key.
    intros r. case_decide; auto.
  - apply (fk_ok_tasks_map (mkDb (Some t) c) _
      (λ r, if decide (task_id r = k) then f r else r)); [|done|done|done].
    intros r. by apply cond_update_key.
Qed.

Lemma update_task_wf us k : pym_preserves db_wf (update_task us k).
Proof.
  destruct us as [|u us]; [by intros ? ?|]. apply update_where_id_wf.
  - intros r. apply foldl_apply_set_key.
  - intros Hnone r. apply foldl_apply_set_fits.
    destruct (omap check_set (u :: us)); [done|discriminate].
Qed.

Lemma update_assigned_to_wf who k : pym_preserves db_wf (update_assigned_to who k).
Proof.
  apply update_where_id_wf; [done|].
  destruct (varchar_fits 255 who) eqn:Hw; [|discriminate].
  intros _ r. unfold task_row_fits; simpl. tauto.
Qed.

Lemma update_status_completed_wf k : pym_preserves db_wf (update_status_completed k).
Proof.
  apply update_where_id_wf; [done|]. intros _ r. unfold task_row_fits; simpl. tauto.
Qed.

Lemma delete_task_wf k : pym_preserves db_wf (delete_task k).
Proof.
  intros [[t|] c] Hwf; unfold delete_task, fail, commit_db; pym_simpl; [|done].
  destruct Hwf as (Ht & Hc & Hsome & Hfk); simpl in *.
  split_and!; simpl.
  - intros ? [= <-]. by apply table_wf_filter, Ht.
  - destruct c; intros ? [= <-]. by apply table_wf_filter, Hc.
  - by eauto.
  - eapply fk_ok_delete; [| |exact Hfk]; [reflexivity|]. unfold comment_rows.
    simpl. destruct c; reflexivity.
Qed.

Lemma insert_comment_wf tid text : pym_preserves db_wf (insert_comment tid text).
Proof.
  intros [t [c|]] Hwf; unfold insert_comment, fail, commit_db; pym_simpl; [|done].
  destruct (int_fits tid) eqn:H1; simpl; [|done].
  destruct (varchar_fits TEXT_MAX text) eqn:H2; simpl; [|done].
  destruct Hwf as (Ht & Hc & Hsome & Hfk); simpl in *.
  case_bool_decide as Hex; [case_bool_decide as Hdup|]; simpl; split_and!; simpl; auto;
    try (intros ? [= <-]; by apply table_wf_burn, Hc).
  - intros ? [= <-]. apply not_Exists_Forall in Hdup.
    destruct (next_key_fresh _ _ _ (Hc c eq_refl) Hdup) as (_ & Hrange & _).
    eapply (table_wf_snoc comment_id comment_row_fits c); [exact (Hc c eq_refl)| |reflexivity|exact Hdup].
    repeat split; auto. apply int_fits_iff. unfold INT_MIN; simpl; lia.
  - apply (fk_ok_comments_snoc (mkDb t (Some c)) _ (mkComment (next_key c) tid text));
      [reflexivity|reflexivity| |exact Hfk].
    by apply exists_key_elem, bool_decide_eq_true.
Qed.

End DbFacts.

Export DbFacts.

(** ** What each statement does, branch by branch *)

Module DbSpec.

Ltac stmt_run := unfold fail, commit_db; pym_simpl.

Definition new_task (k : Z) (ttl desc : string) (due : date) (prio : Z)
    (who : option string) (b : bool) : task_row :=
  mkTask k ttl desc due prio who "Pending" b.

Lemma next_key_ok {R} (t : table R) : auto_increment t ≤ INT_MAX → next_key t = auto_increment t.
Proof. unfold next_key. lia. Qed.

(** At saturation a consumed key leaves the counter where it is. *)
Lemma burn_key_saturated {R} (t : table R) : auto_increment t = INT_MAX → burn_key t = t.
Proof. destruct t as [l n]; unfold burn_key, next_key, bump; simpl. intros ->. reflexivity. Qed.

Lemma insert_task_ok d t ttl desc due prio who b :
  tasks_ d = Some t → varchar_fits 255 ttl = true → varchar_fits TEXT_MAX desc = true →
  int_fits prio = true → opt_varchar_fits 255 who = true → auto_increment t ≤ INT_MAX →
  Forall (λ r, task_id r ≠ auto_increment t) (rows t) →
  insert_task ttl desc due prio who b d =
    (inr tt, set_tasks (mkTable (rows t ++ [new_task (auto_increment t) ttl desc due prio who b])
                                (bump (auto_increment t))) d).
Proof.
  intros Ht H1 H2 H3 H4 Hk Hne. unfold insert_task. stmt_run.
  rewrite Ht, H1, H2, H3, H4. simpl. rewrite next_key_ok by done.
  rewrite bool_decide_eq_false_2; [done|]. by apply Forall_Exists_neg.
Qed.

Lemma insert_task_title_too_long d t ttl desc due prio who b :
  tasks_ d = Some t → varchar_fits 255 ttl = false →
  insert_task ttl desc due prio who b d = (inl (ER_DATA_TOO_LONG "title"), d).
Proof. intros Ht H1. unfold insert_task. stmt_run. by rewrite Ht, H1. Qed.

(** The key drawn is taken: error 1062, the key consumed. *)
Lemma insert_task_dup d t ttl desc due prio who b :
  tasks_ d = Some t → varchar_fits 255 ttl = true → varchar_fits TEXT_MAX desc = true →
  int_fits prio = true → opt_varchar_fits 255 who = true → auto_increment t ≤ INT_MAX →
  Exists (λ r, task_id r = auto_increment t) (rows t) →
  insert_task ttl desc due prio who b d =
    (inl (ER_DUP_ENTRY (auto_increment t)), set_tasks (burn_key t) d).
Proof.
  intros Ht H1 H2 H3 H4 Hk Hex. unfold insert_task. stmt_run.
  rewrite Ht, H1, H2, H3, H4. simpl. rewrite next_key_ok by done.
  by rewrite bool_decide_eq_true_2.
Qed.

Lemma update_where_id_nomatch d t k chk f :
  tasks_ d = Some t → Forall (λ r, task_id r ≠ k) (rows t) →
  update_where_id k chk f d = (inr tt, d).
Proof.
  intros Ht Hno. unfold update_where_id. stmt_run. rewrite Ht.
  rewrite bool_decide_eq_false_2; [done|]. intros Hex.
  apply Exists_exists in Hex as (r & Hr & Hk). rewrite Forall_forall in Hno. by apply (Hno r).
Qed.

Lemma update_where_id_match d t k f :
  tasks_ d = Some t → Exists (λ r, task_id r = k) (rows t) →
  update_where_id k None f d =
    (inr tt, set_tasks (mkTable (map (λ r, if decide (task_id r = k) then f r else r) (rows t))
                                (auto_increment t)) d).
Proof.
  intros Ht Hex. unfold update_where_id. stmt_run. rewrite Ht.
  by rewrite bool_decide_eq_true_2.
Qed.

Lemma delete_task_rows d k :
  is_Some (tasks_ d) →
  ∃ d', delete_task k d = (inr tt, d') ∧
        task_rows d' = filter (λ r, task_id r ≠ k) (task_rows d) ∧
        comment_rows d' = filter (λ c, comment_task_id c ≠ k) (comment_rows d).
Proof.
  intros [t Ht]. unfold delete_task. stmt_run. rewrite Ht. eexists; split; [reflexivity|].
  unfold task_rows, comment_rows. simpl. rewrite Ht.
  split; [done|]. destruct (task_comments d); simpl; [done|]. by rewrite filter_nil.
Qed.

Lemma insert_comment_no_parent d c tid text :
  task_comments d = Some c → int_fits tid = true → varchar_fits TEXT_MAX text = true →
  Forall (λ r, task_id r ≠ tid) (task_rows d) →
  insert_comment tid text d = (inl ER_NO_REFERENCED_ROW_2, set_comments (burn_key c) d).
Proof.
  intros Hc H1 H2 Hno. unfold insert_comment. stmt_run.
  rewrite Hc, H1, H2. simpl. rewrite bool_decide_eq_false_2; [done|]. by apply Forall_Exists_neg.
Qed.

Lemma insert_comment_ok d c tid text :
  task_comments d = Some c → int_fits tid = true → varchar_fits TEXT_MAX text = true →
  auto_increment c ≤ INT_MAX → Forall (λ x, comment_id x ≠ auto_increment c) (rows c) →
  Exists (λ r, task_id r = tid) (task_rows d) →
  insert_comment tid text d =
    (inr tt, set_comments (mkTable (rows c ++ [mkComment (auto_increment c) tid text])
                                   (bump (auto_increment c))) d).
Proof.
  intros Hc H1 H2 Hk Hne Hex. unfold insert_comment. stmt_run.
  rewrite Hc, H1, H2. simpl. rewrite next_key_ok by done.
  rewrite bool_decide_eq_true_2 by done. rewrite bool_decide_eq_false_2; [done|].
  by apply Forall_Exists_neg.
Qed.

(** The rows a task contributes to the LEFT JOIN. *)
Definition matches_of (cs : list comment_row) (r : task_row) : list comment_row :=
  filter (λ c, comment_task_id c = task_id r) cs.

Lemma left_join_cons r ts cs :
  left_join (r :: ts) cs =
    match matches_of cs r with
    | [] => [join_row r None]
    | ms => (λ c, join_row r (Some c)) <$> ms
    end ++ left_join ts cs.
Proof. reflexivity. Qed.

(** The collation folds ASCII case: lowering is idempotent, so a name and
    its lower-case form select the same rows. *)
Lemma ascii_lower_idem a : ascii_lower (ascii_lower a) = ascii_lower a.
Proof. destruct a as [[] [] [] [] [] [] [] []]; vm_compute; reflexivity. Qed.

Lemma string_lower_idem s : string_lower (string_lower s) = string_lower s.
Proof. induction s as [|a s IH]; simpl; [done|]. by rewrite ascii_lower_idem, IH. Qed.

Lemma assignee_matches_lower name r :
  assignee_matches (string_lower name) r = assignee_matches name r.
Proof. unfold assignee_matches, collate_eq. by rewrite string_lower_idem. Qed.

Lemma where_assignee_lower name l :
  where_assignee (Some (string_lower name)) l = where_assignee (Some name) l.
Proof. simpl. apply list_filter_iff. intros r. by rewrite assignee_matches_lower. Qed.

Lemma select_view_lower name d :
  select_view (Some (string_lower name)) d = select_view (Some name) d.
Proof. unfold select_view, on_tasks. case_match; [by rewrite where_assignee_lower|done]. Qed.

(** The LEFT JOIN keeps every task: the full report has, for each
    task in key order, one row per comment on it, or a single row when it
    has none; its length is the sum over tasks of [max 1 (#comments)]. *)
Theorem left_join_length ts cs :
  length (left_join ts cs) = sum_list ((λ r, Nat.max 1 (length (matches_of cs r))) <$> ts).
Proof.
  induction ts as [|r ts IH]; [done|].
  rewrite left_join_cons, length_app, IH. simpl. f_equal.
  destruct (matches_of cs r); simpl; [done|]. by rewrite length_fmap.
Qed.

Lemma left_join_no_comments ts : left_join ts [] = (λ r, join_row r None) <$> ts.
Proof. induction ts as [|r ts IH]; [done|]. by rewrite left_join_cons, IH. Qed.

(** A small store used to instantiate the theorems: one task of alice's
    with one comment. *)
Definition jan1 : date := mkDate 2024 1 1.
Definition sample_task : task_row :=
  mkTask 1 "Ship release" "" jan1 2 (Some "alice") "Pending" false.
Definition sample_tasks : table task_row := mkTable [sample_task] 2.
Definition sample_comments : table comment_row := mkTable [mkComment 1 1 "first"] 2.
Definition sample_db : db := mkDb (Some sample_tasks) (Some sample_comments).

Lemma sample_db_wf : db_wf sample_db.
Proof.
  split_and!.
  - intros t [= <-]. split_and!; repeat constructor; vm_compute; congruence.
  - intros c [= <-]. split_and!; repeat constructor; vm_compute; congruence.
  - done.
  - repeat constructor. exists sample_task. split; [left|done].
Qed.

Definition long_title : string := Nat.iter 16 (String.append "xxxxxxxxxxxxxxxxx") EmptyString.

(** Discharge a hypothesis of a theorem at a concrete input. *)
Ltac concrete :=
  solve [ reflexivity | lia | apply sample_db_wf | eexists; reflexivity
        | simpl; lia
        | vm_compute; solve [ congruence | repeat constructor; vm_compute; congruence ] ].

End DbSpec.

Export DbSpec.
