(* ===== verification/Store.v ===== *)
(** * Store: the abstract contract of the two stores and its refinement

    Section 4 of the specification describes the Task Store and the
    Comment Store as collections of rows keyed by their surrogate id, with
    create, partial update, assign, mark, cascading delete and add-comment
    operations.  [AStore] states that contract on finite maps ([gmap Z]),
    with the two id counters; [abs] reads it off the tables of [Db]
    (rows in key order); [Refinement] proves that every write statement the
    program sends ([Stmt] in [Db]) implements its abstract operation when it
    succeeds, and changes nothing abstract but the comment counter when it
    fails.  [run_op_timeout] is what a write leaves when it times out
    waiting for a lock of the other connection (see [Session]): an INSERT
    has drawn its key. *)

From S2P Require Import Prelude Db.

Module AStore.

(** The rows of a table as a map from their key. *)
Section Abs.
Context {R : Type} (key : R → Z).

Fixpoint abs_rows (l : list R) : gmap Z R :=
  match l with
  | [] => ∅
  | x :: l' => <[key x := x]> (abs_rows l')
  end.
End Abs.

(** The counter a table would hand out next; a table not yet created
    starts at 1. *)
Definition counter {R} (o : option (table R)) : Z :=
  match o with Some t => auto_increment t | None => 1 end.

Record astore := mkAStore {
  a_tasks : gmap Z task_row;
  a_next_task : Z;
  a_comments : gmap Z comment_row;
  a_next_comment : Z
}.

Definition abs (d : db) : astore :=
  mkAStore (abs_rows task_id (task_rows d)) (counter (tasks_ d))
           (abs_rows comment_id (comment_rows d)) (counter (task_comments d)).

(** The write operations of the two stores, with the statement of [Db]
    each one sends. *)
Inductive op :=
| OCreate (ttl desc : string) (due : date) (prio : Z) (who : option string)
| OUpdate (us : list set_item) (k : Z)
| OAssign (who : string) (k : Z)
| OMark (k : Z)
| ODelete (k : Z)
| OComment (tid : Z) (text : string).

Definition run_op (o : op) : Stmt.write :=
  match o with
  | OCreate ttl desc due prio who => insert_task ttl desc due prio who false
  | OUpdate us k => update_task us k
  | OAssign who k => update_assigned_to who k
  | OMark k => update_status_completed k
  | ODelete k => delete_task k
  | OComment tid text => insert_comment tid text
  end.

Definition set_assignee (who : string) (r : task_row) : task_row :=
  mkTask (task_id r) (title r) (description r) (due_date r) (priority r)
         (Some who) (status r) (completed r).

(** What each operation promises on the abstract store. *)
Definition a_step (o : op) (s : astore) : astore :=
  match o with
  | OCreate ttl desc due prio who =>
    let k := a_next_task s in
    mkAStore (<[k := new_task k ttl desc due prio who false]> (a_tasks s)) (bump k)
             (a_comments s) (a_next_comment s)
  | OUpdate us k =>
    mkAStore (alter (λ r, foldl apply_set r us) k (a_tasks s)) (a_next_task s)
             (a_comments s) (a_next_comment s)
  | OAssign who k =>
    mkAStore (alter (set_assignee who) k (a_tasks s)) (a_next_task s)
             (a_comments s) (a_next_comment s)
  | OMark k =>
    mkAStore (alter (λ r, apply_set r (SetStatus "completed")) k (a_tasks s)) (a_next_task s)
             (a_comments s) (a_next_comment s)
  | ODelete k =>
    mkAStore (delete k (a_tasks s)) (a_next_task s)
             (filter (λ kv, comment_task_id kv.2 ≠ k) (a_comments s)) (a_next_comment s)
  | OComment tid text =>
    let k := a_next_comment s in
    mkAStore (a_tasks s) (a_next_task s)
             (<[k := mkComment k tid text]> (a_comments s)) (bump k)
  end.

(** The precondition under which the operation may succeed: a new row
    needs its key to be free (which can fail only once the counter has
    saturated), a comment needs its task. *)
Definition a_pre (o : op) (s : astore) : Prop :=
  match o with
  | OCreate _ _ _ _ _ => a_tasks s !! a_next_task s = None
  | OComment tid _ => is_Some (a_tasks s !! tid) ∧ a_comments s !! a_next_comment s = None
  | _ => True
  end.

(** What a write that timed out on a lock wait leaves in the database: an
    INSERT has drawn the key before it waited, every other write leaves
    nothing. *)
Definition run_op_timeout (o : op) : Stmt.write :=
  match o with
  | OCreate _ _ _ _ _ =>
    d ← pym_get;
    match tasks_ d with Some t => commit_db (set_tasks (burn_key t) d) | None => mret tt end
  | OComment _ _ =>
    d ← pym_get;
    match task_comments d with Some c => commit_db (set_comments (burn_key c) d) | None => mret tt end
  | _ => mret tt
  end.

End AStore.

Export AStore.

Module Refinement.

Section AbsRows.
Context {R : Type} (key : R → Z).

Lemma abs_rows_None l k : Forall (λ r, key r ≠ k) l → abs_rows key l !! k = None.
Proof.
  induction 1 as [|x l Hx _ IH]; simpl; [done|].
  by rewrite lookup_insert_ne by done.
Qed.

Lemma abs_rows_snoc l x :
  Forall (λ r, key r ≠ key x) l → abs_rows key (l ++ [x]) = <[key x := x]> (abs_rows key l).
Proof.
  induction 1 as [|y l Hy _ IH]; simpl; [done|].
  rewrite IH. by apply insert_insert_ne.
Qed.

Lemma abs_rows_alter (f : R → R) k l :
  (∀ r, key (f r) = key r) → NoDup (map key l) →
  abs_rows key (map (λ r, if decide (key r = k) then f r else r) l) = alter f k (abs_rows key l).
Proof.
  intros Hf. induction l as [|x l IH]; simpl; intros Hnd; [by rewrite alter_empty|].
  apply NoDup_cons in Hnd as [Hx Hnd].
  assert (Hnone : Forall (λ r, key r ≠ key x) l).
  { apply Forall_forall. intros r Hr Heq. apply Hx. rewrite <- Heq.
    apply list_elem_of_In, in_map, list_elem_of_In, Hr. }
  case_decide as Hk.
  - rewrite Hf, IH by done. subst k.
    rewrite alter_insert_eq, alter_id'; [done|]. by apply abs_rows_None.
  - rewrite IH by done. by rewrite alter_insert_ne.
Qed.

Lemma abs_rows_delete k l :
  NoDup (map key l) → abs_rows key (filter (λ r, key r ≠ k) l) = delete k (abs_rows key l).
Proof.
  induction l as [|x l IH]; simpl; intros Hnd; [by rewrite delete_empty|].
  apply NoDup_cons in Hnd as [Hx Hnd]. rewrite filter_cons.
  case_decide as Hk; simpl.
  - rewrite IH by done. by rewrite delete_insert_ne.
  - subst k. rewrite IH by done. by rewrite delete_insert_eq.
Qed.

Lemma abs_rows_filter (P : R → Prop) `{∀ x, Decision (P x)} l :
  NoDup (map key l) → abs_rows key (filter P l) = filter (λ kv, P kv.2) (abs_rows key l).
Proof.
  induction l as [|x l IH]; simpl; intros Hnd; [by rewrite map_filter_empty|].
  apply NoDup_cons in Hnd as [Hx Hnd]. rewrite filter_cons.
  case_decide as HP; simpl.
  - rewrite IH by done. by rewrite map_filter_insert_True.
  - rewrite map_filter_insert_False by done. rewrite delete_id; [by apply IH|].
    apply abs_rows_None, Forall_forall. intros r Hr Heq. apply Hx. rewrite <- Heq.
    apply list_elem_of_In, in_map, list_elem_of_In, Hr.
Qed.
Lemma abs_rows_elem l r : r ∈ l → is_Some (abs_rows key l !! key r).
Proof.
  induction l as [|x l IH]; simpl; [by intros ?%elem_of_nil|].
  intros [->|Hr]%elem_of_cons.
  - by rewrite lookup_insert_eq.
  - destruct (decide (key x = key r)) as [->|Hne].
    + by rewrite lookup_insert_eq.
    + rewrite lookup_insert_ne by done. by apply IH.
Qed.
Lemma abs_rows_lookup l i x : abs_rows key l !! i = Some x → x ∈ l.
Proof.
  induction l as [|y l IH]; simpl; [done|]. destruct (decide (key y = i)) as [<-|Hne].
  - rewrite lookup_insert_eq. intros [= ->]. by left.
  - rewrite lookup_insert_ne by done. intros H. right. by apply IH.
Qed.
End AbsRows.

Lemma wf_tasks d t : db_wf d → tasks_ d = Some t → table_wf task_id task_row_fits t.
Proof. intros (Ht & _) Hs. by apply Ht. Qed.

Lemma wf_comments d c : db_wf d → task_comments d = Some c → table_wf comment_id comment_row_fits c.
Proof. intros (_ & Hc & _) Hs. by apply Hc. Qed.

Lemma wf_task_keys d t : db_wf d → tasks_ d = Some t → NoDup (map task_id (rows t)).
Proof. intros Hwf Ht. apply keys_sorted_NoDup. apply (wf_tasks d t Hwf Ht). Qed.

Lemma wf_comment_keys d c : db_wf d → task_comments d = Some c → NoDup (map comment_id (rows c)).
Proof. intros Hwf Hc. apply keys_sorted_NoDup. apply (wf_comments d c Hwf Hc). Qed.

(** The abstract store with its task map replaced. *)
Definition with_tasks (m : gmap Z task_row) (s : astore) : astore :=
  mkAStore m (a_next_task s) (a_comments s) (a_next_comment s).

Lemma update_where_id_abs k chk f d d' :
  (∀ r, task_id (f r) = task_id r) → db_wf d →
  update_where_id k chk f d = (inr tt, d') →
  abs d' = with_tasks (alter f k (a_tasks (abs d))) (abs d).
Proof.
  intros Hf Hwf. destruct d as [[t|] c]; unfold update_where_id, fail, commit_db; pym_simpl;
    [|done].
  case_bool_decide as Hex.
  - destruct chk; [done|]. intros [= <-]. unfold abs, with_tasks, task_rows; simpl.
    rewrite abs_rows_alter; [done|done|]. by apply (wf_task_keys (mkDb (Some t) c)).
  - intros [= <-]. unfold abs, with_tasks, task_rows; simpl. rewrite alter_id'; [done|].
    apply abs_rows_None, Forall_forall. intros r Hr Hk. apply Hex, Exists_exists. eauto.
Qed.

Lemma insert_task_abs ttl desc due prio who d d' :
  db_wf d → insert_task ttl desc due prio who false d = (inr tt, d') →
  a_pre (OCreate ttl desc due prio who) (abs d) ∧
  abs d' = a_step (OCreate ttl desc due prio who) (abs d).
Proof.
  intros Hwf. destruct d as [[t|] c]; unfold insert_task, fail, commit_db; pym_simpl; [|done].
  repeat case_match; try done. case_bool_decide as Hex; [done|]. intros [= <-].
  apply not_Exists_Forall in Hex.
  destruct (next_key_fresh _ _ _ (wf_tasks (mkDb (Some t) c) t Hwf eq_refl) Hex) as (Hk & _ & _).
  unfold abs, task_rows; simpl. rewrite Hk in Hex |- *. split.
  - by apply abs_rows_None.
  - rewrite abs_rows_snoc; [done|]. done.
Qed.

Lemma insert_comment_abs tid text d d' :
  db_wf d → insert_comment tid text d = (inr tt, d') →
  a_pre (OComment tid text) (abs d) ∧ abs d' = a_step (OComment tid text) (abs d).
Proof.
  intros Hwf. destruct d as [t [c|]]; unfold insert_comment, fail, commit_db; pym_simpl;
    [|done].
  destruct (int_fits tid), (varchar_fits TEXT_MAX text); simpl; try done.
  case_bool_decide as Hex; [|done]. case_bool_decide as Hdup; [done|]. intros [= <-]. apply not_Exists_Forall in Hdup.
  destruct (next_key_fresh _ _ _ (wf_comments (mkDb t (Some c)) c Hwf eq_refl) Hdup)
    as (Hk & _ & _).
  unfold abs, comment_rows; simpl. rewrite Hk in Hdup |- *. split; [split|].
  - apply Exists_exists in Hex as (r & Hr & <-). by apply abs_rows_elem.
  - by apply abs_rows_None.
  - rewrite abs_rows_snoc; [done|]. done.
Qed.

Lemma delete_task_abs k d d' :
  db_wf d → delete_task k d = (inr tt, d') → abs d' = a_step (ODelete k) (abs d).
Proof.
  intros Hwf. destruct d as [[t|] c]; unfold delete_task, fail, commit_db; pym_simpl; [|done].
  intros [= <-]. unfold abs, task_rows, comment_rows; simpl.
  rewrite abs_rows_delete by (by apply (wf_task_keys (mkDb (Some t) c))).
  destruct c as [c|]; simpl; [|by rewrite map_filter_empty].
  rewrite (abs_rows_filter comment_id (λ x, comment_task_id x ≠ k));
    [done|by apply (wf_comment_keys (mkDb (Some t) (Some c)))].
Qed.

(** A statement that, when it fails on a well-formed database, leaves it
    as it was. *)
Definition fails_clean (s : Stmt.write) : Prop :=
  ∀ d e d', db_wf d → s d = (inl e, d') → d' = d.

Lemma set_tasks_same d t : tasks_ d = Some t → set_tasks t d = d.
Proof. destruct d; simpl. by intros ->. Qed.

Lemma set_comments_same d c : task_comments d = Some c → set_comments c d = d.
Proof. destruct d; simpl. by intros ->. Qed.

(** On a well-formed table a key is taken only once the counter has
    saturated, where drawing it leaves the counter in place. *)
Lemma burn_key_dup {R} (key : R → Z) fits (t : table R) :
  table_wf key fits t → Exists (λ r, key r = next_key t) (rows t) → burn_key t = t.
Proof.
  intros Hwf Hex. apply burn_key_saturated.
  destruct (decide (auto_increment t = INT_MAX)) as [|Hne]; [done|]. exfalso.
  pose proof Hwf as (_ & _ & _ & _ & Hai).
  eapply Forall_Exists_neg; [|exact Hex].
  apply next_key_unused with (fits := fits); [done|lia].
Qed.

Lemma insert_task_fails_clean ttl desc due prio who b :
  fails_clean (insert_task ttl desc due prio who b).
Proof.
  intros [[t|] c] e d' Hwf; unfold insert_task, fail, commit_db; pym_simpl; [|by intros [= _ <-]].
  destruct (varchar_fits 255 ttl), (varchar_fits TEXT_MAX desc), (int_fits prio),
    (opt_varchar_fits 255 who); simpl; try by intros [= _ <-].
  case_bool_decide as Hex; [|done]. intros [= _ <-]. simpl.
  rewrite (burn_key_dup task_id task_row_fits t); [done| |done].
  apply (wf_tasks (mkDb (Some t) c)); done.
Qed.

Lemma update_where_id_fails_clean k chk f : fails_clean (update_where_id k chk f).
Proof.
  intros [[t|] c] e d' _; unfold update_where_id, fail, commit_db; pym_simpl; [|by intros [= _ <-]].
  repeat case_match; by intros [= _ <-].
Qed.

Lemma update_task_fails_clean us k : fails_clean (update_task us k).
Proof.
  destruct us; [by intros d e d' _ [= _ <-]|]. apply update_where_id_fails_clean.
Qed.

Lemma delete_task_fails_clean k : fails_clean (delete_task k).
Proof. intros [[t|] c] e d' _; unfold delete_task, fail, commit_db; pym_simpl; by intros [= _ <-]. Qed.

(** A failed INSERT INTO task_comments on a well-formed database either
    changes nothing or, refused by the foreign key, only consumes a key. *)
Lemma insert_comment_fails tid text d e d' :
  db_wf d → insert_comment tid text d = (inl e, d') →
  d' = d ∨ (e = ER_NO_REFERENCED_ROW_2 ∧ ∃ c, task_comments d = Some c ∧
            d' = set_comments (burn_key c) d).
Proof.
  intros Hwf. destruct d as [t [c|]]; unfold insert_comment, fail, commit_db; pym_simpl;
    [|intros [= _ <-]; by left].
  destruct (int_fits tid), (varchar_fits TEXT_MAX text); simpl; try (intros [= _ <-]; by left).
  case_bool_decide; [case_bool_decide as Hdup|].
  - intros [= _ <-]. left. simpl.
    rewrite (burn_key_dup comment_id comment_row_fits c); [done| |done].
    apply (wf_comments (mkDb t (Some c))); done.
  - done.
  - intros [= <- <-]. right. split; [done|]. by exists c.
Qed.

(** Every successful write implements its abstract operation. *)
Lemma run_op_abs o d d' :
  db_wf d → run_op o d = (inr tt, d') → a_pre o (abs d) ∧ abs d' = a_step o (abs d).
Proof.
  intros Hwf Hrun. destruct o as [ttl desc due prio who|us k|who k|k|k|tid text];
    simpl in Hrun; unfold update_assigned_to, update_status_completed in Hrun.
  - by eapply insert_task_abs.
  - destruct us as [|u us]; [done|]. split; [done|].
    eapply update_where_id_abs; [intros r; apply foldl_apply_set_key|done|exact Hrun].
  - split; [done|]. eapply update_where_id_abs; [done|done|exact Hrun].
  - split; [done|]. eapply update_where_id_abs; [done|done|exact Hrun].
  - split; [done|]. by eapply delete_task_abs.
  - by eapply insert_comment_abs.
Qed.

(** A failed write on a well-formed database changes nothing abstract
    but, for a comment refused by its foreign key, the comment counter. *)
Lemma run_op_fail_abs o d e d' :
  db_wf d → run_op o d = (inl e, d') →
  a_tasks (abs d') = a_tasks (abs d) ∧ a_next_task (abs d') = a_next_task (abs d) ∧
  a_comments (abs d') = a_comments (abs d) ∧
  (a_next_comment (abs d') = a_next_comment (abs d) ∨
   (∃ tid text, o = OComment tid text ∧ e = ER_NO_REFERENCED_ROW_2 ∧
                a_next_comment (abs d') = bump (a_next_comment (abs d)))).
Proof.
  intros Hwf Hrun.
  assert (Hclean : d' = d → a_tasks (abs d') = a_tasks (abs d) ∧
            a_next_task (abs d') = a_next_task (abs d) ∧ a_comments (abs d') = a_comments (abs d) ∧
            (a_next_comment (abs d') = a_next_comment (abs d) ∨
             (∃ tid text, o = OComment tid text ∧ e = ER_NO_REFERENCED_ROW_2 ∧
                          a_next_comment (abs d') = bump (a_next_comment (abs d)))))
    by (intros ->; auto).
  destruct o as [ttl desc due prio who|us k|who k|k|k|tid text]; simpl in Hrun;
    unfold update_assigned_to, update_status_completed in Hrun;
    try (apply Hclean; revert Hwf Hrun;
         first [ apply insert_task_fails_clean | apply update_task_fails_clean
               | apply update_where_id_fails_clean | apply delete_task_fails_clean ]).
  destruct (insert_comment_fails _ _ _ _ _ Hwf Hrun) as [->|(-> & c & Hc & ->)]; [auto|].
  unfold abs, comment_rows, task_rows; simpl. rewrite Hc. simpl.
  split_and!; try done. right. do 2 eexists. split_and!; [done|done|].
  unfold burn_key, next_key. simpl. rewrite Z.min_l; [done|].
  destruct (wf_comments _ c Hwf Hc) as (_ & _ & _ & _ & Hai). lia.
Qed.

(** A write that timed out on a lock leaves the abstract rows, and moves
    at most the counter its INSERT drew from. *)
Lemma run_op_timeout_abs o d d' :
  db_wf d → run_op_timeout o d = (inr tt, d') →
  a_tasks (abs d') = a_tasks (abs d) ∧ a_comments (abs d') = a_comments (abs d) ∧
  (a_next_task (abs d') = a_next_task (abs d) ∨
   (∃ ttl desc due prio who, o = OCreate ttl desc due prio who ∧
      a_next_task (abs d') = bump (a_next_task (abs d)))) ∧
  (a_next_comment (abs d') = a_next_comment (abs d) ∨
   (∃ tid text, o = OComment tid text ∧ a_next_comment (abs d') = bump (a_next_comment (abs d)))).
Proof.
  intros Hwf. destruct o as [ttl desc due prio who|us k|who k|k|k|tid text];
    unfold run_op_timeout, commit_db; pym_simpl; try (intros [= <-]; auto; fail).
  - destruct (tasks_ d) as [t|] eqn:Ht; intros [= <-]; [|rewrite Ht; split_and!; try done; by left].
    destruct (wf_tasks _ t Hwf Ht) as (_ & _ & _ & _ & Hai).
    unfold abs, task_rows; simpl. rewrite Ht. split_and!; [done|done| |by left].
    right. do 5 eexists. split; [done|]. unfold next_key. by rewrite Z.min_l by lia.
  - destruct (task_comments d) as [c|] eqn:Hc; intros [= <-]; [|rewrite Hc; split_and!; try done; by left].
    destruct (wf_comments _ c Hwf Hc) as (_ & _ & _ & _ & Hai).
    unfold abs, comment_rows; simpl. rewrite Hc. split_and!; [done|done|by left|].
    right. do 2 eexists. split; [done|]. unfold next_key. by rewrite Z.min_l by lia.
Qed.

(** A failed write never changes the rows of [tasks_] (a refused
    INSERT only consumes a key). *)
Lemma run_op_fail_rows o d e d' :
  run_op o d = (inl e, d') → rows <$> tasks_ d' = rows <$> tasks_ d.
Proof.
  destruct d as [[t|] c]; destruct o as [ttl desc due prio who|[|u us] k|who k|k|k|tid text];
    simpl; unfold insert_task, update_task, update_assigned_to, update_status_completed,
    update_where_id, delete_task, insert_comment, fail, commit_db; pym_simpl;
    repeat (case_match; simpl); by intros [= _ <-].
Qed.

(** A timed-out write returns normally to [execute_op] and never
    changes the rows of [tasks_]. *)
Lemma run_op_timeout_tasks o d :
  (run_op_timeout o d).1 = inr tt ∧ rows <$> tasks_ (run_op_timeout o d).2 = rows <$> tasks_ d.
Proof.
  destruct o; unfold run_op_timeout, commit_db; pym_simpl; try done.
  - destruct (tasks_ d) as [t|] eqn:Ht; simpl; [done|by rewrite Ht].
  - destruct (task_comments d); [|done]. by destruct d.
Qed.

Lemma run_op_timeout_wf o : pym_preserves db_wf (run_op_timeout o).
Proof.
  intros d Hwf. destruct o; unfold run_op_timeout, commit_db; pym_simpl; try done.
  - destruct (tasks_ d) as [t|] eqn:Ht; [|done].
    destruct Hwf as (Hts & Hcs & Hsome & Hfk). destruct d as [t0 c0]; simpl in *; subst.
    split_and!; simpl; auto. intros ? [= <-]. by apply table_wf_burn, Hts.
  - destruct (task_comments d) as [c|] eqn:Hc; [|done].
    destruct Hwf as (Hts & Hcs & Hsome & Hfk). destruct d as [t0 c0]; simpl in *; subst.
    split_and!; simpl; auto. intros ? [= <-]. by apply table_wf_burn, Hcs.
Qed.

End Refinement.

Module RefinementSpec.
Import Refinement.

(** C6 (the statements implement the store contract): on a well-formed
    database, every write the program sends that succeeds transforms the
    abstract store exactly as its operation promises: a new task under the
    task counter, a key no task had, the counter advancing (up to its
    saturation at 2147483647); a partial update, assignment or mark
    applied to the task with that id if there is one (and nothing changed
    otherwise); a deletion of the task together with every comment on it;
    a new comment under the comment counter, a key no comment had, whose
    task exists. *)
Theorem run_op_refines o d d' :
  db_wf d → run_op o d = (inr tt, d') → a_pre o (abs d) ∧ abs d' = a_step o (abs d).
Proof. apply run_op_abs. Qed.

Lemma run_op_refines_witness :
  let o := OComment 1 "second" in
  ∃ d', run_op o sample_db = (inr tt, d') ∧
    (a_pre o (abs sample_db) ∧ abs d' = a_step o (abs sample_db)).
Proof.
  eexists. split; [vm_compute; reflexivity|].
  apply run_op_refines; [apply sample_db_wf|vm_compute; reflexivity].
Defined.

End RefinementSpec.
