(* ===== verification/Session.v ===== *)
(** * Session: the Python process around the database

    The state [main] of [src/task_manager_system.py] threads through every
    call: the database, the two connections it opens (one for the
    [TaskManager] object, line 248, one for the [TaskComments] object,
    line 249), the spreadsheets written by the reports, standard input and
    standard output.  Each connection runs with autocommit off (the
    connector's default) under InnoDB's REPEATABLE READ: its first read
    fixes a snapshot of the database that later reads of the same
    transaction see, until the connection commits.  Its transaction also
    keeps the InnoDB locks its statements took, a failed statement
    included (the program never rolls back), and a statement of the other
    connection that needs a conflicting lock waits for it, then fails with
    error 1205 once [innodb_lock_wait_timeout] (50 s) has passed.  The
    primitives below are [cursor.execute] + [fetchall] ([execute_query]),
    [cursor.execute] of a DDL statement ([execute_write]) or of one of the
    program's DML statements ([execute_op], with its locks),
    [connection.commit], [print] and [input]. *)

From S2P Require Import Prelude Db Store.

Module Session.

(** The two objects of [main], each with its own connection. *)
Inductive conn_id := TM | TC.

#[export] Instance conn_id_eq_dec : EqDecision conn_id.
Proof. solve_decision. Defined.

(** A lock that InnoDB keeps for a connection's open transaction on the
    index of [tasks_], until the transaction ends.  The program's
    statements leave two kinds behind when they fail (a successful write is
    followed at once by the commit of its method, which releases its locks
    before the other connection sends anything):
    - [GapS tid]: the shared gap lock that the foreign-key check of a
      comment on a missing task [tid] sets on the gap of the index where
      [tid] would be (InnoDB keeps it when the check fails);
    - [RecX k]: the exclusive lock an UPDATE sets on the row [k] before it
      fails on a value that does not fit its column (1406). *)
Inductive lock :=
| GapS (tid : Z)
| RecX (k : Z).

#[export] Instance lock_eq_dec : EqDecision lock.
Proof. solve_decision. Defined.

(** A connection: the read view of its open transaction, if a read has
    fixed one, and the locks the transaction holds. *)
Record conn := mkConn { snapshot : option db; locks : list lock }.

Definition fresh_conn : conn := mkConn None [].

Definition other (c : conn_id) : conn_id := match c with TM => TC | TC => TM end.

(** [g] and [k] lie in the same gap of the index [keys]: no key lies
    between them.  Deleting a row merges the two gaps around it, and a
    gap lock spreads to the merged gap (InnoDB does so when it purges the
    deleted record; the model takes the purge as immediate). *)
Definition same_gap (keys : list Z) (g k : Z) : bool :=
  forallb (λ x, negb ((Z.min g k <=? x) && (x <=? Z.max g k))) keys.

(** The insert-intention lock of an INSERT of key [k] conflicts with a
    gap lock on the gap [k] goes into. *)
Definition gap_locked (held : list lock) (keys : list Z) (k : Z) : bool :=
  existsb (λ l, match l with GapS g => same_gap keys g k | RecX _ => false end) held.

(** The foreign-key check of a comment on the task [tid] takes a shared
    lock on that row, which conflicts with an exclusive one. *)
Definition row_locked (held : list lock) (tid : Z) : bool := bool_decide (RecX tid ∈ held).

(** Whether [o] on the database [d] waits for one of the locks [held] by
    the other connection.  An UPDATE or DELETE takes exclusive record
    locks, which conflict with none of the locks above. *)
Definition waits_for (held : list lock) (o : op) (d : db) : bool :=
  match o with
  | OCreate _ _ _ _ _ =>
    match tasks_ d with
    | Some t => gap_locked held (task_id <$> rows t) (next_key t)
    | None => false
    end
  | OComment tid _ => row_locked held tid
  | _ => false
  end.

(** Whether a statement that ends with [r] got as far as its lock
    request: an INSERT into [tasks_] requests it to insert, after its
    checks and the duplicate test; a comment requests it for the
    foreign-key check, after its key is drawn and before the duplicate
    test; a refused foreign key ([1452]) has taken its gap lock without
    waiting. *)
Definition reaches_lock (o : op) (r : sql_error + unit) : bool :=
  match o, r with
  | OCreate _ _ _ _ _, inr _ => true
  | OComment _ _, inr _ => true
  | OComment _ _, inl (ER_DUP_ENTRY _) => true
  | _, _ => false
  end.

(** The locks a failed statement leaves to its transaction.  A
    duplicate-key error (only possible once a counter has saturated)
    leaves shared locks too, which are not modelled. *)
Definition failed_locks (o : op) (e : sql_error) : list lock :=
  match o, e with
  | OComment tid _, ER_NO_REFERENCED_ROW_2 => [GapS tid]
  | OUpdate _ k, ER_DATA_TOO_LONG _ => [RecX k]
  | OAssign _ k, ER_DATA_TOO_LONG _ => [RecX k]
  | _, _ => []
  end.

(** The [ValueError]s of the program: from [int()], from [strptime], from
    [pd.to_datetime] and from [DataFrame.to_excel]. *)
Inductive value_error :=
| VE_int_literal (s : string)
| VE_date_format (s : string)
| VE_day_out_of_range (s : string)
| VE_out_of_bounds_datetime
| VE_sheet_too_large.

Inductive py_exn :=
| MySQLError (e : sql_error)      (* mysql.connector.Error *)
| ValueError (v : value_error)
| EOFError                        (* input() at end of stdin *)
| TypeError                       (* a call that does not fit the callee *)
| NameError (name : string)       (* a global name not bound in the module *)
| AttributeError (cls name : string)
| ModuleNotFoundError (name : string)
| OutOfFuel.                      (* the model's loop bound, never the program's *)

(** The handlers of [main] that print an exception (lines 278-366). *)
Inductive handler :=
| HAddTask | HUpdate | HAssign | HMark | HRemove | HComment | HReports
| HMemberReport | HMySQL | HAny.

(** One [print] of the program, with the values it formats. *)
Inductive event :=
| EMenu                                   (* lines 252-264 *)
| ETaskAdded (ttl : string)               (* line 41 *)
| ENoTasks                                (* lines 55, 105, 135, 186, 228 *)
| ETaskLine (id : Z) (ttl : string) (due : date) (prio : Z) (st : string)
| ENoUpdates                              (* line 73 *)
| ETaskUpdated (id : Z)
| ETaskAssigned (id : Z) (who : string)
| ETaskMarked (id : Z)
| ETaskRemoved (id : Z)
| EMemberRow (who : option string)        (* line 139 *)
| ECommentAdded (id : Z)
| ECommentLine (tid : Z) (text : string)  (* line 190 *)
| EReportDownloading                      (* line 348 *)
| ENoValues                               (* line 211 *)
| EReportGenerated                        (* line 215 *)
| EMemberReportGenerated (file : string)  (* line 240 *)
| EBye                                    (* line 362 *)
| EHandled (h : handler) (e : py_exn).

(** A written spreadsheet: the rows of its DataFrame. *)
Definition member_row := (Z * string * Z * Z * string)%type.
Inductive xlsx :=
| FullReport (rows : list report_row)
| MemberReport (rows : list member_row).

Record world := mkWorld {
  w_db : db;
  w_tm : conn;
  w_tc : conn;
  w_files : gmap string xlsx;
  w_stdin : list string;
  w_stdout : list event
}.

Abbreviation M := (PyM world py_exn).

Definition conn_of (w : world) (c : conn_id) : conn :=
  match c with TM => w_tm w | TC => w_tc w end.

Definition set_conn (c : conn_id) (x : conn) (w : world) : world :=
  match c with
  | TM => mkWorld (w_db w) x (w_tc w) (w_files w) (w_stdin w) (w_stdout w)
  | TC => mkWorld (w_db w) (w_tm w) x (w_files w) (w_stdin w) (w_stdout w)
  end.

Definition set_db (d : db) (w : world) : world :=
  mkWorld d (w_tm w) (w_tc w) (w_files w) (w_stdin w) (w_stdout w).

Definition add_locks (self : conn_id) (ls : list lock) (w : world) : world :=
  let c := conn_of w self in set_conn self (mkConn (snapshot c) (locks c ++ ls)) w.

(** What a read of connection [c] sees. *)
Definition read_view (c : conn) (d : db) : db :=
  match snapshot c with Some v => v | None => d end.

(** [cursor.execute(query)] + [cursor.fetchall()]: a consistent read; the
    first one of a transaction fixes the snapshot. *)
Definition execute_query {A} (self : conn_id) (q : db → sql_error + A) : M A :=
  λ w, let v := read_view (conn_of w self) (w_db w) in
       match q v with
       | inl e => (inl (MySQLError e), w)
       | inr a => (inr a, set_conn self (mkConn (Some v) (locks (conn_of w self))) w)
       end.

(** [cursor.execute(stmt)] for the [CREATE TABLE] statements of the
    constructors: it works on the latest rows; a failed statement is rolled
    back but keeps what the engine does not undo. *)
Definition execute_write (self : conn_id) (s : Stmt.write) : M unit :=
  λ w, match s (w_db w) with
       | (inl e, d') => (inl (MySQLError e), set_db d' w)
       | (inr _, d') => (inr tt, set_db d' w)
       end.

(** [cursor.execute(query, values)] for the INSERT, UPDATE and DELETE of
    the methods (lines 39, 80, 86, 114, 121, 169).  A statement that must
    wait for a lock of the other connection times out: only the statement
    is rolled back ([innodb_rollback_on_timeout] is off), keeping the key
    an INSERT drew.  Otherwise it runs on the latest rows, and a failure
    leaves its locks to the open transaction. *)
Definition execute_op (self : conn_id) (o : op) : M unit :=
  λ w, let '(r, d') := run_op o (w_db w) in
       if reaches_lock o r && waits_for (locks (conn_of w (other self))) o (w_db w) then
         (inl (MySQLError ER_LOCK_WAIT_TIMEOUT), set_db (run_op_timeout o (w_db w)).2 w)
       else
         match r with
         | inl e => (inl (MySQLError e), add_locks self (failed_locks o e) (set_db d' w))
         | inr _ => (inr tt, set_db d' w)
         end.

(** [self.connection.commit()]: ends the transaction, its snapshot and its
    locks. *)
Definition commit (self : conn_id) : M unit :=
  pym_modify (set_conn self fresh_conn).

Definition emit (ev : event) (w : world) : world :=
  mkWorld (w_db w) (w_tm w) (w_tc w) (w_files w) (w_stdin w) (w_stdout w ++ [ev]).

Definition print (ev : event) : M unit := pym_modify (emit ev).

(** [input()]: the next line, or [EOFError]. *)
Definition input : M string :=
  λ w, match w_stdin w with
       | [] => (inl EOFError, w)
       | l :: rest => (inr l, mkWorld (w_db w) (w_tm w) (w_tc w) (w_files w) rest (w_stdout w))
       end.

(** [df.to_excel(name, index=False)]: pandas refuses more rows than a sheet
    holds (1048576), otherwise the file is (over)written. *)
Definition EXCEL_MAX_ROWS : Z := 1048576.

Definition to_excel (name : string) (n : nat) (x : xlsx) : M unit :=
  if EXCEL_MAX_ROWS <? Z.of_nat n then pym_raise (ValueError VE_sheet_too_large)
  else pym_modify (λ w, mkWorld (w_db w) (w_tm w) (w_tc w) (<[name := x]> (w_files w))
                                (w_stdin w) (w_stdout w)).

End Session.

Export Session.

(** ** Facts about the primitives *)

Module SessionFacts.

(** A property of databases lifted to worlds: it holds of the database and
    of every snapshot a connection keeps. *)
Definition world_db_prop (P : db → Prop) (w : world) : Prop :=
  P (w_db w) ∧
  (∀ v, snapshot (w_tm w) = Some v → P v) ∧
  (∀ v, snapshot (w_tc w) = Some v → P v).

Definition world_wf : world → Prop := world_db_prop db_wf.

Section Lift.
Context (P : db → Prop).

Lemma read_view_prop c d :
  P d → (∀ v, snapshot c = Some v → P v) → P (read_view c d).
Proof. unfold read_view. destruct (snapshot c); auto. Qed.

Lemma execute_query_prop {A} self (q : db → sql_error + A) :
  pym_preserves (world_db_prop P) (execute_query self q).
Proof.
  intros w (Hd & Htm & Htc). unfold execute_query.
  destruct (q _); simpl; [by split_and!|].
  destruct self; simpl; split_and!; auto; intros v [= <-]; apply read_view_prop; auto.
Qed.

Lemma execute_write_prop self s :
  pym_preserves P s → pym_preserves (world_db_prop P) (execute_write self s).
Proof.
  intros Hs w (Hd & Htm & Htc). unfold execute_write.
  specialize (Hs (w_db w) Hd). destruct (s (w_db w)) as [[e|u] d']; simpl in *;
    split_and!; auto.
Qed.

Lemma add_locks_prop self ls w : world_db_prop P w → world_db_prop P (add_locks self ls w).
Proof. intros (Hd & Htm & Htc). destruct self; simpl; split_and!; auto. Qed.

Lemma execute_op_prop self o :
  pym_preserves P (run_op o) → pym_preserves P (run_op_timeout o) →
  pym_preserves (world_db_prop P) (execute_op self o).
Proof.
  intros Hs Ht w (Hd & Htm & Htc). unfold execute_op.
  specialize (Hs (w_db w) Hd). specialize (Ht (w_db w) Hd).
  destruct (run_op o (w_db w)) as [[e|u] d']; simpl in *;
    (destruct (_ && _); [split_and!; auto|]); [apply add_locks_prop|]; split_and!; auto.
Qed.

Lemma commit_prop self : pym_preserves (world_db_prop P) (commit self).
Proof.
  intros w (Hd & Htm & Htc). destruct self; simpl; split_and!; auto; by intros ?.
Qed.

Lemma print_prop ev : pym_preserves (world_db_prop P) (print ev).
Proof. by intros w H. Qed.

Lemma input_prop : pym_preserves (world_db_prop P) input.
Proof. intros w H. unfold input. by destruct (w_stdin w). Qed.

Lemma to_excel_prop name n x : pym_preserves (world_db_prop P) (to_excel name n x).
Proof. unfold to_excel. by destruct (_ <? _); intros w H. Qed.
End Lift.

(** Running the pattern [execute; commit; print] of the write methods. *)
Lemma write_commit_print_ok self (s : Stmt.write) ev w d' :
  s (w_db w) = (inr tt, d') →
  (execute_write self s;; commit self;; print ev) w =
    (inr tt, emit ev (set_conn self fresh_conn (set_db d' w))).
Proof. intros Hs. unfold execute_write. pym_simpl. by rewrite Hs. Qed.

Lemma write_commit_print_err self (s : Stmt.write) ev w e d' :
  s (w_db w) = (inl e, d') →
  (execute_write self s;; commit self;; print ev) w = (inl (MySQLError e), set_db d' w).
Proof. intros Hs. unfold execute_write. pym_simpl. by rewrite Hs. Qed.

(** Running [execute; commit; print] with one of the program's DML
    statements: when it does not wait for a lock, as its statement; when
    it fails, it leaves the locks of the failure. *)
Lemma op_commit_print_ok self o ev w d' :
  run_op o (w_db w) = (inr tt, d') → waits_for (locks (conn_of w (other self))) o (w_db w) = false →
  (execute_op self o;; commit self;; print ev) w =
    (inr tt, emit ev (set_conn self fresh_conn (set_db d' w))).
Proof. intros Hs Hw. unfold execute_op. pym_simpl. rewrite Hs, Hw, andb_false_r. done. Qed.

Lemma op_commit_print_err self o ev w e d' :
  run_op o (w_db w) = (inl e, d') → reaches_lock o (inl e) = false →
  (execute_op self o;; commit self;; print ev) w =
    (inl (MySQLError e), add_locks self (failed_locks o e) (set_db d' w)).
Proof. intros Hs Hr. unfold execute_op. pym_simpl. by rewrite Hs, Hr. Qed.

Lemma op_commit_print_timeout self o ev w r d' :
  run_op o (w_db w) = (r, d') → reaches_lock o r = true →
  waits_for (locks (conn_of w (other self))) o (w_db w) = true →
  (execute_op self o;; commit self;; print ev) w =
    (inl (MySQLError ER_LOCK_WAIT_TIMEOUT), set_db (run_op_timeout o (w_db w)).2 w).
Proof. intros Hs Hr Hw. unfold execute_op. pym_simpl. by rewrite Hs, Hr, Hw. Qed.

Lemma add_locks_nil self w : add_locks self [] w = w.
Proof. destruct self, w as [d [v l] [v' l'] f i o]; unfold add_locks; simpl; by rewrite app_nil_r. Qed.

(** Several prints in a row. *)
Definition emit_all (evs : list event) (w : world) : world :=
  mkWorld (w_db w) (w_tm w) (w_tc w) (w_files w) (w_stdin w) (w_stdout w ++ evs).

Lemma py_for_print {A} (l : list A) (f : A → event) w :
  py_for l (λ x, print (f x)) w = (inr tt, emit_all (f <$> l) w).
Proof.
  revert w. induction l as [|x l IH]; intros w; simpl.
  - unfold emit_all. destruct w; simpl. by rewrite app_nil_r.
  - pym_simpl. rewrite IH. unfold emit_all, emit. simpl. by rewrite <- app_assoc.
Qed.

Lemma set_db_id w : set_db (w_db w) w = w.
Proof. by destruct w. Qed.

(** The sample store of [Db] seen by a fresh process. *)
Definition sample_world : world := mkWorld sample_db fresh_conn fresh_conn ∅ [] [].

End SessionFacts.

Export SessionFacts.

(** ** The interface between the primitives and the program

    [StmtInvariant ok] says which statements of the program satisfy [ok];
    [WorldInvariant Q ok] says that every primitive keeps the world
    predicate [Q], a write doing so when its statement satisfies [ok].
    The methods and the shell are proved against these classes; an
    instance discharges them for one invariant. *)

Class StmtInvariant (ok : Stmt.write → Prop) := {
  ok_timeout : ∀ o, ok (run_op_timeout o);
  ok_create_tasks : ok create_tasks_table;
  ok_create_comments : ok create_comments_table;
  ok_insert_task : ∀ ttl desc due prio who, ok (insert_task ttl desc due prio who false);
  ok_update_task : ∀ us k, ok (update_task us k);
  ok_assign : ∀ who k, ok (update_assigned_to who k);
  ok_mark : ∀ k, ok (update_status_completed k);
  ok_delete : ∀ k, ok (delete_task k);
  ok_insert_comment : ∀ tid text, ok (insert_comment tid text)
}.

Class WorldInvariant (Q : world → Prop) (ok : Stmt.write → Prop) := {
  inv_query : ∀ A self (q : db → sql_error + A), pym_preserves Q (execute_query self q);
  inv_write : ∀ self s, ok s → pym_preserves Q (execute_write self s);
  inv_op : ∀ self o, ok (run_op o) → ok (run_op_timeout o) → pym_preserves Q (execute_op self o);
  inv_commit : ∀ self, pym_preserves Q (commit self);
  inv_print : ∀ ev, pym_preserves Q (print ev);
  inv_input : pym_preserves Q input;
  inv_excel : ∀ name n x, pym_preserves Q (to_excel name n x)
}.

#[export] Instance db_prop_world_invariant (P : db → Prop) :
  WorldInvariant (world_db_prop P) (pym_preserves P).
Proof.
  split; intros; eauto using execute_query_prop, execute_write_prop, execute_op_prop, commit_prop,
    print_prop, input_prop, to_excel_prop.
Qed.

#[export] Instance db_wf_stmt_invariant : StmtInvariant (pym_preserves db_wf).
Proof.
  split; eauto using Refinement.run_op_timeout_wf, create_tasks_table_wf, create_comments_table_wf,
    insert_task_wf, update_task_wf, update_assigned_to_wf, update_status_completed_wf,
    delete_task_wf, insert_comment_wf.
Qed.

(** Every DML statement of the program is in [ok]. *)
Lemma ok_run_op `{StmtInvariant ok} o : ok (run_op o).
Proof.
  destruct o; simpl;
    [apply ok_insert_task|apply ok_update_task|apply ok_assign|apply ok_mark|apply ok_delete
    |apply ok_insert_comment].
Qed.

Lemma inv_op_all `{WorldInvariant Q ok} `{!StmtInvariant ok} self o :
  pym_preserves Q (execute_op self o).
Proof. apply inv_op; [apply ok_run_op|apply ok_timeout]. Qed.

(** Discharge [ok s] for a statement of the program. *)
Ltac stmt_ok :=
  first [ apply ok_create_tasks | apply ok_create_comments | apply ok_insert_task
        | apply ok_update_task | apply ok_assign | apply ok_mark | apply ok_delete
        | apply ok_insert_comment ].

#[export] Hint Resolve inv_query inv_write inv_op_all inv_commit inv_print inv_input inv_excel : tm.
#[export] Hint Extern 1 => stmt_ok : tm.
