(* ===== verification/TaskManager.v ===== *)
(** * TaskManager: the Task Store, class [TaskManager] of
    [src/task_manager_system.py] (lines 7-139)

    Each method is a computation of [Session.M] taking [self], the
    connection of the object it is called on; its body is the statements
    of the source in order: build the query, [cursor.execute], [fetchall]
    or [connection.commit], then [print].  The theorems state what each
    method does to the database, to the connection and to the output, on
    every branch, and that every method keeps the engine invariant and the
    program invariant that no row ever has [completed] set. *)

From S2P Require Import Prelude Db Store Session.

Module TaskManager.

(** [initialize_database], lines 18-32. *)
Definition initialize_database (self : conn_id) : M unit :=
  execute_write self create_tasks_table;;
  commit self.

(** [add_task(title, description, due_date, priority=1, assigned_to=None)],
    lines 36-41: the row is inserted with [completed = False]
    ([run_op (OCreate ..)] is [insert_task .. false]). *)
Definition add_task (self : conn_id) (ttl desc : string) (due : date) (prio : Z)
    (who : option string) : M unit :=
  execute_op self (OCreate ttl desc due prio who);;
  commit self;;
  print (ETaskAdded ttl).

(** [if assigned_to:] chooses the query with or without the WHERE clause. *)
Definition where_of (who : option string) : option string :=
  if truthy who then who else None.

(** The status column [view_tasks] prints, line 60. *)
Definition status_label (st : string) (c : bool) : string :=
  if c then "Completed" else st.

(** [view_tasks(assigned_to=None)], lines 43-61. *)
Definition view_tasks (self : conn_id) (who : option string) : M unit :=
  tasks ← execute_query self (select_view (where_of who));
  match tasks with
  | [] => print ENoTasks
  | _ => py_for tasks (λ '(i, ttl, due, p, st, c), print (ETaskLine i ttl due p (status_label st c)))
  end.

(** The line [view_tasks] prints for a row (line 61). *)
Definition task_line (r : task_row) : event :=
  ETaskLine (task_id r) (title r) (due_date r) (priority r) (status_label (status r) (completed r)).

(** The [updates] list of lines 66-70: [status] when truthy, [due_date]
    when given (a [date] object is always truthy). *)
Definition updates_of (st : option string) (due : option date) : list set_item :=
  (match st with Some s => if truthy st then [SetStatus s] else [] | None => [] end) ++
  (match due with Some d => [SetDueDate d] | None => [] end).

(** [update_task_details(task_id, status=None, due_date=None)],
    lines 65-83. *)
Definition update_task_details (self : conn_id) (k : Z) (st : option string)
    (due : option date) : M unit :=
  match updates_of st due with
  | [] => print ENoUpdates
  | updates =>
    execute_op self (OUpdate updates k);;
    commit self;;
    print (ETaskUpdated k)
  end.

(** [assign_task(task_id, assigned_to)], lines 85-90. *)
Definition assign_task (self : conn_id) (k : Z) (who : string) : M unit :=
  execute_op self (OAssign who k);;
  commit self;;
  print (ETaskAssigned k who).

(** [view_assign_task(assigned_to=None)], lines 93-110. *)
Definition view_assign_task (self : conn_id) (who : option string) : M unit :=
  tasks ← execute_query self (select_short (where_of who));
  match tasks with
  | [] => print ENoTasks
  | _ => py_for tasks (λ '(i, ttl, due, p, st), print (ETaskLine i ttl due p st))
  end.

(** [mark_task_completed(task_id)], lines 113-118. *)
Definition mark_task_completed (self : conn_id) (k : Z) : M unit :=
  execute_op self (OMark k);;
  commit self;;
  print (ETaskMarked k).

(** [remove_task(task_id)], lines 120-125. *)
Definition remove_task (self : conn_id) (k : Z) : M unit :=
  execute_op self (ODelete k);;
  commit self;;
  print (ETaskRemoved k).

(** [members()], lines 127-139: the commit comes before the rows are
    printed, one line per task. *)
Definition members (self : conn_id) : M unit :=
  tasks ← execute_query self select_assignees;
  commit self;;
  match tasks with
  | [] => print ENoTasks
  | _ => py_for tasks (λ who, print (EMemberRow who))
  end.

End TaskManager.

Export TaskManager.

(** ** Invariants kept by every method *)

Module TaskManagerFacts.

Ltac method_preserves := preserves_step; eauto with tm.

Section Preserve.
(** A world invariant kept by the primitives, for statements in [ok]. *)
Context {Q : world → Prop} {ok : Stmt.write → Prop}
  `{!WorldInvariant Q ok} `{!StmtInvariant ok}.

Lemma initialize_database_prop self :
  pym_preserves Q (initialize_database self).
Proof. unfold initialize_database. method_preserves. Qed.

Lemma add_task_prop self ttl desc due prio who :
  pym_preserves Q (add_task self ttl desc due prio who).
Proof. unfold add_task. method_preserves. Qed.

Lemma view_tasks_prop self who : pym_preserves Q (view_tasks self who).
Proof. unfold view_tasks. method_preserves. Qed.

Lemma update_task_details_prop self k st due :
  pym_preserves Q (update_task_details self k st due).
Proof. unfold update_task_details. method_preserves. Qed.

Lemma assign_task_prop self k who : pym_preserves Q (assign_task self k who).
Proof. unfold assign_task. method_preserves. Qed.

Lemma view_assign_task_prop self who :
  pym_preserves Q (view_assign_task self who).
Proof. unfold view_assign_task. method_preserves. Qed.

Lemma mark_task_completed_prop self k :
  pym_preserves Q (mark_task_completed self k).
Proof. unfold mark_task_completed. method_preserves. Qed.

Lemma remove_task_prop self k : pym_preserves Q (remove_task self k).
Proof. unfold remove_task. method_preserves. Qed.

Lemma members_prop self : pym_preserves Q (members self).
Proof. unfold members. method_preserves. Qed.
End Preserve.

(** The [completed] flag of every stored row is false. *)
Definition no_completed (d : db) : Prop := Forall (λ r, completed r = false) (task_rows d).

Lemma no_completed_tasks_same d d' :
  task_rows d' = task_rows d → no_completed d → no_completed d'.
Proof. unfold no_completed. by intros ->. Qed.

Lemma create_tasks_table_no_completed : pym_preserves no_completed create_tasks_table.
Proof.
  intros [[t|] c] H; unfold create_tasks_table; stmt_run; [done|].
  unfold no_completed, task_rows. simpl. constructor.
Qed.

Lemma insert_task_no_completed ttl desc due prio who :
  pym_preserves no_completed (insert_task ttl desc due prio who false).
Proof.
  intros [[t|] c] H; unfold insert_task; stmt_run; [|done].
  repeat (case_match; simpl; try done).
  unfold no_completed, task_rows in *. simpl in *. apply Forall_app. by repeat constructor.
Qed.

Lemma update_where_id_no_completed k chk f :
  (∀ r, completed (f r) = completed r) → pym_preserves no_completed (update_where_id k chk f).
Proof.
  intros Hf [[t|] c] H; unfold update_where_id; stmt_run; [|done].
  repeat (case_match; simpl; try done).
  unfold no_completed, task_rows in *. simpl in *. apply Forall_map.
  eapply Forall_impl; [exact H|]. intros r Hr. by case_decide; rewrite ?Hf.
Qed.

Lemma foldl_apply_set_completed r us : completed (foldl apply_set r us) = completed r.
Proof. revert r. induction us as [|[] us IH]; intros r; simpl; rewrite ?IH; done. Qed.

Lemma delete_task_no_completed k : pym_preserves no_completed (delete_task k).
Proof.
  intros [[t|] c] H; unfold delete_task; stmt_run; [|done].
  unfold no_completed, task_rows in *. simpl in *. by apply Forall_filter_keep.
Qed.

(** What [view_tasks] does when its query finds the table: one line per
    row matching the filter, in key order, or "No tasks available.", and
    the read view kept as the connection's snapshot. *)
Lemma view_tasks_run self who w t :
  tasks_ (read_view (conn_of w self) (w_db w)) = Some t →
  view_tasks self who w =
    (inr tt, emit_all (match where_assignee (where_of who) (rows t) with
                       | [] => [ENoTasks]
                       | rs => task_line <$> rs
                       end)
                      (set_conn self (mkConn (Some (read_view (conn_of w self) (w_db w))) (locks (conn_of w self))) w)).
Proof.
  intros Hv. unfold view_tasks. rewrite pym_run_bind. unfold execute_query.
  unfold select_view, on_tasks. rewrite Hv. cbv beta iota.
  destruct (where_assignee _ (rows t)) as [|r rs]; [reflexivity|].
  rewrite (py_for_ext _ _ (λ x, print (let '(i, ttl, due, p, st, c) := x in
                                       ETaskLine i ttl due p (status_label st c))))
    by (by intros [[[[[? ?] ?] ?] ?] ?] _).
  cbn [fmap list_fmap]. cbv beta iota.
  rewrite (py_for_print _ (λ x, let '(i, ttl, due, p, st, c) := x in
                                 ETaskLine i ttl due p (status_label st c))).
  do 2 f_equal. simpl. by rewrite <- list_fmap_compose.
Qed.

End TaskManagerFacts.

Export TaskManagerFacts.

(** ** What each method does *)

Module TaskManagerSpec.

Import Refinement.

Lemma wf_tasks_below d t :
  db_wf d → tasks_ d = Some t → auto_increment t < INT_MAX →
  Forall (λ r, task_id r < auto_increment t) (rows t).
Proof.
  intros Hwf Hs Hlt. destruct (wf_tasks d t Hwf Hs) as (_ & [Hmax|Hb] & _); [lia|done].
Qed.

(** C9 (add_task creates a fresh row): when the values fit their
    columns, the key counter has not reached 2147483647 and the
    [TaskComments] connection holds no gap lock on the gap the new key
    goes into, [add_task] appends one row whose key is the AUTO_INCREMENT
    counter, different from every stored key, with status ['Pending'] and
    [completed] false; comments are untouched, the connection's
    transaction is committed and the success line is printed. *)
Theorem add_task_spec self w t ttl desc due prio who :
  db_wf (w_db w) → tasks_ (w_db w) = Some t →
  varchar_fits 255 ttl = true → varchar_fits TEXT_MAX desc = true → int_fits prio = true →
  opt_varchar_fits 255 who = true → auto_increment t < INT_MAX →
  gap_locked (locks (conn_of w (other self))) (task_id <$> rows t) (auto_increment t) = false →
  ∃ w', add_task self ttl desc due prio who w = (inr tt, w') ∧
    task_rows (w_db w') =
      task_rows (w_db w) ++ [new_task (auto_increment t) ttl desc due prio who false] ∧
    Forall (λ r, task_id r ≠ auto_increment t) (task_rows (w_db w)) ∧
    comment_rows (w_db w') = comment_rows (w_db w) ∧
    snapshot (conn_of w' self) = None ∧
    w_stdout w' = w_stdout w ++ [ETaskAdded ttl].
Proof.
  intros Hwf Ht H1 H2 H3 H4 Hk Hgap. unfold add_task.
  pose proof (wf_tasks_below _ _ Hwf Ht Hk) as Hlt.
  assert (Hne : Forall (λ r, task_id r ≠ auto_increment t) (rows t))
    by (eapply Forall_impl; [exact Hlt|]; simpl; lia).
  rewrite (op_commit_print_ok _ (OCreate ttl desc due prio who) _ _ _ (insert_task_ok _ _ _ _ _ _ _ _ Ht H1 H2 H3 H4 ltac:(lia) Hne));
    [|simpl; rewrite Ht, next_key_ok by lia; exact Hgap].
  eexists; split; [reflexivity|].
  unfold task_rows, comment_rows. rewrite Ht. by destruct self.
Qed.

Lemma add_task_spec_witness :
  ∃ w', add_task TM "Write docs" "" jan1 1 (Some "bob") sample_world = (inr tt, w') ∧
    task_rows (w_db w') =
      task_rows (w_db sample_world) ++ [new_task 2 "Write docs" "" jan1 1 (Some "bob") false] ∧
    Forall (λ r, task_id r ≠ 2) (task_rows (w_db sample_world)) ∧
    comment_rows (w_db w') = comment_rows (w_db sample_world) ∧
    snapshot (conn_of w' TM) = None ∧
    w_stdout w' = w_stdout sample_world ++ [ETaskAdded "Write docs"].
Proof. apply (add_task_spec TM sample_world sample_tasks); concrete. Defined.

(** C28 (a title longer than VARCHAR(255) is refused): the INSERT fails
    with MySQL error 1406 on [title]; nothing is stored, committed or
    printed. *)
Theorem add_task_title_too_long self w t ttl desc due prio who :
  tasks_ (w_db w) = Some t → varchar_fits 255 ttl = false →
  add_task self ttl desc due prio who w = (inl (MySQLError (ER_DATA_TOO_LONG "title")), w).
Proof.
  intros Ht H1. unfold add_task.
  rewrite (op_commit_print_err _ (OCreate ttl desc due prio who) _ _ _ _ (insert_task_title_too_long _ _ _ _ _ _ _ _ Ht H1));
    [|done].
  by rewrite add_locks_nil, set_db_id.
Qed.

Lemma add_task_title_too_long_witness :
  add_task TM long_title "" jan1 1 None sample_world =
    (inl (MySQLError (ER_DATA_TOO_LONG "title")), sample_world).
Proof. apply (add_task_title_too_long TM sample_world sample_tasks); concrete. Defined.

(** C29 (the key counter saturates at 2147483647): once the AUTO_INCREMENT
    counter of [tasks_] has reached the largest [INT] while a task has that
    key, every [add_task] is given the key 2147483647 again and fails with
    error 1062 (duplicate entry), leaving the world unchanged. *)
Theorem add_task_key_saturated self w t ttl desc due prio who :
  tasks_ (w_db w) = Some t →
  varchar_fits 255 ttl = true → varchar_fits TEXT_MAX desc = true → int_fits prio = true →
  opt_varchar_fits 255 who = true → auto_increment t = INT_MAX →
  Exists (λ r, task_id r = INT_MAX) (rows t) →
  add_task self ttl desc due prio who w = (inl (MySQLError (ER_DUP_ENTRY INT_MAX)), w).
Proof.
  intros Ht H1 H2 H3 H4 Hk Hex. unfold add_task. rewrite <- Hk in Hex |- *.
  rewrite (op_commit_print_err _ (OCreate ttl desc due prio who) _ _ _ _
             (insert_task_dup _ _ _ _ _ _ _ _ Ht H1 H2 H3 H4 ltac:(lia) Hex)); [|done].
  by rewrite add_locks_nil, burn_key_saturated, set_tasks_same, set_db_id.
Qed.

Lemma add_task_key_saturated_witness :
  let w := set_db (set_tasks (mkTable [mkTask INT_MAX "Last" "" jan1 1 None "Pending" false] INT_MAX)
                             sample_db) sample_world in
  add_task TM "Write docs" "" jan1 1 None w = (inl (MySQLError (ER_DUP_ENTRY INT_MAX)), w).
Proof.
  apply (add_task_key_saturated TM _
           (mkTable [mkTask INT_MAX "Last" "" jan1 1 None "Pending" false] INT_MAX)); concrete.
Defined.

(** A task insert waits out a gap lock of the other connection: when
    the [TaskComments] connection holds a gap lock on the gap the new key
    goes into, [add_task] fails with error 1205 after
    [innodb_lock_wait_timeout]; no row is stored, the key is consumed all
    the same, nothing is committed or printed. *)
Theorem add_task_lock_timeout self w t ttl desc due prio who :
  tasks_ (w_db w) = Some t →
  varchar_fits 255 ttl = true → varchar_fits TEXT_MAX desc = true → int_fits prio = true →
  opt_varchar_fits 255 who = true → auto_increment t ≤ INT_MAX →
  Forall (λ r, task_id r ≠ auto_increment t) (rows t) →
  gap_locked (locks (conn_of w (other self))) (task_id <$> rows t) (auto_increment t) = true →
  add_task self ttl desc due prio who w =
    (inl (MySQLError ER_LOCK_WAIT_TIMEOUT), set_db (set_tasks (burn_key t) (w_db w)) w).
Proof.
  intros Ht H1 H2 H3 H4 Hk Hne Hgap. unfold add_task.
  rewrite (op_commit_print_timeout _ (OCreate ttl desc due prio who) _ _ _ _ (insert_task_ok _ _ _ _ _ _ _ _ Ht H1 H2 H3 H4 Hk Hne));
    [|done|simpl; rewrite Ht, next_key_ok by lia; exact Hgap].
  unfold run_op_timeout, commit_db. pym_simpl. by rewrite Ht.
Qed.

(** An update with nothing to update writes nothing: with a falsy
    status and no due date, [update_task_details] only prints
    "No updates provided."; database and connections are unchanged. *)
Theorem update_task_details_no_updates self w k st :
  truthy st = false →
  update_task_details self k st None w = (inr tt, emit ENoUpdates w).
Proof.
  intros Hst. unfold update_task_details, updates_of.
  destruct st as [s|]; [rewrite Hst|]; reflexivity.
Qed.


(** C27 (updating a missing id silently succeeds): when no row has key
    [k], [update_task_details] changes no row, commits and still prints
    that the task was updated. *)
Theorem update_task_details_missing_id self w t k st due :
  tasks_ (w_db w) = Some t → Forall (λ r, task_id r ≠ k) (rows t) →
  updates_of st due ≠ [] →
  update_task_details self k st due w =
    (inr tt, emit (ETaskUpdated k) (set_conn self fresh_conn w)).
Proof.
  intros Ht Hno Hne. unfold update_task_details.
  destruct (updates_of st due) as [|u us] eqn:Hu; [done|].
  rewrite (op_commit_print_ok _ (OUpdate (u :: us) k) _ _ (w_db w)); [by rewrite set_db_id| |done].
  apply (update_where_id_nomatch _ _ _ _ _ Ht Hno).
Qed.

Lemma update_task_details_missing_id_witness :
  update_task_details TM 7 (Some "Done") None sample_world =
    (inr tt, emit (ETaskUpdated 7) (set_conn TM fresh_conn sample_world)).
Proof. apply (update_task_details_missing_id TM sample_world sample_tasks); concrete. Defined.










(** What [view_tasks] prints when the label is the [status] column. *)
Definition view_tasks_by_status (self : conn_id) (who : option string) : M unit :=
  tasks ← execute_query self (select_view (where_of who));
  match tasks with
  | [] => print ENoTasks
  | _ => py_for tasks (λ '(i, ttl, due, p, st, c), print (ETaskLine i ttl due p st))
  end.

Lemma select_view_not_completed d flt l :
  no_completed d → select_view flt d = inr l → Forall (λ x, x.2 = false) l.
Proof.
  unfold select_view, on_tasks, no_completed, task_rows.
  destruct (tasks_ d); intros H [= <-]. apply Forall_fmap.
  destruct flt; simpl; [apply Forall_filter_keep|]; done.
Qed.

(** C26 (the "Completed" label of [view_tasks] is dead code): in every world
    where no row has [completed] set (an invariant of the program, see
    [Shell]), [view_tasks] prints exactly the [status] column: it behaves
    as [view_tasks_by_status]. *)
Theorem view_tasks_label_dead self who w :
  world_db_prop no_completed w → view_tasks self who w = view_tasks_by_status self who w.
Proof.
  intros (Hd & Htm & Htc). unfold view_tasks, view_tasks_by_status.
  rewrite !pym_run_bind. unfold execute_query.
  assert (Hv : no_completed (read_view (conn_of w self) (w_db w)))
    by (apply read_view_prop; destruct self; auto).
  destruct (select_view _ _) as [e|l] eqn:Hq; [done|].
  apply select_view_not_completed in Hq; [|done].
  destruct l as [|x l]; [done|]. erewrite py_for_ext; [reflexivity|].
  intros [[[[[i ttl] due] p] st] c] Hx.
  rewrite Forall_forall in Hq. apply Hq in Hx. simpl in Hx. by subst.
Qed.

Lemma view_tasks_label_dead_witness :
  view_tasks TM None sample_world = view_tasks_by_status TM None sample_world.
Proof.
  apply view_tasks_label_dead. split_and!; [repeat constructor| |]; by intros ?.
Defined.

(** C31 ([members] is not a set of members): with a fresh transaction,
    [members] prints one line per stored task, in key order, duplicates
    and unassigned rows included, or "No tasks available." when the table
    is empty. *)
Theorem members_one_line_per_task self w t :
  snapshot (conn_of w self) = None → tasks_ (w_db w) = Some t →
  ∃ w', members self w = (inr tt, w') ∧
    w_stdout w' = w_stdout w ++
      match rows t with
      | [] => [ENoTasks]
      | _ => EMemberRow <$> (assigned_to <$> rows t)
      end.
Proof.
  intros Hs Ht. unfold members. rewrite pym_run_bind. unfold execute_query, read_view.
  rewrite Hs. unfold select_assignees, on_tasks. rewrite Ht. rewrite pym_run_bind.
  unfold commit, pym_modify. cbv beta iota.
  destruct (rows t) as [|r rs] eqn:Hr.
  - eexists; split; [reflexivity|]. by destruct self.
  - cbn [fmap list_fmap]. rewrite (py_for_print (assigned_to r :: _) EMemberRow).
    eexists; split; [reflexivity|]. by destruct self.
Qed.

Lemma members_one_line_per_task_witness :
  ∃ w', members TM sample_world = (inr tt, w') ∧
    w_stdout w' = w_stdout sample_world ++
      match rows sample_tasks with
      | [] => [ENoTasks]
      | _ => EMemberRow <$> (assigned_to <$> rows sample_tasks)
      end.
Proof. apply members_one_line_per_task; concrete. Defined.

(** C30 (the assignee filter ignores ASCII case): [view_tasks] with a
    name behaves, on every world, exactly as with the name in lower case,
    printing the same lines and leaving the same state; the specification
    says "exact match" (the column's collation is [utf8mb4_0900_ai_ci]). *)
Theorem view_tasks_case_insensitive self name w :
  view_tasks self (Some (string_lower name)) w = view_tasks self (Some name) w.
Proof.
  unfold view_tasks, where_of, truthy. destruct name as [|a s]; [done|].
  simpl negb. rewrite !pym_run_bind. unfold execute_query.
  by rewrite (select_view_lower (String a s)).
Qed.

End TaskManagerSpec.

Export TaskManagerSpec.
