(* ===== verification/TaskComments.v ===== *)
(** * TaskComments: the Comment Store, methods [initialize_database],
    [add_task_comment] and [view_commnts] of class [TaskComments]
    ([src/task_manager_system.py], lines 143-190)

    The class reuses the [TaskManager] connection discipline: every method
    takes [self], the connection of the object.  The report methods of the
    same class are in [Reports]. *)

From S2P Require Import Prelude Db Store Session TaskManager.

Module TaskComments.

(** [initialize_database] of [TaskComments], lines 154-164: the override
    creates only [task_comments]. *)
Definition initialize_database (self : conn_id) : M unit :=
  execute_write self create_comments_table;;
  commit self.

(** [add_task_comment(task_id, comment)], lines 166-171. *)
Definition add_task_comment (self : conn_id) (tid : Z) (text : string) : M unit :=
  execute_op self (OComment tid text);;
  commit self;;
  print (ECommentAdded tid).

(** [view_commnts(assigned_to=None)], lines 174-190. *)
Definition view_commnts (self : conn_id) (who : option string) : M unit :=
  comments ← execute_query self (select_comments (where_of who));
  match comments with
  | [] => print ENoTasks
  | _ => py_for comments (λ c, print (ECommentLine (comment_task_id c) (comment c)))
  end.

End TaskComments.

Module TaskCommentsFacts.
Import TaskComments.

Section Preserve.
Context {Q : world → Prop} {ok : Stmt.write → Prop}
  `{!WorldInvariant Q ok} `{!StmtInvariant ok}.

Lemma comments_initialize_database_prop self :
  pym_preserves Q (initialize_database self).
Proof. unfold initialize_database. method_preserves. Qed.

Lemma add_task_comment_prop self tid text :
  pym_preserves Q (add_task_comment self tid text).
Proof. unfold add_task_comment. method_preserves. Qed.

Lemma view_commnts_prop self who : pym_preserves Q (view_commnts self who).
Proof. unfold view_commnts. method_preserves. Qed.
End Preserve.

Lemma create_comments_table_no_completed : pym_preserves no_completed create_comments_table.
Proof.
  intros [t [c|]] H; unfold create_comments_table; stmt_run; [done|].
  destruct t; simpl; [|done]. by apply (no_completed_tasks_same (mkDb (Some t) None)).
Qed.

Lemma insert_comment_no_completed tid text : pym_preserves no_completed (insert_comment tid text).
Proof.
  intros [t [c|]] H; unfold insert_comment; stmt_run; [|done].
  repeat (case_match; simpl; try done);
    by apply (no_completed_tasks_same (mkDb t (Some c))).
Qed.

Lemma update_task_no_completed us k : pym_preserves no_completed (update_task us k).
Proof.
  destruct us as [|u us]; [by intros ? ?|]. apply update_where_id_no_completed.
  intros r. apply foldl_apply_set_completed.
Qed.

Lemma run_op_timeout_no_completed o : pym_preserves no_completed (run_op_timeout o).
Proof.
  intros d H. apply (no_completed_tasks_same d); [|done].
  unfold task_rows. pose proof (proj2 (Refinement.run_op_timeout_tasks o d)) as Ht.
  by destruct (tasks_ (run_op_timeout o d).2), (tasks_ d); simplify_eq/=.
Qed.

(** Every statement the program sends keeps [completed] false. *)
#[export] Instance no_completed_stmt_invariant : StmtInvariant (pym_preserves no_completed).
Proof.
  split; auto using run_op_timeout_no_completed, create_tasks_table_no_completed, create_comments_table_no_completed,
    insert_task_no_completed, update_task_no_completed, delete_task_no_completed,
    insert_comment_no_completed;
    intros; apply update_where_id_no_completed; done.
Qed.

Import Refinement.

(** C15 (a comment on a missing task is refused, burns a key and keeps a
    lock): when no task has key [tid], [add_task_comment] raises the
    foreign-key error 1452, stores no comment, commits nothing and prints
    nothing; the comment table's AUTO_INCREMENT counter has still advanced
    (up to its saturation), and the connection's open transaction keeps
    the shared gap lock of the failed check on where [tid] would be in
    [tasks_]. *)
Theorem add_task_comment_orphan self w c tid text :
  task_comments (w_db w) = Some c → int_fits tid = true →
  varchar_fits TEXT_MAX text = true →
  Forall (λ r, task_id r ≠ tid) (task_rows (w_db w)) →
  add_task_comment self tid text w =
    (inl (MySQLError ER_NO_REFERENCED_ROW_2),
     add_locks self [GapS tid] (set_db (set_comments (burn_key c) (w_db w)) w)).
Proof.
  intros Hc H1 H2 Hno. unfold add_task_comment.
  by rewrite (op_commit_print_err _ (OComment tid text) _ _ _ _
                (insert_comment_no_parent _ _ _ _ Hc H1 H2 Hno)).
Qed.

Lemma add_task_comment_orphan_witness :
  add_task_comment TC 9 "orphan" sample_world =
    (inl (MySQLError ER_NO_REFERENCED_ROW_2),
     add_locks TC [GapS 9] (set_db (set_comments (burn_key sample_comments) (w_db sample_world))
                              sample_world)).
Proof. apply add_task_comment_orphan; concrete. Defined.

(** The key a comment on a well-formed store draws below saturation is
    free. *)
Lemma comment_key_free d c :
  db_wf d → task_comments d = Some c → auto_increment c < INT_MAX →
  Forall (λ x, comment_id x ≠ auto_increment c) (rows c).
Proof.
  intros Hwf Hc Hlt. pose proof (wf_comments d c Hwf Hc) as Hcw.
  rewrite <- (next_key_ok c) by lia. by apply (next_key_unused _ comment_row_fits).
Qed.

(** C22 (a comment on an existing task is stored): on a well-formed
    store, below the saturation of the comment counter, and when the
    [TaskManager] connection holds no exclusive lock on the task's row, the
    comment gets the counter as key, is appended after the existing
    comments, the transaction is committed (the connection's snapshot is
    dropped) and the success line is printed. *)
Theorem add_task_comment_spec self w c tid text :
  db_wf (w_db w) → task_comments (w_db w) = Some c → int_fits tid = true →
  varchar_fits TEXT_MAX text = true → auto_increment c < INT_MAX →
  Exists (λ r, task_id r = tid) (task_rows (w_db w)) →
  row_locked (locks (conn_of w (other self))) tid = false →
  ∃ w', add_task_comment self tid text w = (inr tt, w') ∧
    comment_rows (w_db w') = comment_rows (w_db w) ++ [mkComment (auto_increment c) tid text] ∧
    task_rows (w_db w') = task_rows (w_db w) ∧
    snapshot (conn_of w' self) = None ∧
    w_stdout w' = w_stdout w ++ [ECommentAdded tid].
Proof.
  intros Hwf Hc H1 H2 Hk Hex Hlock. unfold add_task_comment.
  rewrite (op_commit_print_ok _ (OComment tid text) _ _ _
             (insert_comment_ok _ _ _ _ Hc H1 H2 ltac:(lia) (comment_key_free _ _ Hwf Hc Hk) Hex))
    by done.
  eexists; split; [reflexivity|]. unfold comment_rows, task_rows. rewrite Hc.
  by destruct self.
Qed.

Lemma add_task_comment_spec_witness :
  ∃ w', add_task_comment TC 1 "second" sample_world = (inr tt, w') ∧
    comment_rows (w_db w') = comment_rows (w_db sample_world) ++ [mkComment 2 1 "second"] ∧
    task_rows (w_db w') = task_rows (w_db sample_world) ∧
    snapshot (conn_of w' TC) = None ∧
    w_stdout w' = w_stdout sample_world ++ [ECommentAdded 1].
Proof. apply (add_task_comment_spec TC sample_world sample_comments); concrete. Defined.

(** The assignee filter of [view_commnts] cannot work: called with a
    non-empty name it sends a query on a column [task_comments] does not
    have, and raises MySQL error 1054 without printing. *)
Lemma view_commnts_filter_fails self w c name :
  task_comments (read_view (conn_of w self) (w_db w)) = Some c → name ≠ ""%string →
  view_commnts self (Some name) w = (inl (MySQLError (ER_BAD_FIELD_ERROR "assigned_to")), w).
Proof.
  intros Hc Hn. unfold view_commnts, where_of, truthy. rewrite pym_run_bind.
  unfold execute_query, select_comments. rewrite Hc.
  destruct (String.eqb_spec name ""); [done|]. reflexivity.
Qed.

End TaskCommentsFacts.

Export TaskComments TaskCommentsFacts.
