(* ===== verification/Reports.v ===== *)
(** * Reports: the Report Generator, methods [generate_reports] and
    [view_assign_task_by_member] of class [TaskComments]
    ([src/task_manager_system.py], lines 206-240)

    Both read through the connection of the [TaskComments] object and
    write a spreadsheet with pandas.  [pd.to_datetime] (line 234) turns
    each due date into a [datetime64[ns]] value, a signed 64-bit count of
    nanoseconds since 1970-01-01, and fails with [OutOfBoundsDatetime] (a
    [ValueError]) outside that range; [to_excel] is [Session.to_excel]. *)

From S2P Require Import Prelude Db Session TaskManager TaskComments.

Module Reports.

(** Days from 1970-01-01 to a proleptic Gregorian date (the civil-from-days
    inverse numpy uses for [datetime64]). *)
Definition days_from_civil (y m d : Z) : Z :=
  let y' := if m <=? 2 then y - 1 else y in
  let era := y' / 400 in
  let yoe := y' - era * 400 in
  let mp := (m + 9) mod 12 in
  let doy := (153 * mp + 2) / 5 + d - 1 in
  let doe := yoe * 365 + yoe / 4 - yoe / 100 + doy in
  era * 146097 + doe - 719468.

Definition NS_PER_DAY : Z := 86400 * 1000000000.

(** [Timestamp.min] and [Timestamp.max]: int64, the smallest value being
    reserved for [NaT]. *)
Definition TS_MIN : Z := - 2 ^ 63 + 1.
Definition TS_MAX : Z := 2 ^ 63 - 1.

(** [pd.to_datetime] of one [date]: midnight of that day, in ns. *)
Definition to_datetime (dt : date) : option Z :=
  let ns := days_from_civil (year dt) (month dt) (day dt) * NS_PER_DAY in
  if (TS_MIN <=? ns) && (ns <=? TS_MAX) then Some ns else None.

(** [df['Due Date'] = pd.to_datetime(df['Due Date'])], line 234: the whole
    column is converted or the call raises. *)
Fixpoint to_datetime_column (rs : list short_row) : M (list member_row) :=
  match rs with
  | [] => mret []
  | (i, ttl, due, p, st) :: rs' =>
    match to_datetime due with
    | None => pym_raise (ValueError VE_out_of_bounds_datetime)
    | Some ns => rest ← to_datetime_column rs'; mret ((i, ttl, ns, p, st) :: rest)
    end
  end.

(** [generate_reports()], lines 206-215. *)
Definition generate_reports (self : conn_id) : M unit :=
  values ← execute_query self select_report;
  match values with
  | [] => print ENoValues
  | _ =>
    to_excel "reports.xlsx" (length values) (FullReport values);;
    print EReportGenerated
  end.

Definition member_guidance : string := "Please slecet valid memeber name".

(** [view_assign_task_by_member(assigned_to=None)], lines 217-240: the
    guidance message is returned, not printed. *)
Definition view_assign_task_by_member (self : conn_id) (who : option string) : M (option string) :=
  match who with
  | Some name =>
    if truthy who then
      tasks ← execute_query self (select_short (Some name));
      match tasks with
      | [] => print ENoTasks;; mret None
      | _ =>
        df ← to_datetime_column tasks;
        let file_name := String.append name ".xlsx" in
        to_excel file_name (length df) (MemberReport df);;
        print (EMemberReportGenerated file_name);;
        mret None
      end
    else mret (Some member_guidance)
  | None => mret (Some member_guidance)
  end.

End Reports.

Export Reports.

Module ReportsFacts.

Section Preserve.
Context {Q : world → Prop} {ok : Stmt.write → Prop}
  `{!WorldInvariant Q ok} `{!StmtInvariant ok}.

Lemma to_datetime_column_prop rs :
  pym_preserves Q (to_datetime_column rs).
Proof.
  induction rs as [|[[[[i ttl] due] p] st] rs IH]; simpl; [by intros ?|].
  destruct (to_datetime due); method_preserves.
Qed.
Local Hint Resolve to_datetime_column_prop : tm.

Lemma generate_reports_prop self : pym_preserves Q (generate_reports self).
Proof. unfold generate_reports. method_preserves. Qed.

Lemma view_assign_task_by_member_prop self who :
  pym_preserves Q (view_assign_task_by_member self who).
Proof. unfold view_assign_task_by_member. method_preserves. Qed.
End Preserve.

(** C32 (with no comments, the report is the task list): on a store with
    [N] tasks and no comments, [generate_reports] through a connection
    without an open snapshot writes ["reports.xlsx"] with exactly [N] rows,
    one per task in key order, all comment columns NULL. *)
Theorem generate_reports_no_comments self w t c :
  snapshot (conn_of w self) = None →
  tasks_ (w_db w) = Some t → task_comments (w_db w) = Some c → rows c = [] →
  rows t ≠ [] → Z.of_nat (length (rows t)) ≤ EXCEL_MAX_ROWS →
  ∃ w', generate_reports self w = (inr tt, w') ∧
    w_files w' !! "reports.xlsx"%string = Some (FullReport ((λ r, join_row r None) <$> rows t)) ∧
    w_stdout w' = w_stdout w ++ [EReportGenerated].
Proof.
  intros Hs Ht Hc Hnil Hne Hlen. unfold generate_reports. rewrite pym_run_bind.
  unfold execute_query, read_view. rewrite Hs. unfold select_report. rewrite Ht, Hc, Hnil.
  rewrite left_join_no_comments. destruct (rows t) as [|r ts] eqn:Hr; [done|].
  unfold to_excel. rewrite length_fmap.
  destruct (Z.ltb_spec EXCEL_MAX_ROWS (Z.of_nat (length (r :: ts)))) as [Hbig|_].
  { lia. }
  eexists; split; [reflexivity|]. destruct self; simpl; split; try done;
    by rewrite lookup_insert_eq.
Qed.

Lemma generate_reports_no_comments_witness :
  let w := set_db (set_comments empty_table sample_db) sample_world in
  ∃ w', generate_reports TC w = (inr tt, w') ∧
    w_files w' !! "reports.xlsx"%string =
      Some (FullReport ((λ r, join_row r None) <$> rows sample_tasks)) ∧
    w_stdout w' = w_stdout w ++ [EReportGenerated].
Proof. apply (generate_reports_no_comments TC _ sample_tasks empty_table); concrete. Defined.

(** C5 (a report shows the snapshot, not the tables): once the
    connection holds a snapshot, [generate_reports] exports the LEFT JOIN
    of the snapshot's rows whatever the current tables hold, and the
    snapshot is still there afterwards, since the method never commits. *)
Theorem generate_reports_snapshot self w v t c :
  snapshot (conn_of w self) = Some v → tasks_ v = Some t → task_comments v = Some c →
  left_join (rows t) (rows c) ≠ [] →
  Z.of_nat (length (left_join (rows t) (rows c))) ≤ EXCEL_MAX_ROWS →
  ∃ w', generate_reports self w = (inr tt, w') ∧
    w_files w' !! "reports.xlsx"%string = Some (FullReport (left_join (rows t) (rows c))) ∧
    snapshot (conn_of w' self) = Some v ∧ w_db w' = w_db w.
Proof.
  intros Hs Ht Hc Hne Hlen. unfold generate_reports. rewrite pym_run_bind.
  unfold execute_query, read_view. rewrite Hs. unfold select_report. rewrite Ht, Hc.
  destruct (left_join (rows t) (rows c)) as [|x xs] eqn:Hj; [done|].
  unfold to_excel. destruct (Z.ltb_spec EXCEL_MAX_ROWS (Z.of_nat (length (x :: xs)))); [lia|].
  eexists; split; [reflexivity|]. destruct self; simpl; split_and!; try done;
    by rewrite lookup_insert_eq.
Qed.

Lemma generate_reports_snapshot_witness :
  let w := mkWorld empty_db fresh_conn (mkConn (Some sample_db) []) ∅ [] [] in
  ∃ w', generate_reports TC w = (inr tt, w') ∧
    w_files w' !! "reports.xlsx"%string =
      Some (FullReport (left_join (rows sample_tasks) (rows sample_comments))) ∧
    snapshot (conn_of w' TC) = Some sample_db ∧ w_db w' = w_db w.
Proof. apply generate_reports_snapshot; concrete. Defined.

(** The member report without a name does nothing visible: with no
    name or an empty one, [view_assign_task_by_member] sends no query,
    writes no file and prints nothing; it returns the guidance message,
    which [main] discards (line 357). *)
Theorem member_report_requires_name self who w :
  truthy who = false →
  view_assign_task_by_member self who w = (inr (Some member_guidance), w).
Proof. intros H. unfold view_assign_task_by_member. destruct who; [by rewrite H|done]. Qed.

(** Pandas' datetime64[ns] range bounds the member report: every
    valid date from 1678 to 2261 converts, and a conversion always lies
    in the signed 64-bit range of [Timestamp]. *)
Theorem to_datetime_range dt :
  1678 ≤ year dt ≤ 2261 → 1 ≤ month dt ≤ 12 → 1 ≤ day dt ≤ 31 →
  ∃ ns, to_datetime dt = Some ns ∧ TS_MIN ≤ ns ≤ TS_MAX.
Proof.
  intros Hy Hm Hd. unfold to_datetime, days_from_civil, TS_MIN, TS_MAX, NS_PER_DAY.
  destruct dt as [y m d]; simpl in *.
  set (days := _ - 719468).
  assert (Hdays : -106700 ≤ days ≤ 106700).
  { subst days. destruct (Z.leb_spec m 2); Z.to_euclidean_division_equations; lia. }
  destruct (Z.leb_spec (- 2 ^ 63 + 1) (days * (86400 * 1000000000))); [|lia].
  destruct (Z.leb_spec (days * (86400 * 1000000000)) (2 ^ 63 - 1)); [|lia].
  eexists; split; [reflexivity|]. lia.
Qed.

Lemma to_datetime_far dt :
  2263 ≤ year dt → 1 ≤ month dt ≤ 12 → 1 ≤ day dt ≤ 31 → to_datetime dt = None.
Proof.
  intros Hy Hm Hd. unfold to_datetime, days_from_civil, TS_MIN, TS_MAX, NS_PER_DAY.
  destruct dt as [y m d]; simpl in *.
  set (days := _ - 719468).
  assert (Hdays : 106752 ≤ days).
  { subst days. destruct (Z.leb_spec m 2); Z.to_euclidean_division_equations; lia. }
  destruct (Z.leb_spec (days * (86400 * 1000000000)) (2 ^ 63 - 1)); [lia|].
  by rewrite andb_false_r.
Qed.

Lemma to_datetime_column_error rs w :
  Exists (λ x : short_row, to_datetime x.1.1.2 = None) rs →
  to_datetime_column rs w = (inl (ValueError VE_out_of_bounds_datetime), w).
Proof.
  induction 1 as [[[[[i ttl] due] p] st] rs Hx|[[[[i ttl] due] p] st] rs _ IH]; simpl in *.
  - by rewrite Hx.
  - destruct (to_datetime due); [|done]. by rewrite pym_run_bind, IH.
Qed.

(** C34 (a due date past 2262 breaks the member report): when a task of
    the member is due in year 2263 or later (a date the DATE column
    accepts), [view_assign_task_by_member] raises pandas'
    OutOfBoundsDatetime, a [ValueError], after its query and before
    writing any file; nothing is printed. *)
Theorem member_report_out_of_range self w t name r :
  snapshot (conn_of w self) = None → tasks_ (w_db w) = Some t → name ≠ ""%string →
  r ∈ where_assignee (Some name) (rows t) →
  2263 ≤ year (due_date r) → 1 ≤ month (due_date r) ≤ 12 → 1 ≤ day (due_date r) ≤ 31 →
  ∃ w', view_assign_task_by_member self (Some name) w =
          (inl (ValueError VE_out_of_bounds_datetime), w') ∧
        w_files w' = w_files w ∧ w_stdout w' = w_stdout w ∧ w_db w' = w_db w.
Proof.
  intros Hs Ht Hn Hr Hy Hm Hd. unfold view_assign_task_by_member, truthy.
  destruct (String.eqb_spec name ""); [done|]. cbn [negb].
  rewrite pym_run_bind. unfold execute_query, read_view. rewrite Hs.
  unfold select_short, on_tasks. rewrite Ht. cbv beta iota.
  assert (Hex : Exists (λ x : short_row, to_datetime x.1.1.2 = None)
    ((λ r, (task_id r, title r, due_date r, priority r, status r)) <$>
       where_assignee (Some name) (rows t))).
  { apply Exists_exists. eexists; split; [apply list_elem_of_fmap_2, Hr|].
    by apply to_datetime_far. }
  destruct (where_assignee (Some name) (rows t)) as [|r0 rs];
    [by apply elem_of_nil in Hr|].
  cbn [fmap list_fmap] in Hex |- *. rewrite pym_run_bind, (to_datetime_column_error _ _ Hex).
  eexists; split; [reflexivity|]. by destruct self.
Qed.

Lemma member_report_out_of_range_witness :
  let r := mkTask 1 "Plan 2300" "" (mkDate 2300 1 1) 1 (Some "alice") "Pending" false in
  let w := set_db (set_tasks (mkTable [r] 2) sample_db) sample_world in
  ∃ w', view_assign_task_by_member TC (Some "alice") w =
          (inl (ValueError VE_out_of_bounds_datetime), w') ∧
        w_files w' = w_files w ∧ w_stdout w' = w_stdout w ∧ w_db w' = w_db w.
Proof.
  intros r w. apply (member_report_out_of_range TC w (mkTable [r] 2) "alice" r); concrete.
Defined.

End ReportsFacts.

Export ReportsFacts.
