(* ===== verification/Input.v ===== *)
(** * Input: the coercions the shell applies to what the user types

    [main] (lines 242-366 of [src/task_manager_system.py]) turns input
    lines into values with [int(...)] and
    [datetime.strptime(s, '%Y-%m-%d').date()], and prints dates with
    [str(date)] (the f-strings of lines 61 and 110).  These are library
    functions of CPython; they are modelled after its implementation:
    - [int(s)] strips whitespace, takes an optional sign, then decimal
      digits with single underscores between digits;
    - [_strptime] compiles ['%Y-%m-%d'] to the regular expression
      [(\d\d\d\d)-(1[0-2]|0[1-9]|[1-9])-(3[01]|[12]\d|0[1-9]|[1-9]| [1-9])],
      matches it at the start of the string (alternatives tried in order,
      with backtracking), refuses unconverted trailing data, converts the
      groups with [int], and refuses a day outside its month or year 0;
    - [str(date)] is [YYYY-MM-DD], zero-padded.
    Strings are ASCII. *)

From Stdlib Require Import Ascii String.
From S2P Require Import Prelude Db Session.

Module Input.

Definition is_digit (a : Ascii.ascii) : bool :=
  let n := Ascii.nat_of_ascii a in (Nat.leb 48 n && Nat.leb n 57)%bool.

Definition digit_val (a : Ascii.ascii) : Z := Z.of_nat (Ascii.nat_of_ascii a) - 48.

(** [str.isspace] on ASCII: space, \t \n \v \f \r and the separators
    \x1c-\x1f. *)
Definition is_space (a : Ascii.ascii) : bool :=
  let n := Ascii.nat_of_ascii a in
  (Nat.eqb n 32 || (Nat.leb 9 n && Nat.leb n 13) || (Nat.leb 28 n && Nat.leb n 31))%bool.

Fixpoint drop_spaces (l : list Ascii.ascii) : list Ascii.ascii :=
  match l with
  | a :: r => if is_space a then drop_spaces r else l
  | [] => []
  end.

Definition strip (l : list Ascii.ascii) : list Ascii.ascii :=
  rev (drop_spaces (rev (drop_spaces l))).

(** Digits with single underscores between them; [after_digit] says the
    previous character was a digit. *)
Fixpoint parse_digits (l : list Ascii.ascii) (acc : Z) (after_digit : bool) : option Z :=
  match l with
  | [] => if after_digit then Some acc else None
  | a :: r =>
    if is_digit a then parse_digits r (acc * 10 + digit_val a) true
    else if (Ascii.eqb a "_"%char && after_digit)%bool then parse_digits r acc false
    else None
  end.

Definition py_int_l (l : list Ascii.ascii) : option Z :=
  match strip l with
  | "-"%char :: r => Z.opp <$> parse_digits r 0 false
  | "+"%char :: r => parse_digits r 0 false
  | l' => parse_digits l' 0 false
  end.

(** [int(s)]: the value, or [ValueError]. *)
Definition py_int (s : string) : value_error + Z :=
  match py_int_l (list_ascii_of_string s) with
  | Some z => inr z
  | None => inl (VE_int_literal s)
  end.

(** ** The regular expression of ['%Y-%m-%d'] *)

Definition char_class := Ascii.ascii → bool.
Definition one_of (cs : string) : char_class := λ a, existsb (Ascii.eqb a) (list_ascii_of_string cs).

(** A sequence of character classes matched at the start of the input:
    the matched prefix and the rest. *)
Fixpoint match_seq (p : list char_class) (l : list Ascii.ascii)
    : option (list Ascii.ascii * list Ascii.ascii) :=
  match p, l with
  | [], _ => Some ([], l)
  | c :: p', a :: l' =>
    if c a then (λ '(m, r), (a :: m, r)) <$> match_seq p' l' else None
  | _ :: _, [] => None
  end.

(** Alternatives tried in order; the continuation [k] sees the group and
    the rest, and a failure of [k] backtracks to the next alternative. *)
Fixpoint match_alt {A} (alts : list (list char_class)) (l : list Ascii.ascii)
    (k : list Ascii.ascii → list Ascii.ascii → option A) : option A :=
  match alts with
  | [] => None
  | p :: ps =>
    match match_seq p l ≫= λ '(m, r), k m r with
    | Some a => Some a
    | None => match_alt ps l k
    end
  end.

Definition dig : char_class := is_digit.
Definition month_alts : list (list char_class) :=
  [[one_of "1"; one_of "012"]; [one_of "0"; one_of "123456789"]; [one_of "123456789"]].
Definition day_alts : list (list char_class) :=
  [[one_of "3"; one_of "01"]; [one_of "12"; dig]; [one_of "0"; one_of "123456789"];
   [one_of "123456789"]; [one_of " "; one_of "123456789"]].

(** [-(m)-(d)] after the year. *)
Definition month_day_groups (l : list Ascii.ascii) : option (list Ascii.ascii * list Ascii.ascii * list Ascii.ascii) :=
  match l with
  | "-"%char :: l1 =>
    match_alt month_alts l1 (λ ms r,
      match r with
      | "-"%char :: r' => match_alt day_alts r' (λ ds rest, Some (ms, ds, rest))
      | _ => None
      end)
  | _ => None
  end.

(** [format_regex.match(data_string)]: the year, month and day groups and
    the unmatched rest. *)
Definition strptime_groups (l : list Ascii.ascii)
    : option (list Ascii.ascii * list Ascii.ascii * list Ascii.ascii * list Ascii.ascii) :=
  match match_seq [dig; dig; dig; dig] l with
  | Some (ys, r) => (λ '(ms, ds, rest), (ys, ms, ds, rest)) <$> month_day_groups r
  | None => None
  end.

Definition is_leap (y : Z) : bool :=
  ((Z.eqb (y mod 4) 0 && negb (Z.eqb (y mod 100) 0)) || Z.eqb (y mod 400) 0)%bool.

Definition days_in_month (y m : Z) : Z :=
  match m with
  | 2 => if is_leap y then 29 else 28
  | 4 | 6 | 9 | 11 => 30
  | _ => 31
  end.

(** What [datetime.date(y, m, d)] accepts. *)
Definition valid_ymd (y m d : Z) : bool :=
  ((1 <=? y) && (y <=? 9999) && (1 <=? m) && (m <=? 12) && (1 <=? d) && (d <=? days_in_month y m))%bool.

(** [datetime.strptime(s, '%Y-%m-%d').date()] *)
Definition strptime_date (s : string) : value_error + date :=
  match strptime_groups (list_ascii_of_string s) with
  | None => inl (VE_date_format s)
  | Some (ys, ms, ds, rest) =>
    match rest with
    | _ :: _ => inl (VE_date_format s)        (* unconverted data remains *)
    | [] =>
      match py_int_l ys, py_int_l ms, py_int_l ds with
      | Some y, Some m, Some d =>
        if valid_ymd y m d then inr (mkDate y m d) else inl (VE_day_out_of_range s)
      | _, _, _ => inl (VE_date_format s)
      end
    end
  end.

(** ** [str(date)] *)

Definition digit_char (k : Z) : Ascii.ascii := Ascii.ascii_of_nat (48 + Z.to_nat k).

Definition two_digits (n : Z) : list Ascii.ascii := [digit_char (n / 10); digit_char (n mod 10)].
Definition four_digits (n : Z) : list Ascii.ascii :=
  [digit_char (n / 1000); digit_char (n / 100 mod 10); digit_char (n / 10 mod 10);
   digit_char (n mod 10)].

Definition isoformat_l (dt : date) : list Ascii.ascii :=
  four_digits (year dt) ++ "-"%char :: two_digits (month dt) ++ "-"%char :: two_digits (day dt).

Definition isoformat (dt : date) : string := string_of_list_ascii (isoformat_l dt).

(** ** [str(int)]: the f-strings print task ids (lines 61, 110) *)

(** The decimal digits of [n >= 0], least significant first; [fuel]
    bounds the number of digits. *)
Fixpoint digits_rev (fuel : nat) (n : Z) : list Ascii.ascii :=
  match fuel with
  | O => []
  | S f => digit_char (n mod 10) :: (if n <? 10 then [] else digits_rev f (n / 10))
  end.

(** A number below [2 ^ (log2 n + 1)] has at most [log2 n + 1] decimal
    digits. *)
Definition nat_digits (n : Z) : list Ascii.ascii :=
  rev (digits_rev (S (Z.to_nat (Z.log2 n))) n).

Definition py_str_int_l (z : Z) : list Ascii.ascii :=
  if z <? 0 then "-"%char :: nat_digits (- z) else nat_digits z.

Definition py_str_int (z : Z) : string := string_of_list_ascii (py_str_int_l z).

End Input.

Export Input.

(** ** [strptime] reads back what [str(date)] prints *)

Module InputFacts.

Lemma digit_char_spec k :
  0 ≤ k ≤ 9 →
  is_digit (digit_char k) = true ∧ is_space (digit_char k) = false ∧
  digit_val (digit_char k) = k.
Proof.
  intros Hk. assert (k = 0 ∨ k = 1 ∨ k = 2 ∨ k = 3 ∨ k = 4 ∨ k = 5 ∨ k = 6 ∨ k = 7 ∨
                     k = 8 ∨ k = 9) as Hc by lia.
  repeat destruct Hc as [->|Hc]; [..|subst]; vm_compute; auto.
Qed.

(** A list that starts with a digit and holds no space is parsed as a
    plain digit string. *)
Lemma py_int_l_digits a r :
  is_digit a = true → strip (a :: r) = a :: r →
  py_int_l (a :: r) = parse_digits (a :: r) 0 false.
Proof.
  unfold py_int_l. intros Hd ->.
  destruct a as [[] [] [] [] [] [] [] []]; try discriminate Hd; reflexivity.
Qed.

#[local] Arguments digit_char : simpl never.

(** Record, for every printed digit of the goal, that it is a digit, not a
    space, and what it is worth. *)
Ltac digit_facts :=
  repeat match goal with
  | |- context [digit_char ?k] =>
    lazymatch goal with
    | _ : digit_val (digit_char k) = _ |- _ => fail
    | _ => destruct (digit_char_spec k) as (? & ? & ?); [Z.to_euclidean_division_equations; lia|]
    end
  end.

Ltac rewrite_digit_facts :=
  repeat match goal with
  | H : is_digit _ = true |- _ => rewrite H
  | H : is_space _ = false |- _ => rewrite H
  | H : digit_val _ = _ |- _ => rewrite H
  end.

(** Reduce digit parsing and matching on printed digits, one step and one
    recorded fact at a time. *)
Ltac digits_red :=
  repeat (cbn [strip drop_spaces rev app parse_digits match_seq dig fmap option_fmap option_map];
          rewrite_digit_facts).

Lemma py_int_two n : 0 ≤ n ≤ 99 → py_int_l (two_digits n) = Some n.
Proof.
  intros Hn. unfold two_digits. digit_facts.
  rewrite py_int_l_digits; [|done|unfold strip; digits_red; reflexivity].
  digits_red. f_equal. Z.to_euclidean_division_equations; lia.
Qed.

Lemma py_int_four n : 0 ≤ n ≤ 9999 → py_int_l (four_digits n) = Some n.
Proof.
  intros Hn. unfold four_digits. digit_facts.
  rewrite py_int_l_digits; [|done|unfold strip; digits_red; reflexivity].
  digits_red. f_equal. Z.to_euclidean_division_equations; lia.
Qed.

Lemma match_year n rest :
  0 ≤ n ≤ 9999 → match_seq [dig; dig; dig; dig] (four_digits n ++ rest) = Some (four_digits n, rest).
Proof. intros Hn. unfold four_digits, dig. digit_facts. digits_red. reflexivity. Qed.

(** Every printed month and day is matched by the month and day groups,
    with nothing left over: checked on all 12 * 31 pairs. *)
Lemma month_day_table :
  Forall (λ m, Forall (λ d,
    month_day_groups ("-"%char :: two_digits m ++ "-"%char :: two_digits d) =
      Some (two_digits m, two_digits d, [])) (seqZ 1 31)) (seqZ 1 12).
Proof. apply (bool_decide_unpack _). vm_compute. reflexivity. Qed.

Lemma match_month_day m d :
  1 ≤ m ≤ 12 → 1 ≤ d ≤ 31 →
  month_day_groups ("-"%char :: two_digits m ++ "-"%char :: two_digits d) =
    Some (two_digits m, two_digits d, []).
Proof.
  intros Hm Hd. pose proof month_day_table as H.
  assert (Hm' : m ∈ seqZ 1 12) by (apply elem_of_seqZ; lia).
  assert (Hd' : d ∈ seqZ 1 31) by (apply elem_of_seqZ; lia).
  rewrite Forall_forall in H. specialize (H m Hm').
  rewrite Forall_forall in H. by apply H.
Qed.

Lemma valid_ymd_spec y m d :
  valid_ymd y m d = true ↔ 1 ≤ y ≤ 9999 ∧ 1 ≤ m ≤ 12 ∧ 1 ≤ d ≤ days_in_month y m.
Proof. unfold valid_ymd. rewrite !andb_true_iff, !Z.leb_le. naive_solver. Qed.

Lemma days_in_month_le y m : days_in_month y m ≤ 31.
Proof. unfold days_in_month. repeat case_match; lia. Qed.

(** [strptime] reads back what [str(date)] prints. *)
Lemma isoformat_roundtrip dt :
  valid_ymd (year dt) (month dt) (day dt) = true → strptime_date (isoformat dt) = inr dt.
Proof.
  intros Hv. pose proof Hv as Hv'. apply valid_ymd_spec in Hv' as (Hy & Hm & Hd).
  pose proof (days_in_month_le (year dt) (month dt)).
  unfold strptime_date, isoformat. rewrite list_ascii_of_string_of_list_ascii.
  unfold strptime_groups, isoformat_l. rewrite match_year by lia. cbv beta iota.
  rewrite match_month_day by lia. cbn [fmap option_fmap option_map].
  rewrite py_int_four, !py_int_two by lia. rewrite Hv. by destruct dt.
Qed.

(** C33 ([strptime] inverts [str(date)]): every date [datetime.date]
    accepts is read back unchanged from its printed form, so a due date
    shown by [view_tasks] can be typed back in. *)
Theorem strptime_isoformat dt :
  valid_ymd (year dt) (month dt) (day dt) = true → strptime_date (isoformat dt) = inr dt.
Proof. apply isoformat_roundtrip. Qed.

Lemma strptime_isoformat_witness :
  strptime_date (isoformat (mkDate 2024 2 29)) = inr (mkDate 2024 2 29).
Proof. apply strptime_isoformat. concrete. Defined.

(** Every date [strptime] returns is one [datetime.date] accepts. *)
Lemma strptime_date_valid s dt :
  strptime_date s = inr dt → valid_ymd (year dt) (month dt) (day dt) = true.
Proof.
  unfold strptime_date. repeat case_match; try done. by intros [= <-].
Qed.

(** The value of a digit string read left to right. *)
Definition digits_value (acc : Z) (l : list Ascii.ascii) : Z :=
  foldl (λ acc a, acc * 10 + digit_val a) acc l.

Lemma parse_digits_all l acc b :
  Forall (λ a, is_digit a = true) l → l ≠ [] →
  parse_digits l acc b = Some (digits_value acc l).
Proof.
  intros Hl. revert acc b. induction Hl as [|a l Ha Hl IH]; intros acc b Hne; [done|].
  simpl. rewrite Ha. destruct l as [|a' l]; [done|]. apply IH. done.
Qed.

Lemma digits_rev_spec f n :
  0 ≤ n < 10 ^ Z.of_nat f → (0 < f)%nat →
  Forall (λ a, is_digit a = true ∧ is_space a = false) (digits_rev f n) ∧
  digits_rev f n ≠ [] ∧ digits_value 0 (rev (digits_rev f n)) = n.
Proof.
  revert n. induction f as [|f IH]; intros n Hn Hf; [lia|].
  rewrite Nat2Z.inj_succ, Z.pow_succ_r in Hn by lia.
  destruct (digit_char_spec (n mod 10)) as (Hd & Hs & Hv); [pose proof (Z.mod_pos_bound n 10); lia|].
  cbn [digits_rev]. destruct (Z.ltb_spec n 10).
  - split_and!; [by repeat constructor|done|]. unfold digits_value. simpl.
    rewrite Hv. Z.to_euclidean_division_equations; lia.
  - destruct f as [|f]; [simpl in Hn; lia|].
    destruct (IH (n / 10)) as (Hall & Hne & Hval);
      [split; [apply Z.div_pos; lia|apply Z.div_lt_upper_bound; lia]|lia|].
    split_and!; [by constructor|done|].
    unfold digits_value in *. cbn [rev]. rewrite foldl_app, Hval. simpl. rewrite Hv.
    Z.to_euclidean_division_equations; lia.
Qed.

Lemma nat_digits_spec n :
  0 ≤ n →
  Forall (λ a, is_digit a = true ∧ is_space a = false) (nat_digits n) ∧
  nat_digits n ≠ [] ∧ digits_value 0 (nat_digits n) = n.
Proof.
  intros Hn. unfold nat_digits.
  destruct (digits_rev_spec (S (Z.to_nat (Z.log2 n))) n) as (Hall & Hne & Hval); [|lia|].
  - split; [done|]. rewrite Nat2Z.inj_succ, Z2Nat.id by apply Z.log2_nonneg.
    destruct (Z.eq_dec n 0) as [->|Hn0]; [simpl; lia|].
    destruct (Z.log2_spec n) as [_ Hlt]; [lia|].
    eapply Z.lt_le_trans; [exact Hlt|]. apply Z.pow_le_mono_l.
    pose proof (Z.log2_nonneg n). lia.
  - split_and!; [by apply Forall_rev| |done].
    intros Hnil. apply Hne. by rewrite <- (rev_involutive (digits_rev _ n)), Hnil.
Qed.

Lemma drop_spaces_id l :
  Forall (λ a, is_space a = false) l → drop_spaces l = l.
Proof. intros H. destruct H as [|a l Ha _]; simpl; [done|by rewrite Ha]. Qed.

Lemma strip_id l : Forall (λ a, is_space a = false) l → strip l = l.
Proof.
  intros Hl. unfold strip. rewrite (drop_spaces_id l Hl).
  rewrite (drop_spaces_id (rev l)) by (by apply Forall_rev). by rewrite rev_involutive.
Qed.

Lemma py_int_l_nat_digits n : 0 ≤ n → py_int_l (nat_digits n) = Some n.
Proof.
  intros Hn. destruct (nat_digits_spec n Hn) as (Hall & Hne & Hval).
  destruct (nat_digits n) as [|a r] eqn:E; [done|].
  apply Forall_cons in Hall as [[Ha Hsa] Hall'].
  rewrite py_int_l_digits; [|done|].
  - rewrite parse_digits_all; [by rewrite Hval| |done]. constructor; [done|].
    eapply Forall_impl; [exact Hall'|]. naive_solver.
  - apply strip_id. constructor; [done|].
    eapply Forall_impl; [exact Hall'|]. naive_solver.
Qed.

(** [int] reads back every printed id: [int(str(n))] is [n] for
    every integer, so an id copied from a listing of [view_tasks] is the id
    the update, assign, mark, remove and comment entries of the menu
    receive. *)
Theorem py_int_str_roundtrip z : py_int (py_str_int z) = inr z.
Proof.
  unfold py_int, py_str_int. rewrite list_ascii_of_string_of_list_ascii.
  unfold py_str_int_l. destruct (Z.ltb_spec z 0) as [Hz|Hz].
  - destruct (nat_digits_spec (- z)) as (Hall & Hne & Hval); [lia|].
    unfold py_int_l. rewrite strip_id.
    + cbv beta iota. rewrite parse_digits_all; [|eapply Forall_impl; [exact Hall|]; naive_solver|done].
      rewrite Hval. simpl. by rewrite Z.opp_involutive.
    + constructor; [reflexivity|]. eapply Forall_impl; [exact Hall|]. naive_solver.
  - by rewrite py_int_l_nat_digits.
Qed.

End InputFacts.

Export InputFacts.
