(* ===== verification/Shell.v ===== *)
(** * Shell: the interactive loop [main] of [src/task_manager_system.py]
    (lines 242-366)

    [main] builds the two objects (each opening its own connection and
    creating its table), then loops: print the menu, read a choice, run the
    branch under the branch's own [try ... except (...)] and the outer
    [except Exception].  The choice is read outside any [try] (line 266),
    so end of input there ends the program with [EOFError].  Inputs are
    consumed in the order of the source: a branch that fails on a parse
    reads no further line.  The loop is a [Fixpoint] on a fuel bound;
    [main_loop_total] shows that one more iteration than there are input
    lines always suffices.  Here the constructors are the table creations
    they end with; [Objects.script_runs_main] derives this [main] from the
    constructors, the connection and the module's [__name__] guard.
    [ShellFacts] proves the loop against two interfaces: [WorldInvariant]
    (properties every primitive keeps) and [MethodInvariant] (properties
    each write method keeps as a whole). *)

From S2P Require Import Prelude Db Store Session TaskManager TaskComments Reports Input.

Module Shell.

Inductive loop_ctl := Continue | Break.

(** [except (ValueError, TypeError)] *)
Definition is_value_error (e : py_exn) : bool :=
  match e with ValueError _ | TypeError => true | _ => false end.

(** [except mysql.connector.Error] *)
Definition is_mysql_error (e : py_exn) : bool :=
  match e with MySQLError _ => true | _ => false end.

(** [try: body except <caught> as e: print(<message>, e)] *)
Definition handle (h : handler) (caught : py_exn → bool) (body : M unit) : M unit :=
  pym_catch body (λ e, if caught e then print (EHandled h e) else pym_raise e).

Definition lift_value {A} (r : value_error + A) : M A :=
  match r with inl v => pym_raise (ValueError v) | inr a => mret a end.

(** [int(input(...))] *)
Definition read_int : M Z := s ← input; lift_value (py_int s).

(** [datetime.strptime(input(...), '%Y-%m-%d').date()] *)
Definition read_date : M date := s ← input; lift_value (strptime_date s).

(** The branch of each menu choice (lines 269-363). *)
Definition dispatch (choice : string) : M loop_ctl :=
  if String.eqb choice "1" then
    handle HAddTask is_value_error (
      ttl ← input; desc ← input; due ← read_date; prio ← read_int; who ← input;
      TaskManager.add_task TM ttl desc due prio (Some who));;
    mret Continue
  else if String.eqb choice "2" then
    handle HMySQL is_mysql_error (who ← input; view_tasks TM (Some who));;
    mret Continue
  else if String.eqb choice "3" then
    handle HUpdate is_value_error (
      view_tasks TM None;;
      k ← read_int; st ← input; due_str ← input;
      due ← (if String.eqb due_str "" then mret None
             else dt ← lift_value (strptime_date due_str); mret (Some dt));
      update_task_details TM k (Some st) due);;
    mret Continue
  else if String.eqb choice "4" then
    handle HAssign is_value_error (
      view_tasks TM None;; k ← read_int; who ← input; assign_task TM k who);;
    mret Continue
  else if String.eqb choice "5" then
    handle HMySQL is_mysql_error (who ← input; view_assign_task TM (Some who));;
    mret Continue
  else if String.eqb choice "6" then
    handle HMark is_value_error (view_tasks TM None;; k ← read_int; mark_task_completed TM k);;
    mret Continue
  else if String.eqb choice "7" then
    handle HRemove is_value_error (view_tasks TM None;; k ← read_int; remove_task TM k);;
    mret Continue
  else if String.eqb choice "8" then
    handle HComment is_value_error (
      view_tasks TM None;; k ← read_int; text ← input; add_task_comment TC k text);;
    mret Continue
  else if String.eqb choice "9" then
    handle HMySQL is_mysql_error (view_commnts TC None);;
    mret Continue
  else if String.eqb choice "10" then
    handle HReports is_value_error (print EReportDownloading;; generate_reports TC);;
    mret Continue
  else if String.eqb choice "11" then
    handle HMemberReport is_value_error (
      members TM;; who ← input; _ ← view_assign_task_by_member TC (Some who); mret tt);;
    mret Continue
  else if String.eqb choice "12" then
    print EBye;; mret Break
  else mret Continue.

(** One turn of [while True] (lines 252-366). *)
Definition iteration : M loop_ctl :=
  print EMenu;;
  choice ← input;
  pym_catch (dispatch choice) (λ e, print (EHandled HAny e);; mret Continue).

Fixpoint main_loop (fuel : nat) : M unit :=
  match fuel with
  | O => pym_raise OutOfFuel
  | S n => c ← iteration; match c with Break => mret tt | Continue => main_loop n end
  end.

(** [main()]: the constructors of lines 248-249 (each connection starts
    without a transaction), then the loop. *)
Definition main (fuel : nat) : M unit :=
  TaskManager.initialize_database TM;;
  TaskComments.initialize_database TC;;
  main_loop fuel.

(** The process at start: a database (possibly with tables from an earlier
    run), no file, the given standard input. *)
Definition start (d : db) (stdin : list string) : world :=
  mkWorld d fresh_conn fresh_conn ∅ stdin [].

End Shell.

Export Shell.

Module ShellFacts.

Section Preserve.
Context {Q : world → Prop} {ok : Stmt.write → Prop}
  `{!WorldInvariant Q ok} `{!StmtInvariant ok}.

#[local] Hint Resolve initialize_database_prop add_task_prop view_tasks_prop
  update_task_details_prop assign_task_prop view_assign_task_prop
  mark_task_completed_prop remove_task_prop members_prop
  comments_initialize_database_prop add_task_comment_prop view_commnts_prop
  generate_reports_prop view_assign_task_by_member_prop : tm.

Lemma lift_value_prop {A} (r : value_error + A) : pym_preserves Q (lift_value r).
Proof. unfold lift_value. method_preserves. Qed.

#[local] Hint Resolve lift_value_prop : tm.

Lemma dispatch_prop c : pym_preserves Q (dispatch c).
Proof. unfold dispatch, handle, read_int, read_date. method_preserves. Qed.

#[local] Hint Resolve dispatch_prop : tm.

Lemma iteration_prop : pym_preserves Q iteration.
Proof. unfold iteration. method_preserves. Qed.

#[local] Hint Resolve iteration_prop : tm.

Lemma main_loop_prop fuel : pym_preserves Q (main_loop fuel).
Proof. induction fuel; simpl; method_preserves. Qed.

Lemma main_prop fuel : pym_preserves Q (main fuel).
Proof. unfold main. pose proof (main_loop_prop fuel). method_preserves. Qed.
End Preserve.

(** ** Invariants kept by whole methods

    Some properties of the world are broken by one primitive and restored
    by the method around it: a write and the commit after it are two
    steps.  [MethodInvariant P] asks the reads, prints, inputs,
    spreadsheets and the commit of [members] to keep [P], and each write method [dispatch] calls to
    keep it as a whole; the read methods, [dispatch], [iteration] and the
    loop then keep it. *)
Class MethodInvariant (P : world → Prop) := {
  mi_query : ∀ A self (q : db → sql_error + A), pym_preserves P (execute_query self q);
  mi_commit_tm : pym_preserves P (commit TM);            (* members, line 132 *)
  mi_print : ∀ ev, pym_preserves P (print ev);
  mi_input : pym_preserves P input;
  mi_excel : ∀ name n x, pym_preserves P (to_excel name n x);
  mi_add_task : ∀ ttl desc due prio who, pym_preserves P (add_task TM ttl desc due prio who);
  mi_update : ∀ k st due, pym_preserves P (update_task_details TM k st due);
  mi_assign : ∀ k who, pym_preserves P (assign_task TM k who);
  mi_mark : ∀ k, pym_preserves P (mark_task_completed TM k);
  mi_remove : ∀ k, pym_preserves P (remove_task TM k);
  mi_comment : ∀ k text, pym_preserves P (add_task_comment TC k text)
}.

Create HintDb mi discriminated.
#[export] Hint Resolve mi_query mi_commit_tm mi_print mi_input mi_excel mi_add_task mi_update mi_assign mi_mark
  mi_remove mi_comment pym_preserves_ret pym_preserves_raise pym_preserves_get pym_preserves_bind
  pym_preserves_catch pym_preserves_py_for : mi.

Ltac mi_step := preserves_step; eauto with mi.

Section MethodPreserve.
Context {P : world → Prop} `{!MethodInvariant P}.

Lemma to_datetime_column_mi rs : pym_preserves P (to_datetime_column rs).
Proof.
  induction rs as [|[[[[i ttl] due] p] st] rs IH]; simpl; [apply pym_preserves_ret|].
  destruct (to_datetime due); mi_step.
Qed.
#[local] Hint Resolve to_datetime_column_mi : mi.

Lemma lift_value_mi {A} (r : value_error + A) : pym_preserves P (lift_value r).
Proof. unfold lift_value. mi_step. Qed.
#[local] Hint Resolve lift_value_mi : mi.

Lemma dispatch_mi c : pym_preserves P (dispatch c).
Proof.
  unfold dispatch, handle, read_int, read_date, view_tasks, view_assign_task, members,
    view_commnts, generate_reports, view_assign_task_by_member.
  mi_step.
Qed.
#[local] Hint Resolve dispatch_mi : mi.

Lemma iteration_mi : pym_preserves P iteration.
Proof. unfold iteration. mi_step. Qed.
#[local] Hint Resolve iteration_mi : mi.

Lemma main_loop_mi fuel : pym_preserves P (main_loop fuel).
Proof. induction fuel; simpl; mi_step. Qed.
End MethodPreserve.

(** One turn of the loop that does not exit, as a step relation. *)
Inductive shell_step : world → world → Prop :=
| shell_step_continue w w' : iteration w = (inr Continue, w') → shell_step w w'.

(** The worlds the loop reaches from the world [main] has after its two
    constructors. *)
Inductive reachable (d0 : db) (stdin : list string) : world → Prop :=
| reach_start w : (TaskManager.initialize_database TM;; TaskComments.initialize_database TC)
                    (start d0 stdin) = (inr tt, w) → reachable d0 stdin w
| reach_step w w' : reachable d0 stdin w → shell_step w w' → reachable d0 stdin w'.

Lemma reachable_prop {Q ok} `{!WorldInvariant Q ok} `{!StmtInvariant ok} d0 stdin w :
  Q (start d0 stdin) → reachable d0 stdin w → Q w.
Proof.
  intros H0. induction 1 as [w Hinit|w w' _ IH Hstep].
  - assert (Hp : pym_preserves Q (TaskManager.initialize_database TM;;
                                   TaskComments.initialize_database TC))
      by (apply pym_preserves_bind; intros; eauto using initialize_database_prop,
            comments_initialize_database_prop).
    specialize (Hp _ H0). by rewrite Hinit in Hp.
  - inversion Hstep as [? ? Hit]; subst.
    pose proof (iteration_prop w IH) as Hw. by rewrite Hit in Hw.
Qed.

(** C1 (the program keeps the database consistent and never sets
    [completed]): in every world the loop reaches from a well-formed
    database whose rows all have [completed] false, the database and the
    snapshot of each connection are well formed (keys unique and below the
    counter, values in their column domains, every comment's task
    present), and no row, current or in a snapshot, has [completed] set. *)
Theorem reachable_invariant d0 stdin w :
  db_wf d0 → no_completed d0 → reachable d0 stdin w →
  world_wf w ∧ world_db_prop no_completed w.
Proof.
  intros Hwf Hnc Hr. split.
  - apply (reachable_prop d0 stdin w); [|done]. split_and!; [done| |]; by intros ?.
  - apply (reachable_prop d0 stdin w); [|done]. split_and!; [done| |]; by intros ?.
Qed.

Lemma reachable_invariant_witness :
  let w0 := ((TaskManager.initialize_database TM;; TaskComments.initialize_database TC)
               (start empty_db ["12"])).2 in
  world_wf w0 ∧ world_db_prop no_completed w0.
Proof.
  apply (reachable_invariant empty_db ["12"]).
  - split_and!; [intros ? [=]|intros ? [=]|intros [? [=]]|constructor].
  - constructor.
  - apply reach_start. reflexivity.
Defined.

(** ** Termination: every turn but the last consumes a line *)

Definition stdin_le (n : nat) (w : world) : Prop := (length (w_stdin w) ≤ n)%nat.

#[export] Instance stdin_le_world_invariant n : WorldInvariant (stdin_le n) (λ _, True).
Proof.
  unfold stdin_le. split.
  - intros A self q w H. unfold execute_query. by destruct (q _); destruct self.
  - intros self s _ w H. unfold execute_write. by destruct (s _) as [[] ?].
  - intros self o _ _ w H. unfold execute_op. destruct (run_op o (w_db w)) as [[] ?];
      (destruct (_ && _); [done|]); by destruct self.
  - intros self w H. by destruct self.
  - by intros ev w H.
  - intros w H. unfold input. simpl in *.
    destruct (w_stdin w) eqn:E; simpl in *; [by rewrite E|lia].
  - intros name n' x w H. unfold to_excel. by destruct (_ <? _).
Qed.

#[export] Instance true_stmt_invariant : StmtInvariant (λ _, True).
Proof. by split. Qed.

(** A turn either meets the end of input at the menu prompt, or returns
    (every exception of a branch is caught by [except Exception]) having
    read at least the choice. *)
Lemma iteration_progress w :
  ((iteration w).1 = inl EOFError ∧ w_stdin w = []) ∨
  (∃ c, (iteration w).1 = inr c ∧ (length (w_stdin (iteration w).2) < length (w_stdin w))%nat).
Proof.
  unfold iteration, print, pym_modify, input, emit, mbind, pym_bind. simpl.
  destruct (w_stdin w) as [|l rest] eqn:Hin; [by left|right].
  set (w1 := mkWorld _ _ _ _ rest _).
  assert (Hd : stdin_le (length rest) ((dispatch l) w1).2)
    by (apply dispatch_prop; unfold stdin_le; simpl; lia).
  unfold pym_catch, stdin_le in *. destruct (dispatch l w1) as [[e|c] w2]; simpl in *.
  - eexists; split; [reflexivity|]. simpl. lia.
  - eexists; split; [reflexivity|]. lia.
Qed.

(** C12 (the loop terminates): with more fuel than there are lines of
    input, [main_loop] never runs out of fuel: it ends with [exit] (choice
    12) or with the [EOFError] of the menu prompt, no other exception
    escaping it. *)
Theorem main_loop_total fuel w :
  (length (w_stdin w) < fuel)%nat →
  (main_loop fuel w).1 = inr tt ∨ (main_loop fuel w).1 = inl EOFError.
Proof.
  revert w. induction fuel as [|fuel IH]; intros w Hf; simpl; [lia|].
  rewrite pym_run_bind.
  destruct (iteration_progress w) as [[He _]|[c [Hc Hlt]]];
    destruct (iteration w) as [r w']; simpl in *; subst r; [auto|].
  destruct c; [apply IH; lia|simpl; auto].
Qed.

Lemma main_loop_total_witness :
  (main_loop 2 (start empty_db ["12"])).1 = inr tt ∨
  (main_loop 2 (start empty_db ["12"])).1 = inl EOFError.
Proof. apply main_loop_total. concrete. Defined.

(** Fuel beyond what a run needs changes nothing. *)
Lemma main_loop_more_fuel fuel k w :
  (main_loop fuel w).1 ≠ inl OutOfFuel → main_loop (fuel + k) w = main_loop fuel w.
Proof.
  revert w. induction fuel as [|fuel IH]; intros w Hf; simpl in *; [done|].
  rewrite !pym_run_bind in *. destruct (iteration w) as [[e|[]] w']; auto.
Qed.

End ShellFacts.

Export ShellFacts.
