(* ===== verification/Scenarios.v ===== *)
(** * Scenarios: whole runs of the program and the filter's collation

    The runs start from a database without tables ([empty_db]) and feed
    [main] the lines a user would type; they are evaluated by [vm_compute].
    They replay the two example scenarios of the specification through the
    menu, and show the stale reads of the [TaskComments] connection; they
    are regression examples of single runs, the general statements being
    in [Staleness] and [Reports]. *)

From S2P Require Import Prelude Db Store Session TaskManager TaskComments Reports Input Shell.

Module Scenarios.
Local Open Scope string_scope.

Definition run (inputs : list string) : (py_exn + unit) * world :=
  main (S (length inputs)) (start empty_db inputs).

(** Create [("Ship release", "", 2024-01-01, 2, "alice")], list alice's
    tasks, assign task 1 to bob, list alice's, list bob's, then bob's again
    through menu entry 5 typed in capitals; exit. *)
Definition assign_inputs : list string :=
  ["1"; "Ship release"; ""; "2024-01-01"; "2"; "alice";
   "2"; "alice"; "4"; "1"; "bob"; "2"; "alice"; "2"; "bob"; "5"; "BOB"; "12"].

(** Create the task, comment on it twice, delete it, download the full
    report; exit. *)
Definition cascade_inputs : list string :=
  ["1"; "Ship release"; ""; "2024-01-01"; "2"; "alice";
   "8"; "1"; "first"; "8"; "1"; "second"; "7"; "1"; "10"; "12"].

(** The same with one full report downloaded before the deletion. *)
Definition cascade_report_inputs : list string :=
  ["1"; "Ship release"; ""; "2024-01-01"; "2"; "alice";
   "8"; "1"; "first"; "8"; "1"; "second"; "10"; "7"; "1"; "10"; "12"].

(** Download the report, add a task, download the report again; exit. *)
Definition report_add_inputs : list string :=
  ["10"; "1"; "Ship release"; ""; "2024-01-01"; "2"; "alice"; "10"; "12"].

(** Create the task, comment on it, list the comments, delete the task,
    list the comments again; exit. *)
Definition comments_delete_inputs : list string :=
  ["1"; "Ship release"; ""; "2024-01-01"; "2"; "alice";
   "8"; "1"; "first"; "9"; "7"; "1"; "9"; "12"].

(** Create a task leaving the assignee blank, then ask for a member
    report (menu entry 11) with a blank name; exit. *)
Definition blank_assignee_inputs : list string :=
  ["1"; "Write docs"; ""; "2024-01-01"; "1"; ""; "11"; ""; "12"].

Definition ship_line : event := ETaskLine 1 "Ship release" jan1 2 "Pending".

Definition ship_row : task_row :=
  mkTask 1 "Ship release" "" jan1 2 (Some "alice") "Pending" false.

End Scenarios.

Export Scenarios.

Module ScenarioFacts.

(** First example scenario of the specification: after creating
    alice's task, listing alice's tasks prints exactly that task with
    status Pending; after assigning it to bob, alice has no task and bob's
    listing prints it.  Menu entry 5 with ["BOB"] also finds it: the
    column's collation folds case. *)
Theorem spec_assign_scenario :
  let r := run assign_inputs in
  r.1 = inr tt ∧
  task_rows (w_db r.2) = [mkTask 1 "Ship release" "" jan1 2 (Some "bob") "Pending" false] ∧
  w_stdout r.2 = [EMenu; ETaskAdded "Ship release"; EMenu; ship_line;
                  EMenu; ship_line; ETaskAssigned 1 "bob";
                  EMenu; ENoTasks; EMenu; ship_line; EMenu; ship_line; EMenu; EBye].
Proof. vm_compute. auto. Qed.

(** Second example scenario of the specification: after two
    comments on a task and its deletion, both tables are empty (the
    [ON DELETE CASCADE] removed the comments) and the full report finds no
    row: it prints "No values recorded" and writes no file. *)
Theorem spec_cascade_scenario :
  let r := run cascade_inputs in
  r.1 = inr tt ∧ task_rows (w_db r.2) = [] ∧ comment_rows (w_db r.2) = [] ∧
  w_files r.2 !! "reports.xlsx" = None ∧
  w_stdout r.2 = [EMenu; ETaskAdded "Ship release"; EMenu; ship_line; ECommentAdded 1;
                  EMenu; ship_line; ECommentAdded 1; EMenu; ship_line; ETaskRemoved 1;
                  EMenu; EReportDownloading; ENoValues; EMenu; EBye].
Proof. vm_compute. auto. Qed.

(** A report downloaded earlier makes later reports stale: the
    [TaskComments] connection never commits after its reports, so its
    REPEATABLE READ snapshot outlives the deletion made through the
    [TaskManager] connection.  In the second scenario with one report
    downloaded before the deletion, the report downloaded after it still
    finds rows and rewrites the file with the deleted task and both of
    its comments, although neither table has a row any more. *)
Theorem stale_report_after_delete :
  let r := run cascade_report_inputs in
  r.1 = inr tt ∧ task_rows (w_db r.2) = [] ∧ comment_rows (w_db r.2) = [] ∧
  w_stdout r.2 = [EMenu; ETaskAdded "Ship release"; EMenu; ship_line; ECommentAdded 1;
                  EMenu; ship_line; ECommentAdded 1; EMenu; EReportDownloading; EReportGenerated;
                  EMenu; ship_line; ETaskRemoved 1;
                  EMenu; EReportDownloading; EReportGenerated; EMenu; EBye] ∧
  w_files r.2 !! "reports.xlsx" =
    Some (FullReport
      [(1, "Ship release", "", jan1, 2, Some "alice", "Pending", Some 1, Some 1, Some "first");
       (1, "Ship release", "", jan1, 2, Some "alice", "Pending", Some 2, Some 1, Some "second")]).
Proof. vm_compute. auto. Qed.

(** The stale snapshot also hides new tasks: a report downloaded on an
    empty store fixes the snapshot; a task added afterwards through the
    [TaskManager] connection is committed, yet the next report still prints
    "No values recorded". *)
Theorem stale_report_after_add :
  let r := run report_add_inputs in
  r.1 = inr tt ∧ task_rows (w_db r.2) = [ship_row] ∧
  w_stdout r.2 = [EMenu; EReportDownloading; ENoValues; EMenu; ETaskAdded "Ship release";
                  EMenu; EReportDownloading; ENoValues; EMenu; EBye].
Proof. vm_compute. auto. Qed.

(** Comment listings go stale the same way: [view_commnts] also
    reads through the [TaskComments] connection without committing, so
    after one listing of the comments, deleting their task (which removes
    them) does not change the next listing: it still prints the deleted
    comment. *)
Theorem stale_comments_after_delete :
  let r := run comments_delete_inputs in
  r.1 = inr tt ∧ task_rows (w_db r.2) = [] ∧ comment_rows (w_db r.2) = [] ∧
  w_stdout r.2 = [EMenu; ETaskAdded "Ship release"; EMenu; ship_line; ECommentAdded 1;
                  EMenu; ECommentLine 1 "first"; EMenu; ship_line; ETaskRemoved 1;
                  EMenu; ECommentLine 1 "first"; EMenu; EBye].
Proof. vm_compute. auto. Qed.

(** A blank assignee is the empty string, and a blank member report
    is silent: leaving "Assign task to" blank stores [''], not NULL, so
    [members] lists it as an assignee; a member report requested with a
    blank name prints nothing at all, its guidance message being
    discarded by [main]. *)
Theorem blank_assignee_scenario :
  let r := run blank_assignee_inputs in
  r.1 = inr tt ∧
  task_rows (w_db r.2) = [mkTask 1 "Write docs" "" jan1 1 (Some "") "Pending" false] ∧
  w_files r.2 = ∅ ∧
  w_stdout r.2 = [EMenu; ETaskAdded "Write docs"; EMenu; EMemberRow (Some ""); EMenu; EBye].
Proof. vm_compute. auto. Qed.

End ScenarioFacts.
