(* ===== verification/Freshness.v ===== *)
(** * Freshness: the [TaskManager] connection always reads the latest tasks

    The stale reads of [Scenarios] come from the [TaskComments] connection,
    whose report methods never commit.  The [TaskManager] connection is
    different: every write it sends is followed by a commit, a failed or
    timed-out write leaves the rows as they were (it may only consume a
    key), and the other connection's writes only touch [task_comments].  This file proves that at every turn of the menu
    loop the snapshot of the [TaskManager] connection, when it has one,
    holds exactly the current rows of [tasks_], so [view_tasks],
    [view_assign_task] and [members] never show stale tasks.

    The invariant is not kept by every primitive ([execute_op TM o]
    before its commit breaks it), so it is not an instance of
    [WorldInvariant]; the TaskManager write methods are proved as wholes,
    which makes it an instance of [MethodInvariant]. *)

From S2P Require Import Prelude Db Store Session TaskManager TaskComments Reports Input Shell.

Module Freshness.
Import Refinement.

(** The snapshot of the [TaskManager] connection, if any, has the current
    rows of [tasks_].  (The AUTO_INCREMENT counter is not part of what a
    read sees: InnoDB does not version it, and an INSERT that times out
    on a lock moves it without a commit.) *)
Definition tm_fresh (w : world) : Prop :=
  ∀ v, snapshot (w_tm w) = Some v → rows <$> tasks_ v = rows <$> tasks_ (w_db w).

(** The statements of [TaskComments] never change [tasks_]. *)
Definition keeps_tasks (s : Stmt.write) : Prop := ∀ d, tasks_ (s d).2 = tasks_ d.

Lemma create_comments_table_keeps : keeps_tasks create_comments_table.
Proof.
  intros [t c]. unfold create_comments_table, fail, commit_db. pym_simpl.
  by repeat case_match.
Qed.

Lemma insert_comment_keeps tid text : keeps_tasks (insert_comment tid text).
Proof.
  intros [t [c|]]; unfold insert_comment, fail, commit_db; pym_simpl; [|done].
  by repeat case_match.
Qed.

Lemma comment_timeout_keeps tid text : keeps_tasks (run_op_timeout (OComment tid text)).
Proof. intros [t [c|]]; unfold run_op_timeout, commit_db; by pym_simpl. Qed.

Section Lemmas.

Lemma query_fresh {A} self (q : db → sql_error + A) : pym_preserves tm_fresh (execute_query self q).
Proof.
  intros w H. unfold execute_query. destruct (q _); [done|].
  destruct self; simpl; [|done]. intros v [= <-]. unfold read_view.
  destruct (snapshot (w_tm w)) eqn:Hs; [by apply H|done].
Qed.

Lemma commit_fresh self : pym_preserves tm_fresh (commit self).
Proof. intros w H. destruct self; [by intros ?|done]. Qed.

Lemma print_fresh ev : pym_preserves tm_fresh (print ev).
Proof. by intros w H. Qed.

Lemma input_fresh : pym_preserves tm_fresh input.
Proof. intros w H. unfold input. by destruct (w_stdin w). Qed.

Lemma excel_fresh name n x : pym_preserves tm_fresh (to_excel name n x).
Proof. unfold to_excel. by destruct (_ <? _); intros w H. Qed.

Lemma tc_write_fresh s : keeps_tasks s → pym_preserves tm_fresh (execute_write TC s).
Proof.
  intros Hs w H. unfold execute_write. specialize (Hs (w_db w)).
  destruct (s (w_db w)) as [[e|u] d'] eqn:E; simpl in *; intros v Hv; simpl; rewrite Hs; by apply H.
Qed.

Lemma tc_comment_fresh tid text : pym_preserves tm_fresh (execute_op TC (OComment tid text)).
Proof.
  intros w H. unfold execute_op.
  pose proof (insert_comment_keeps tid text (w_db w)) as Hs.
  pose proof (comment_timeout_keeps tid text (w_db w)) as Ht.
  change (insert_comment tid text) with (run_op (OComment tid text)) in Hs.
  destruct (run_op (OComment tid text) (w_db w)) as [r d'] eqn:E. cbn [snd] in Hs.
  destruct (_ && _); [|destruct r]; intros v Hv;
    cbn [fst snd add_locks set_conn conn_of w_tm w_db set_db] in *; rewrite ?Hs, ?Ht; by apply H.
Qed.

(** [execute; commit; k] on the TaskManager connection: the write either
    is committed, or fails or times out without changing a row. *)
Lemma tm_op_commit_fresh {A} o (k : M A) :
  pym_preserves tm_fresh k → pym_preserves tm_fresh (execute_op TM o;; commit TM;; k).
Proof.
  intros Hk w H. unfold execute_op. pym_simpl.
  pose proof (proj2 (run_op_timeout_tasks o (w_db w))) as Ht.
  destruct (run_op o (w_db w)) as [[e|u] d'] eqn:E; (destruct (_ && _); simpl;
    [intros v Hv; cbn [w_db set_db] in *; rewrite Ht; by apply H|]).
  - intros v Hv. simpl. rewrite (run_op_fail_rows _ _ _ _ E). by apply H.
  - apply Hk. by intros ?.
Qed.
End Lemmas.

Create HintDb fresh discriminated.
#[local] Hint Resolve query_fresh commit_fresh print_fresh input_fresh excel_fresh
  tc_write_fresh tc_comment_fresh create_comments_table_keeps : fresh.

Ltac fresh_step := preserves_step; eauto with fresh.

Lemma tm_init_fresh : pym_preserves tm_fresh (TaskManager.initialize_database TM).
Proof.
  intros w H. unfold TaskManager.initialize_database, execute_write. pym_simpl.
  destruct (create_tasks_table (w_db w)) as [[e|u] d'] eqn:E.
  - revert E. unfold create_tasks_table, commit_db. pym_simpl. by case_match.
  - by intros ?.
Qed.

Lemma add_task_fresh ttl desc due prio who :
  pym_preserves tm_fresh (add_task TM ttl desc due prio who).
Proof. apply tm_op_commit_fresh, print_fresh. Qed.

Lemma update_task_details_fresh k st due :
  pym_preserves tm_fresh (update_task_details TM k st due).
Proof.
  unfold update_task_details. destruct (updates_of st due); [apply print_fresh|].
  apply tm_op_commit_fresh, print_fresh.
Qed.

Lemma assign_task_fresh k who : pym_preserves tm_fresh (assign_task TM k who).
Proof. apply tm_op_commit_fresh, print_fresh. Qed.

Lemma mark_task_completed_fresh k : pym_preserves tm_fresh (mark_task_completed TM k).
Proof. apply tm_op_commit_fresh, print_fresh. Qed.

Lemma remove_task_fresh k : pym_preserves tm_fresh (remove_task TM k).
Proof. apply tm_op_commit_fresh, print_fresh. Qed.

Lemma tc_init_fresh : pym_preserves tm_fresh (TaskComments.initialize_database TC).
Proof. unfold TaskComments.initialize_database. fresh_step. Qed.

Lemma add_task_comment_fresh tid text : pym_preserves tm_fresh (add_task_comment TC tid text).
Proof. unfold add_task_comment. fresh_step. Qed.

#[export] Instance tm_fresh_method_invariant : MethodInvariant tm_fresh.
Proof.
  split; eauto using query_fresh, commit_fresh, print_fresh, input_fresh, excel_fresh,
    add_task_fresh, update_task_details_fresh, assign_task_fresh, mark_task_completed_fresh,
    remove_task_fresh, add_task_comment_fresh.
Qed.

Lemma tm_fresh_reachable d0 stdin w : reachable d0 stdin w → tm_fresh w.
Proof.
  induction 1 as [w Hinit|w w' _ IH Hstep].
  - assert (Hp : pym_preserves tm_fresh (TaskManager.initialize_database TM;;
                                          TaskComments.initialize_database TC))
      by (apply pym_preserves_bind; intros; [apply tm_init_fresh|apply tc_init_fresh]).
    specialize (Hp (start d0 stdin)). rewrite Hinit in Hp. apply Hp. by intros ?.
  - inversion Hstep as [? ? Hit]; subst.
    pose proof (iteration_mi w IH) as Hw. by rewrite Hit in Hw.
Qed.

(** What a read of the [TaskManager] connection sees of [tasks_] in a
    world the loop reaches: the current rows. *)
Lemma tm_view_rows d0 stdin w t :
  reachable d0 stdin w → tasks_ (w_db w) = Some t →
  ∃ t', tasks_ (read_view (w_tm w) (w_db w)) = Some t' ∧ rows t' = rows t.
Proof.
  intros Hr Ht. unfold read_view. destruct (snapshot (w_tm w)) as [v|] eqn:Hs; [|by exists t].
  pose proof (tm_fresh_reachable _ _ _ Hr _ Hs) as Hv. rewrite Ht in Hv.
  destruct (tasks_ v) as [t'|]; simplify_eq/=. by exists t'.
Qed.

(** C8 (the TaskManager connection never reads stale tasks): in every
    world the menu loop reaches, the snapshot the [TaskManager] connection
    holds, if any, has exactly the current rows of [tasks_]; the stale
    reads shown in [Scenarios] are confined to the [TaskComments] connection. *)
Theorem reachable_tm_fresh d0 stdin w : reachable d0 stdin w → tm_fresh w.
Proof. apply tm_fresh_reachable. Qed.

Lemma reachable_tm_fresh_witness :
  let w0 := ((TaskManager.initialize_database TM;; TaskComments.initialize_database TC)
               (start sample_db ["2"; ""; "12"])).2 in
  let w1 := (iteration w0).2 in
  ∃ v, snapshot (w_tm w1) = Some v ∧ rows <$> tasks_ v = rows <$> tasks_ (w_db w1).
Proof.
  intros w0 w1. eexists. split; [vm_compute; reflexivity|].
  apply (reachable_tm_fresh sample_db ["2"; ""; "12"] w1); [|vm_compute; reflexivity].
  apply (reach_step _ _ w0); [apply reach_start; reflexivity|].
  constructor. vm_compute. reflexivity.
Defined.

(** C10 (task listings are current): in every world the menu loop
    reaches, [view_tasks] on the [TaskManager] connection prints one line
    per current task matching the filter, in key order, or
    "No tasks available." when none matches. *)
Theorem view_tasks_current d0 stdin w who t :
  reachable d0 stdin w → tasks_ (w_db w) = Some t →
  ∃ w', view_tasks TM who w = (inr tt, w') ∧
    w_stdout w' = w_stdout w ++
      match where_assignee (where_of who) (rows t) with
      | [] => [ENoTasks]
      | rs => task_line <$> rs
      end.
Proof.
  intros Hr Ht. destruct (tm_view_rows _ _ _ _ Hr Ht) as (t' & Hv & Hrows).
  rewrite (view_tasks_run TM who w t' Hv), <- Hrows. eexists; split; [reflexivity|]. done.
Qed.

Lemma view_tasks_current_witness :
  let w0 := ((TaskManager.initialize_database TM;; TaskComments.initialize_database TC)
               (start sample_db [])).2 in
  ∃ w', view_tasks TM (Some "alice") w0 = (inr tt, w') ∧
    w_stdout w' = w_stdout w0 ++
      match where_assignee (where_of (Some "alice")) (rows sample_tasks) with
      | [] => [ENoTasks]
      | rs => task_line <$> rs
      end.
Proof.
  intros w0. apply (view_tasks_current sample_db []); [apply reach_start; reflexivity|].
  vm_compute. reflexivity.
Defined.

End Freshness.
