(* ===== verification/Dates.v ===== *)
(** * Dates: every stored due date is a valid calendar date

    [due_date] is a [DATE] column, and the program only ever stores a
    [datetime.date] built by [strptime] in [main] (menu entries 1 and 3).
    This file proves that, in every world the menu loop reaches from a
    store whose due dates are valid, every due date, in the tables and in
    the connections' snapshots, is a date [datetime.date] accepts; with
    [strptime_isoformat] this means every due date a listing prints can be
    typed back in unchanged.

    The statements that write dates take them as arguments, so the
    invariant is not a [StmtInvariant]; as in [Freshness] the methods that
    write dates are proved with the property of the date they receive. *)

From S2P Require Import Prelude Db Store Session TaskManager TaskComments Reports Input Shell Freshness.

Module Dates.
Import Freshness.

Definition valid_date (dt : date) : Prop := valid_ymd (year dt) (month dt) (day dt) = true.

Definition dates_valid (d : db) : Prop := Forall (λ r, valid_date (due_date r)) (task_rows d).

(** The due date an update item writes, if any, is valid. *)
Definition item_valid (u : set_item) : Prop :=
  match u with SetDueDate dd => valid_date dd | SetStatus _ => True end.

Lemma keeps_tasks_dates s : keeps_tasks s → pym_preserves dates_valid s.
Proof. intros Hs d Hd. unfold dates_valid, task_rows. by rewrite Hs. Qed.

Lemma create_tasks_table_dates : pym_preserves dates_valid create_tasks_table.
Proof.
  intros [[t|] c] H; unfold create_tasks_table, commit_db; pym_simpl; [done|].
  unfold dates_valid, task_rows; simpl. constructor.
Qed.

Lemma insert_task_dates ttl desc due prio who b :
  valid_date due → pym_preserves dates_valid (insert_task ttl desc due prio who b).
Proof.
  intros Hdue [[t|] c] H; unfold insert_task, fail, commit_db; pym_simpl; [|done].
  repeat case_match; try done. unfold dates_valid, task_rows in *; simpl in *.
  apply Forall_app; split; [done|]. by repeat constructor.
Qed.

Lemma update_where_id_dates k chk f :
  (∀ r, valid_date (due_date r) → valid_date (due_date (f r))) →
  pym_preserves dates_valid (update_where_id k chk f).
Proof.
  intros Hf [[t|] c] H; unfold update_where_id, fail, commit_db; pym_simpl; [|done].
  repeat case_match; try done. unfold dates_valid, task_rows in *; simpl in *.
  apply Forall_map. eapply Forall_impl; [exact H|]. intros r Hr. case_decide; auto.
Qed.

Lemma foldl_apply_set_dates r us :
  Forall item_valid us → valid_date (due_date r) → valid_date (due_date (foldl apply_set r us)).
Proof.
  intros Hus. revert r. induction Hus as [|[st|dd] us Hu _ IH]; intros r Hr; simpl; [done| |];
    apply IH; done.
Qed.

Lemma update_task_dates us k : Forall item_valid us → pym_preserves dates_valid (update_task us k).
Proof.
  intros Hus. destruct us; [by intros ? ?|].
  apply update_where_id_dates. intros r. by apply foldl_apply_set_dates.
Qed.

Lemma delete_task_dates k : pym_preserves dates_valid (delete_task k).
Proof.
  intros [[t|] c] H; unfold delete_task, fail, commit_db; pym_simpl; [|done].
  unfold dates_valid, task_rows in *; simpl in *. by apply Forall_filter_keep.
Qed.

Lemma updates_of_valid st due :
  (∀ dd, due = Some dd → valid_date dd) → Forall item_valid (updates_of st due).
Proof.
  intros Hdue. unfold updates_of. apply Forall_app; split.
  - destruct st; [destruct (truthy _)|]; repeat constructor.
  - destruct due; repeat constructor. by apply Hdue.
Qed.

Lemma timeout_dates o : pym_preserves dates_valid (run_op_timeout o).
Proof.
  intros d H. unfold dates_valid, task_rows in *.
  pose proof (proj2 (Refinement.run_op_timeout_tasks o d)) as Ht.
  destruct (tasks_ (run_op_timeout o d).2), (tasks_ d); simplify_eq/=; rewrite ?Ht; done.
Qed.

Create HintDb dates discriminated.
#[local] Hint Resolve execute_query_prop commit_prop print_prop input_prop to_excel_prop
  execute_write_prop keeps_tasks_dates create_comments_table_keeps insert_comment_keeps
  create_tasks_table_dates insert_task_dates delete_task_dates : dates.
#[local] Hint Extern 1 (pym_preserves dates_valid (update_where_id _ _ _)) =>
  apply update_where_id_dates; intros; simpl; done : dates.
#[local] Hint Extern 1 (pym_preserves _ (execute_op _ _)) =>
  apply execute_op_prop; [cbn [run_op]; unfold update_assigned_to, update_status_completed
                         |apply timeout_dates] : dates.

Ltac dates_step := preserves_step; eauto with dates.

Abbreviation Q := (world_db_prop dates_valid).

Lemma to_datetime_column_dates rs : pym_preserves Q (to_datetime_column rs).
Proof.
  induction rs as [|[[[[i ttl] due] p] st] rs IH]; simpl; [by intros ?|].
  destruct (to_datetime due); dates_step.
Qed.
#[local] Hint Resolve to_datetime_column_dates : dates.

Lemma add_task_dates self ttl desc due prio who :
  valid_date due → pym_preserves Q (add_task self ttl desc due prio who).
Proof. intros Hdue. unfold add_task. dates_step. Qed.

Lemma update_task_details_dates self k st due :
  (∀ dd, due = Some dd → valid_date dd) → pym_preserves Q (update_task_details self k st due).
Proof.
  intros Hdue. unfold update_task_details. destruct (updates_of st due) eqn:Hu; [dates_step|].
  apply pym_preserves_bind; [|intros _; dates_step].
  apply execute_op_prop; [|apply timeout_dates].
  cbn [run_op]. rewrite <- Hu. by apply update_task_dates, updates_of_valid.
Qed.

Lemma tm_init_dates self : pym_preserves Q (TaskManager.initialize_database self).
Proof. unfold TaskManager.initialize_database. dates_step. Qed.

Lemma view_tasks_dates self who : pym_preserves Q (view_tasks self who).
Proof. unfold view_tasks. dates_step. Qed.

Lemma assign_task_dates self k name : pym_preserves Q (assign_task self k name).
Proof. unfold assign_task. dates_step. Qed.

Lemma view_assign_task_dates self who : pym_preserves Q (view_assign_task self who).
Proof. unfold view_assign_task. dates_step. Qed.

Lemma mark_task_completed_dates self k : pym_preserves Q (mark_task_completed self k).
Proof. unfold mark_task_completed. dates_step. Qed.

Lemma remove_task_dates self k : pym_preserves Q (remove_task self k).
Proof. unfold remove_task. dates_step. Qed.

Lemma members_dates self : pym_preserves Q (members self).
Proof. unfold members. dates_step. Qed.

Lemma tc_init_dates self : pym_preserves Q (TaskComments.initialize_database self).
Proof. unfold TaskComments.initialize_database. dates_step. Qed.

Lemma add_task_comment_dates self k text : pym_preserves Q (add_task_comment self k text).
Proof. unfold add_task_comment. dates_step. Qed.

Lemma view_commnts_dates self who : pym_preserves Q (view_commnts self who).
Proof. unfold view_commnts. dates_step. Qed.

Lemma generate_reports_dates self : pym_preserves Q (generate_reports self).
Proof. unfold generate_reports. dates_step. Qed.

Lemma member_report_dates self who : pym_preserves Q (view_assign_task_by_member self who).
Proof. unfold view_assign_task_by_member. dates_step. Qed.

#[local] Hint Resolve add_task_dates update_task_details_dates tm_init_dates view_tasks_dates assign_task_dates view_assign_task_dates mark_task_completed_dates remove_task_dates members_dates tc_init_dates add_task_comment_dates view_commnts_dates generate_reports_dates member_report_dates : dates.

Lemma read_date_post s dt s' : read_date s = (inr dt, s') → valid_date dt.
Proof.
  unfold read_date. rewrite pym_run_bind. unfold input.
  destruct (w_stdin s) as [|l rest]; [done|]. unfold lift_value.
  destruct (strptime_date l) eqn:E; [done|]. intros [= <- _].
  by apply (strptime_date_valid l).
Qed.

Lemma due_opt_post (due_str : string) s o s' :
  (if String.eqb due_str "" then mret None
   else dt ← lift_value (strptime_date due_str); mret (Some dt)) s = (inr o, s') →
  ∀ dd, o = Some dd → valid_date dd.
Proof.
  destruct (String.eqb due_str ""); [by intros [= <- _]|].
  rewrite pym_run_bind. unfold lift_value.
  destruct (strptime_date due_str) eqn:E; [done|]. intros [= <- _] dd [= <-].
  by apply (strptime_date_valid due_str).
Qed.

Ltac dispatch_step :=
  repeat match goal with
  | |- pym_preserves _ (mbind _ read_date) =>
    eapply (pym_preserves_bind_post _ valid_date);
      [unfold read_date; dates_step|apply read_date_post|intros ? ?]
  | |- pym_preserves _ (mbind _ (if String.eqb _ ""%string then _ else _)) =>
    eapply (pym_preserves_bind_post _ (λ o, ∀ dd, o = Some dd → valid_date dd));
      [dates_step|apply due_opt_post|intros ? ?]
  | |- pym_preserves _ (mbind _ _) => apply pym_preserves_bind; [|intros ?]
  | |- pym_preserves _ (pym_catch _ _) => apply pym_preserves_catch; [|intros ?]
  | |- pym_preserves _ (mret _) => apply pym_preserves_ret
  | |- pym_preserves _ (pym_raise _) => apply pym_preserves_raise
  | |- pym_preserves _ (if ?b then _ else _) => destruct b
  end; eauto with dates.

Lemma lift_value_dates {A} (r : value_error + A) : pym_preserves Q (lift_value r).
Proof. unfold lift_value. dates_step. Qed.
#[local] Hint Resolve lift_value_dates : dates.

Lemma dispatch_dates c : pym_preserves Q (dispatch c).
Proof. unfold dispatch, handle, read_int. dispatch_step. Qed.
#[local] Hint Resolve dispatch_dates : dates.

Lemma iteration_dates : pym_preserves Q iteration.
Proof. unfold iteration. dates_step. Qed.

(** C13 (due dates are always calendar dates): in every world the menu
    loop reaches from a store whose due dates are valid, every due date,
    in the tables and in each connection's snapshot, is a date
    [datetime.date] accepts, and [strptime] reads each one back from the
    form in which [view_tasks] prints it. *)
Theorem reachable_due_dates d0 stdin w :
  dates_valid d0 → reachable d0 stdin w →
  world_db_prop dates_valid w ∧
  Forall (λ r, strptime_date (isoformat (due_date r)) = inr (due_date r)) (task_rows (w_db w)).
Proof.
  intros H0 Hr. assert (Hw : Q w).
  { induction Hr as [w Hinit|w w' _ IH Hstep].
    - assert (Hp : pym_preserves Q (TaskManager.initialize_database TM;;
                                    TaskComments.initialize_database TC)) by dates_step.
      specialize (Hp (start d0 stdin)). rewrite Hinit in Hp. apply Hp.
      split_and!; [done| |]; by intros ?.
    - inversion Hstep as [? ? Hit]; subst.
      pose proof (iteration_dates w IH) as Hw. by rewrite Hit in Hw. }
  split; [done|]. destruct Hw as (Hd & _ & _).
  eapply Forall_impl; [exact Hd|]. intros r Hr'. by apply isoformat_roundtrip.
Qed.

Lemma reachable_due_dates_witness :
  let w0 := ((TaskManager.initialize_database TM;; TaskComments.initialize_database TC)
               (start sample_db [])).2 in
  world_db_prop dates_valid w0 ∧
  Forall (λ r, strptime_date (isoformat (due_date r)) = inr (due_date r)) (task_rows (w_db w0)).
Proof.
  intros w0. apply (reachable_due_dates sample_db []).
  - repeat constructor.
  - apply reach_start. reflexivity.
Defined.

End Dates.
