(* ===== verification/Staleness.v ===== *)
(** * Staleness: the snapshot of the [TaskComments] connection

    [generate_reports], [view_commnts] and [view_assign_task_by_member]
    read through the [TaskComments] connection and never commit; its only
    commit in the loop is the one of [add_task_comment] (line 170).  This
    file proves both sides of that in general, where [Scenarios] shows
    single runs:
    - safety ([tc_snapshot_sticky]): once the connection holds a snapshot,
      every later turn of the menu, whatever the input, leaves that very
      snapshot in place unless a comment was added, so every report and
      listing meanwhile shows the tables as they were;
    - liveness ([comment_ends_snapshot]): from every world the loop
      reaches, a comment on an existing task (menu entry 8) ends the
      snapshot, as long as the comment counter has not saturated and the
      [TaskManager] connection holds no exclusive lock on the task's row,
      so the next report reads the current tables.

    [tc_kept v out0] is kept by whole methods, not by every primitive (the
    commit of [add_task_comment] drops [v] before its message is printed),
    so it is an instance of [MethodInvariant]. *)

From S2P Require Import Prelude Db Store Session TaskManager TaskComments Reports Input Shell Freshness.

Module Staleness.
Import Freshness.

(** Since the output [out0], the [TaskComments] connection has kept the
    snapshot [v], or a comment has been added. *)
Definition tc_kept (v : db) (out0 : list event) (w : world) : Prop :=
  ∃ evs, w_stdout w = out0 ++ evs ∧ (snapshot (w_tc w) = Some v ∨ ∃ k, ECommentAdded k ∈ evs).

Section Kept.
Context (v : db) (out0 : list event).

Lemma query_kept {A} self (q : db → sql_error + A) : pym_preserves (tc_kept v out0) (execute_query self q).
Proof.
  intros w (evs & Ho & Hs). unfold execute_query. destruct (q _); [by exists evs|].
  exists evs. destruct self; simpl; split; auto.
  destruct Hs as [Hs|Hs]; [left|by right]. unfold read_view. by rewrite Hs.
Qed.

Lemma write_kept self s : pym_preserves (tc_kept v out0) (execute_write self s).
Proof. intros w H. unfold execute_write. by destruct (s (w_db w)) as [[e|u] d']. Qed.

(** A DML statement changes the database and at most the locks of its
    connection, never a snapshot or the output. *)
Lemma op_kept self o : pym_preserves (tc_kept v out0) (execute_op self o).
Proof.
  intros w H. unfold execute_op. destruct (run_op o (w_db w)) as [[e|u] d'];
    (destruct (_ && _); [done|]); [|done]. by destruct self.
Qed.

Lemma commit_tm_kept : pym_preserves (tc_kept v out0) (commit TM).
Proof. by intros w H. Qed.

Lemma print_kept ev : pym_preserves (tc_kept v out0) (print ev).
Proof.
  intros w (evs & Ho & Hs). exists (evs ++ [ev]). simpl. rewrite Ho, app_assoc. split; [done|].
  destruct Hs as [Hs|[k Hk]]; [by left|right]. exists k. set_solver.
Qed.

Lemma input_kept : pym_preserves (tc_kept v out0) input.
Proof. intros w H. unfold input. by destruct (w_stdin w). Qed.

Lemma excel_kept name n x : pym_preserves (tc_kept v out0) (to_excel name n x).
Proof. unfold to_excel. by destruct (_ <? _); intros w H. Qed.

(** The one commit of the connection in the loop is followed by the
    message of a new comment. *)
Lemma add_task_comment_kept tid text : pym_preserves (tc_kept v out0) (add_task_comment TC tid text).
Proof.
  intros w Hw. unfold add_task_comment. rewrite pym_run_bind.
  pose proof (op_kept TC (OComment tid text) w Hw) as H1.
  destruct (execute_op TC (OComment tid text) w) as [[e|[]] w1]; [done|].
  unfold commit, print, pym_modify. pym_simpl. destruct H1 as (evs & Ho & Hs).
  exists (evs ++ [ECommentAdded tid]). simpl. rewrite Ho, app_assoc. split; [done|].
  right. exists tid. set_solver.
Qed.
End Kept.

Create HintDb kept discriminated.
#[local] Hint Resolve query_kept write_kept op_kept commit_tm_kept print_kept input_kept excel_kept
  add_task_comment_kept : kept.

#[export] Instance tc_kept_method_invariant v out0 : MethodInvariant (tc_kept v out0).
Proof.
  split; intros;
    unfold add_task, update_task_details, assign_task, mark_task_completed, remove_task;
    preserves_step; eauto with kept.
Qed.

Lemma tc_kept_start v w : snapshot (w_tc w) = Some v → tc_kept v (w_stdout w) w.
Proof. intros Hs. exists []. rewrite app_nil_r. auto. Qed.

(** C3 (a report snapshot outlives every menu action but a comment): when
    the [TaskComments] connection holds a snapshot [v], the rest of the
    run, for any input and any number of turns, either still leaves [v] as
    that connection's snapshot, so every report and comment listing of
    the run showed the tables of [v], or printed the message of a new
    comment. *)
Theorem tc_snapshot_sticky fuel w v :
  snapshot (w_tc w) = Some v →
  ∃ evs, w_stdout (main_loop fuel w).2 = w_stdout w ++ evs ∧
    (snapshot (w_tc (main_loop fuel w).2) = Some v ∨ ∃ k, ECommentAdded k ∈ evs).
Proof. intros Hs. apply (main_loop_mi (P := tc_kept v (w_stdout w)) fuel w), tc_kept_start, Hs. Qed.

Lemma tc_snapshot_sticky_witness :
  let w := mkWorld sample_db fresh_conn (mkConn (Some empty_db) []) ∅ ["7"; "1"; "10"; "12"] [] in
  ∃ evs, w_stdout (main_loop 4 w).2 = w_stdout w ++ evs ∧
    (snapshot (w_tc (main_loop 4 w).2) = Some empty_db ∨ ∃ k, ECommentAdded k ∈ evs).
Proof. intros w. apply tc_snapshot_sticky. reflexivity. Defined.

(** ** Liveness: a comment ends the snapshot *)

Lemma iteration_choice w l rest :
  w_stdin w = l :: rest →
  iteration w = pym_catch (dispatch l) (λ e, print (EHandled HAny e);; mret Continue)
                  (mkWorld (w_db w) (w_tm w) (w_tc w) (w_files w) rest (w_stdout w ++ [EMenu])).
Proof.
  intros H. unfold iteration, print, pym_modify, input, emit, mbind, pym_bind. simpl.
  rewrite H. reflexivity.
Qed.

Lemma task_id_fits d k :
  db_wf d → Exists (λ r, task_id r = k) (task_rows d) → int_fits k = true ∧ ∃ t, tasks_ d = Some t.
Proof.
  intros (Ht & _) Hex. unfold task_rows in Hex. destruct (tasks_ d) as [t|] eqn:Hd;
    [|by apply Exists_nil in Hex].
  apply Exists_exists in Hex as (r & Hr & <-). split; [|by eexists].
  destruct (Ht t eq_refl) as (_ & _ & _ & Hf & _). rewrite Forall_forall in Hf.
  apply (Hf r Hr).
Qed.

Section Recovery.
Context (d0 : db) (stdin : list string) (Hd0 : db_wf d0).
Context (w : world) (Hreach : reachable d0 stdin w).

Lemma reachable_wf : db_wf (w_db w).
Proof.
  assert (Hw : world_wf w).
  { apply (reachable_prop d0 stdin w); [|done]. split_and!; [done| |]; by intros ?. }
  exact (proj1 Hw).
Qed.

(** Menu entry 8 with an existing task id and a comment that fits,
    below the saturation of the comment counter and while the
    [TaskManager] connection holds no exclusive lock on the task's row: the
    turn continues, stores the comment and commits the connection. *)
Lemma comment_turn s k text rest c :
  w_stdin w = "8" :: s :: text :: rest → py_int s = inr k →
  Exists (λ r, task_id r = k) (task_rows (w_db w)) →
  task_comments (w_db w) = Some c → auto_increment c < INT_MAX →
  varchar_fits TEXT_MAX text = true → row_locked (locks (w_tm w)) k = false →
  ∃ w', iteration w = (inr Continue, w') ∧ snapshot (w_tc w') = None ∧ w_stdin w' = rest.
Proof.
  intros Hin Hk Hex Hc Hmax Htext Hlock.
  destruct (task_id_fits _ _ reachable_wf Hex) as [Hfit [t Ht]].
  destruct (tm_view_rows _ _ _ _ Hreach Ht) as (t' & Hv & _).
  rewrite (iteration_choice _ _ _ Hin).
  change (dispatch "8") with
    (handle HComment is_value_error (
       view_tasks TM None;; k ← read_int; text ← input; add_task_comment TC k text);;
     mret (M := M) Continue).
  unfold handle, pym_catch. rewrite !pym_run_bind.
  rewrite (view_tasks_run TM None
             (mkWorld (w_db w) (w_tm w) (w_tc w) (w_files w) (s :: text :: rest) (w_stdout w ++ [EMenu]))
             t' Hv).
  unfold read_int. rewrite !pym_run_bind. simpl. rewrite Hk. simpl.
  rewrite pym_run_bind. simpl. unfold add_task_comment.
  erewrite (op_commit_print_ok _ (OComment k text)); [by eexists| |exact Hlock].
  apply insert_comment_ok; eauto; [lia|]. by apply (comment_key_free _ _ reachable_wf).
Qed.
End Recovery.

(** C14 (a comment ends a stale snapshot, unless a lock forbids it): in
    every world the loop reaches from a well-formed store, when the next
    lines are menu entry 8, the id of an existing task and a comment that
    fits, the comment counter is below its saturation, and the
    [TaskManager] connection holds no exclusive lock on that task's row (a
    lock only a failed update of the task since its last commit leaves),
    the turn continues to a reachable world where the [TaskComments]
    connection has no snapshot, so the next report or listing reads the
    current tables. *)
Theorem comment_ends_snapshot d0 stdin w s k text rest c :
  db_wf d0 → reachable d0 stdin w →
  w_stdin w = "8" :: s :: text :: rest → py_int s = inr k →
  Exists (λ r, task_id r = k) (task_rows (w_db w)) →
  task_comments (w_db w) = Some c → auto_increment c < INT_MAX →
  varchar_fits TEXT_MAX text = true → row_locked (locks (w_tm w)) k = false →
  reachable d0 stdin (iteration w).2 ∧ snapshot (w_tc (iteration w).2) = None ∧
  w_stdin (iteration w).2 = rest.
Proof.
  intros Hd0 Hr Hin Hk Hex Hc Hmax Ht Hlock.
  destruct (comment_turn d0 stdin Hd0 w Hr s k text rest c Hin Hk Hex Hc Hmax Ht Hlock)
    as (w' & Hit & Hs & Hrest).
  rewrite Hit. split_and!; [|done|done]. eapply reach_step; [done|]. by constructor.
Qed.

Lemma comment_ends_snapshot_witness :
  let inputs := ["10"; "8"; "1"; "looks good"; "12"] in
  let w0 := ((TaskManager.initialize_database TM;; TaskComments.initialize_database TC)
               (start sample_db inputs)).2 in
  let w1 := (iteration w0).2 in
  reachable sample_db inputs (iteration w1).2 ∧ snapshot (w_tc (iteration w1).2) = None ∧
  w_stdin (iteration w1).2 = ["12"].
Proof.
  intros inputs w0 w1.
  apply (comment_ends_snapshot sample_db inputs w1 "1" 1 "looks good" ["12"] sample_comments).
  - apply sample_db_wf.
  - apply (reach_step _ _ w0); [apply reach_start; reflexivity|]. constructor. vm_compute. reflexivity.
  - vm_compute. reflexivity.
  - reflexivity.
  - vm_compute. repeat constructor.
  - vm_compute. reflexivity.
  - vm_compute. reflexivity.
  - vm_compute. reflexivity.
  - vm_compute. reflexivity.
Defined.

End Staleness.
