(* ===== verification/Contract.v ===== *)
(** * Contract: the menu loop refines the store contract

    [Store] states the contract of section 4 of the specification (tasks
    and comments keyed by id, with their counters) and proves that each
    write statement, run once on a well-formed database, implements its
    abstract operation.  This file composes that with the program: the
    contract becomes a machine [a_rel] (one abstract operation whose
    precondition holds, or a comment id consumed by a refused comment),
    and [loop_refines_contract] shows that every database the menu loop
    reaches abstracts to a store the machine reaches from the abstraction
    of the initial database.  Whatever the user types, the program
    changes the stores only through the contract's operations, including
    when a write times out on a lock of the other connection: a comment id
    it consumed is a burn, a task id is a create followed by its delete.
    [execute_op_error] states what any failed write leaves of the
    contract.

    The invariant [contract_inv] (well formed, and abstractly reachable)
    is kept by every write statement, hence by every method, and is an
    instance of [MethodInvariant]; the two constructors leave the
    abstraction unchanged ([CREATE TABLE IF NOT EXISTS] of an empty
    table). *)

From S2P Require Import Prelude Db Store Session TaskManager TaskComments Reports Input Shell.

Module Contract.
Import Refinement.

(** The comment counter moved by a comment its foreign key refuses, or
    that times out on a lock. *)
Definition a_burn (s : astore) : astore :=
  mkAStore (a_tasks s) (a_next_task s) (a_comments s) (bump (a_next_comment s)).

(** One step of the contract. *)
Inductive a_rel : astore → astore → Prop :=
| a_rel_op o s : a_pre o s → a_rel s (a_step o s)
| a_rel_burn s : a_rel s (a_burn s).

(** The stores the contract reaches. *)
Abbreviation a_reach := (rtc a_rel).

Lemma astore_eq s1 s2 :
  a_tasks s1 = a_tasks s2 → a_next_task s1 = a_next_task s2 →
  a_comments s1 = a_comments s2 → a_next_comment s1 = a_next_comment s2 → s1 = s2.
Proof. destruct s1, s2; simpl; intros; by subst. Qed.

Lemma run_op_wf o : pym_preserves db_wf (run_op o).
Proof.
  destruct o; simpl; eauto using insert_task_wf, update_task_wf, update_assigned_to_wf,
    update_status_completed_wf, delete_task_wf, insert_comment_wf.
Qed.

(** A write statement, whatever its outcome, leaves the abstract store or
    takes one step of the contract. *)
Lemma run_op_rel o d r d' :
  db_wf d → run_op o d = (r, d') → abs d' = abs d ∨ a_rel (abs d) (abs d').
Proof.
  intros Hwf Hrun. destruct r as [e|[]].
  - destruct (run_op_fail_abs _ _ _ _ Hwf Hrun) as (H1 & H2 & H3 & [H4|(tid & text & _ & _ & H4)]).
    + left. by apply astore_eq.
    + right. replace (abs d') with (a_burn (abs d)); [constructor|]. by apply astore_eq.
  - right. destruct (run_op_abs _ _ _ Hwf Hrun) as [Hpre ->]. by constructor.
Qed.

(** Every comment of a well-formed store is on a stored task, so deleting
    a key no task has removes no comment. *)
Lemma comments_of_missing d k :
  db_wf d → a_tasks (abs d) !! k = None →
  filter (λ kv, comment_task_id kv.2 ≠ k) (a_comments (abs d)) = a_comments (abs d).
Proof.
  intros (_ & _ & _ & Hfk) Hk. apply map_filter_id. intros i x Hx Heq. simpl in Heq.
  apply abs_rows_lookup in Hx. unfold fk_ok in Hfk. rewrite Forall_forall in Hfk.
  destruct (Hfk x Hx) as (r & Hr & Hid).
  destruct (abs_rows_elem task_id _ r Hr) as [y Hy]. unfold abs in Hk; simpl in Hk.
  congruence.
Qed.

(** A task key consumed by a create that timed out: the contract reaches
    it by creating the task under that key and deleting it. *)
Lemma create_timeout_reach d t ttl desc due prio who d' :
  db_wf d → tasks_ d = Some t → run_op (OCreate ttl desc due prio who) d = (inr tt, d') →
  a_reach (abs d) (abs (set_tasks (burn_key t) d)).
Proof.
  intros Hwf Ht Hrun. destruct (run_op_abs _ _ _ Hwf Hrun) as [Hpre _].
  cbn [a_pre] in Hpre. destruct (wf_tasks _ _ Hwf Ht) as (_ & _ & _ & _ & Hai).
  eapply rtc_l; [apply (a_rel_op (OCreate ttl desc due prio who)), Hpre|].
  eapply rtc_l; [apply (a_rel_op (ODelete (a_next_task (abs d)))); done|].
  replace (abs (set_tasks (burn_key t) d))
    with (a_step (ODelete (a_next_task (abs d))) (a_step (OCreate ttl desc due prio who) (abs d)));
    [apply rtc_refl|].
  apply astore_eq; cbn [a_step a_tasks a_next_task a_comments a_next_comment].
  - rewrite delete_insert_id by done. unfold abs, task_rows. by rewrite Ht.
  - unfold abs. rewrite Ht. simpl. unfold next_key. by rewrite Z.min_l by lia.
  - rewrite (comments_of_missing _ _ Hwf Hpre). unfold abs, comment_rows. by destruct d.
  - unfold abs. by destruct d.
Qed.

(** What a write that timed out leaves is reached by the contract. *)
Lemma timeout_reach o d r d' :
  db_wf d → run_op o d = (r, d') → reaches_lock o r = true →
  a_reach (abs d) (abs (run_op_timeout o d).2).
Proof.
  intros Hwf Hrun Hr. destruct o as [ttl desc due prio who| | | | |tid text]; try done;
    unfold run_op_timeout, commit_db; pym_simpl.
  - destruct r as [e|[]]; [done|]. destruct (tasks_ d) as [t|] eqn:Ht; [|apply rtc_refl].
    by eapply create_timeout_reach.
  - destruct (task_comments d) as [c|] eqn:Hc; [|apply rtc_refl].
    apply rtc_once. cbn [snd].
    replace (abs (set_comments (burn_key c) d)) with (a_burn (abs d)); [constructor|].
    destruct (wf_comments _ _ Hwf Hc) as (_ & _ & _ & _ & Hai).
    apply astore_eq; unfold abs, comment_rows, task_rows; simpl; rewrite ?Hc; try done.
    unfold next_key. by rewrite Z.min_l by lia.
Qed.

Definition contract_inv (a0 : astore) (w : world) : Prop :=
  db_wf (w_db w) ∧ a_reach a0 (abs (w_db w)).

Section Inv.
Context (a0 : astore).

Lemma op_inv self o : pym_preserves (contract_inv a0) (execute_op self o).
Proof.
  intros w [Hwf Hr]. unfold execute_op. pose proof (run_op_wf o _ Hwf) as Hwf'.
  destruct (run_op o (w_db w)) as [r d'] eqn:E. simpl in Hwf'.
  destruct (reaches_lock o r) eqn:Hl; simpl.
  - destruct (waits_for _ _ _); simpl.
    + split; cbn [w_db set_db]; [by apply run_op_timeout_wf|].
      eapply rtc_trans; [exact Hr|]. by eapply timeout_reach.
    + destruct (run_op_rel o _ _ _ Hwf E) as [Ha|Ha]; destruct r as [e|[]];
        unfold add_locks; (split; [destruct self; done|]); destruct self; cbn;
        solve [by rewrite Ha | by eapply rtc_r].
  - destruct (run_op_rel o _ _ _ Hwf E) as [Ha|Ha]; destruct r as [e|[]];
      unfold add_locks; (split; [destruct self; done|]); destruct self; cbn;
      solve [by rewrite Ha | by eapply rtc_r].
Qed.

Lemma query_inv {A} self (q : db → sql_error + A) : pym_preserves (contract_inv a0) (execute_query self q).
Proof. intros w H. unfold execute_query. destruct (q _); [done|]. by destruct self. Qed.

Lemma commit_inv self : pym_preserves (contract_inv a0) (commit self).
Proof. intros w H. by destruct self. Qed.

Lemma print_inv ev : pym_preserves (contract_inv a0) (print ev).
Proof. by intros w H. Qed.

Lemma input_inv : pym_preserves (contract_inv a0) input.
Proof. intros w H. unfold input. by destruct (w_stdin w). Qed.

Lemma excel_inv name n x : pym_preserves (contract_inv a0) (to_excel name n x).
Proof. unfold to_excel. by destruct (_ <? _); intros w H. Qed.
End Inv.

Create HintDb contract discriminated.
#[local] Hint Resolve query_inv commit_inv print_inv input_inv excel_inv op_inv : contract.

#[export] Instance contract_method_invariant a0 : MethodInvariant (contract_inv a0).
Proof.
  split; intros;
    unfold add_task, update_task_details, assign_task, mark_task_completed, remove_task,
      add_task_comment;
    preserves_step; eauto with contract.
Qed.

(** [CREATE TABLE IF NOT EXISTS] creates an empty table whose counter is
    the one [abs] gives a missing table: the abstraction does not move. *)
Lemma create_tasks_table_abs d : abs (create_tasks_table d).2 = abs d.
Proof. destruct d as [[t|] c]; unfold create_tasks_table, commit_db; pym_simpl; reflexivity. Qed.

Lemma create_comments_table_abs d : abs (create_comments_table d).2 = abs d.
Proof.
  destruct d as [t [c|]]; unfold create_comments_table, fail, commit_db; pym_simpl;
    [reflexivity|by destruct t].
Qed.

Lemma init_abs d0 stdin w0 :
  (TaskManager.initialize_database TM;; TaskComments.initialize_database TC) (start d0 stdin) =
    (inr tt, w0) →
  abs (w_db w0) = abs d0.
Proof.
  unfold TaskManager.initialize_database, TaskComments.initialize_database, execute_write, commit,
    set_db, start.
  pym_simpl. pose proof (create_tasks_table_abs d0) as H1.
  destruct (create_tasks_table d0) as [[e|[]] d1]; [by intros [=]|]. simpl in H1 |- *.
  pose proof (create_comments_table_abs d1) as H2.
  destruct (create_comments_table d1) as [[e|[]] d2]; [by intros [=]|]. simpl in H2.
  intros [= <-]. simpl. congruence.
Qed.

(** C7 (the program refines the store contract): in every world the menu
    loop reaches from a well-formed database, whatever the input, the
    abstract store of tasks and comments is one the contract reaches from
    the abstract store of the initial database, by operations whose
    preconditions held (a comment only on an existing task) and ids
    consumed by refused comments. *)
Theorem loop_refines_contract d0 stdin w :
  db_wf d0 → reachable d0 stdin w → a_reach (abs d0) (abs (w_db w)).
Proof.
  intros Hwf Hr. cut (contract_inv (abs d0) w); [by intros []|].
  induction Hr as [w Hinit|w w' Hr IH Hstep].
  - split.
    + assert (Hw : world_wf w).
      { apply (reachable_prop d0 stdin w); [|by apply reach_start].
        split_and!; [done| |]; by intros ?. }
      exact (proj1 Hw).
    + rewrite (init_abs _ _ _ Hinit). apply rtc_refl.
  - inversion Hstep as [? ? Hit]; subst.
    pose proof (iteration_mi w IH) as Hw. by rewrite Hit in Hw.
Qed.

Lemma loop_refines_contract_witness :
  let inputs := ["1"; "write docs"; "the user guide"; "2024-06-01"; "2"; "bob"; "12"] in
  let w0 := ((TaskManager.initialize_database TM;; TaskComments.initialize_database TC)
               (start sample_db inputs)).2 in
  a_reach (abs sample_db) (abs (w_db (iteration w0).2)).
Proof.
  intros inputs w0. apply (loop_refines_contract sample_db inputs).
  - apply sample_db_wf.
  - apply (reach_step _ _ w0); [apply reach_start; reflexivity|]. constructor. vm_compute. reflexivity.
Defined.

(** C21 (a failed write leaves the store contract untouched): when one of
    the program's writes fails on a well-formed database, whatever the
    error, the abstract tasks and comments are those before it; the task
    counter moves only for a create that timed out on a lock (error 1205),
    the comment counter only for a comment refused by the foreign key
    (1452) or timed out on a lock, each by one step of the counter. *)
Theorem execute_op_error self o w e w' :
  db_wf (w_db w) → execute_op self o w = (inl e, w') →
  a_tasks (abs (w_db w')) = a_tasks (abs (w_db w)) ∧
  a_comments (abs (w_db w')) = a_comments (abs (w_db w)) ∧
  (a_next_task (abs (w_db w')) = a_next_task (abs (w_db w)) ∨
   (∃ ttl desc due prio who, o = OCreate ttl desc due prio who ∧
      e = MySQLError ER_LOCK_WAIT_TIMEOUT ∧
      a_next_task (abs (w_db w')) = bump (a_next_task (abs (w_db w))))) ∧
  (a_next_comment (abs (w_db w')) = a_next_comment (abs (w_db w)) ∨
   (∃ tid text, o = OComment tid text ∧
      (e = MySQLError ER_NO_REFERENCED_ROW_2 ∨ e = MySQLError ER_LOCK_WAIT_TIMEOUT) ∧
      a_next_comment (abs (w_db w')) = bump (a_next_comment (abs (w_db w))))).
Proof.
  intros Hwf. unfold execute_op. destruct (run_op o (w_db w)) as [r d'] eqn:E.
  destruct (_ && _).
  - intros [= <- <-]. cbn [w_db set_db].
    pose proof (proj1 (run_op_timeout_tasks o (w_db w))) as Hok.
    destruct (run_op_timeout o (w_db w)) as [r' d''] eqn:Et. cbn [fst snd] in Hok |- *. subst r'.
    destruct (run_op_timeout_abs o _ _ Hwf Et) as (H1 & H2 & H3 & H4).
    split_and!; [done|done| |].
    + destruct H3 as [H3|(ttl & desc & due & prio & who & -> & H3)]; [by left|right].
      by do 5 eexists.
    + destruct H4 as [H4|(tid & text & -> & H4)]; [by left|right]. do 2 eexists. split_and!; eauto.
  - destruct r as [e'|[]]; [|done]. intros [= <- <-].
    assert (Hdb : w_db (add_locks self (failed_locks o e') (set_db d' w)) = d') by (by destruct self).
    rewrite Hdb. destruct (run_op_fail_abs _ _ _ _ Hwf E) as (H1 & H2 & H3 & H4).
    split_and!; [done|done|by left|].
    destruct H4 as [H4|(tid & text & -> & -> & H4)]; [by left|right]. do 2 eexists. split_and!; eauto.
Qed.

Lemma execute_op_error_witness :
  let o := OComment 9 "orphan" in
  let w' := (execute_op TC o sample_world).2 in
  execute_op TC o sample_world = (inl (MySQLError ER_NO_REFERENCED_ROW_2), w') ∧
  a_tasks (abs (w_db w')) = a_tasks (abs (w_db sample_world)) ∧
  a_comments (abs (w_db w')) = a_comments (abs (w_db sample_world)) ∧
  (a_next_task (abs (w_db w')) = a_next_task (abs (w_db sample_world)) ∨
   (∃ ttl desc due prio who, o = OCreate ttl desc due prio who ∧
      MySQLError ER_NO_REFERENCED_ROW_2 = MySQLError ER_LOCK_WAIT_TIMEOUT ∧
      a_next_task (abs (w_db w')) = bump (a_next_task (abs (w_db sample_world))))) ∧
  (a_next_comment (abs (w_db w')) = a_next_comment (abs (w_db sample_world)) ∨
   (∃ tid text, o = OComment tid text ∧
      (MySQLError ER_NO_REFERENCED_ROW_2 = MySQLError ER_NO_REFERENCED_ROW_2 ∨
       MySQLError ER_NO_REFERENCED_ROW_2 = MySQLError ER_LOCK_WAIT_TIMEOUT) ∧
      a_next_comment (abs (w_db w')) = bump (a_next_comment (abs (w_db sample_world))))).
Proof.
  intros o w'. split; [vm_compute; reflexivity|].
  apply (execute_op_error TC o sample_world); [apply sample_db_wf|vm_compute; reflexivity].
Defined.

End Contract.
