(* ===== verification/Objects.v ===== *)
(** * Objects: classes, constructors and the module of
    [src/task_manager_system.py]

    The layer of Python around the methods.  A class is its optional base
    and the [def]s of its body ([classdef]); an attribute of an instance is
    looked up on the instance's class, then on its base ([resolve], and the
    relation [has_method] it decides).  [__init__] (lines 8-16 and
    144-152) opens a connection with [mysql.connector.connect] against the
    [server] the process talks to, then calls [self.initialize_database()],
    looked up on the class of [self]: the [TaskComments] override.
    [py_main] is [main] (lines 242-366): it looks up the two class names in
    the module's globals, builds one instance of each, then runs the loop
    of [Shell].  A module is the list of its top-level statements
    ([top_stmt]); [exec_module] runs them against the installed modules,
    and the guard [if __name__ == "__main__"] (line 369) calls [main] only
    when the file is run as a script.

    [ObjectsFacts] shows that [resolve] decides [has_method], that the
    calls of the loop resolve to the definitions [Shell.dispatch] calls,
    and, for the whole file: run as a script it is [Shell.main]
    ([script_runs_main]); imported it runs nothing; a refused connection
    ends it before any output; the constructors depend on their order. *)

From S2P Require Import Prelude Db Store Session TaskManager TaskComments Reports Input Shell.

Module Objects.

(** A [def] of a class body, by the parameters it takes after [self]. *)
Inductive pydef :=
| DInit                                            (* __init__(self, db_host, db_user, db_password, db_database) *)
| DNullary (f : conn_id → M unit)                  (* initialize_database, members, generate_reports *)
| DFilter (f : conn_id → option string → M unit)   (* view_tasks, view_assign_task, view_commnts: assigned_to=None *)
| DMemberReport (f : conn_id → option string → M (option string))
| DById (f : conn_id → Z → M unit)                 (* mark_task_completed, remove_task *)
| DByIdStr (f : conn_id → Z → string → M unit)     (* assign_task, add_task_comment *)
| DUpdate (f : conn_id → Z → option string → option date → M unit)
| DAdd (f : conn_id → string → string → date → Z → option string → M unit).

Record classdef := mkClass { cl_base : option string; cl_methods : gmap string pydef }.

Abbreviation class_table := (gmap string classdef).

(** Attribute lookup along the bases (single inheritance): the class that
    defines [m] first, with its [def]. *)
Fixpoint resolve (fuel : nat) (ct : class_table) (cls m : string) : option (string * pydef) :=
  match fuel with
  | O => None
  | S n =>
    match ct !! cls with
    | None => None
    | Some c =>
      match cl_methods c !! m with
      | Some d => Some (cls, d)
      | None => match cl_base c with Some b => resolve n ct b m | None => None end
      end
    end
  end.

(** A chain of bases visits each class once, so [size ct] steps suffice. *)
Definition lookup_method (ct : class_table) (cls m : string) : option (string * pydef) :=
  resolve (size ct) ct cls m.

(** The body of [class TaskManager:], lines 7-139. *)
Definition TaskManager_body : gmap string pydef :=
  <["__init__" := DInit]> $ <["initialize_database" := DNullary TaskManager.initialize_database]> $
  <["add_task" := DAdd add_task]> $ <["view_tasks" := DFilter view_tasks]> $
  <["update_task_details" := DUpdate update_task_details]> $
  <["assign_task" := DByIdStr assign_task]> $ <["view_assign_task" := DFilter view_assign_task]> $
  <["mark_task_completed" := DById mark_task_completed]> $ <["remove_task" := DById remove_task]> $
  <["members" := DNullary members]> ∅.

(** The body of [class TaskComments(TaskManager):], lines 143-240. *)
Definition TaskComments_body : gmap string pydef :=
  <["__init__" := DInit]> $
  <["initialize_database" := DNullary TaskComments.initialize_database]> $
  <["add_task_comment" := DByIdStr add_task_comment]> $ <["view_commnts" := DFilter view_commnts]> $
  <["generate_reports" := DNullary generate_reports]> $
  <["view_assign_task_by_member" := DMemberReport view_assign_task_by_member]> ∅.

(** The MySQL server at the other end of [connect]: where it listens, its
    accounts and its databases. *)
Record server := mkServer {
  srv_host : string;
  srv_listening : bool;
  srv_accounts : list (string * string);
  srv_databases : list string
}.

Record conn_params := mkParams { db_host : string; db_user : string; db_password : string; db_database : string }.

(** [mysql.connector.connect(host=..., user=..., password=..., database=...)]:
    no server (2003), refused account (1045), unknown database (1049). *)
Definition connect (srv : server) (p : conn_params) : sql_error + unit :=
  if negb (srv_listening srv && String.eqb (db_host p) (srv_host srv)) then inl CR_CONN_HOST_ERROR
  else if bool_decide ((db_user p, db_password p) ∈ srv_accounts srv) then
    if bool_decide (db_database p ∈ srv_databases srv) then inr tt
    else inl (ER_BAD_DB_ERROR (db_database p))
  else inl ER_ACCESS_DENIED_ERROR.

(** An instance: its class and the connection it opened. *)
Record pyobject := mkObj { obj_class : string; obj_conn : conn_id }.

(** [self.m()]: looked up on the class of [self]; a [def] whose other
    parameters all have defaults runs with them, any other one raises. *)
Definition call0 (ct : class_table) (self : pyobject) (m : string) : M unit :=
  match lookup_method ct (obj_class self) m with
  | None => pym_raise (AttributeError (obj_class self) m)
  | Some (_, DNullary f) => f (obj_conn self)
  | Some (_, DFilter f) => f (obj_conn self) None
  | Some (_, DMemberReport f) => _ ← f (obj_conn self) None; mret tt
  | Some _ => pym_raise TypeError
  end.

(** [__init__], the same in both classes (lines 8-16, 144-152): connect,
    take a cursor (no effect), initialise the tables of the class of [self]. *)
Definition py_init (srv : server) (ct : class_table) (self : pyobject) (p : conn_params) : M unit :=
  match connect srv p with
  | inl e => pym_raise (MySQLError e)
  | inr _ =>
    pym_modify (set_conn (obj_conn self) fresh_conn);;
    call0 ct self "initialize_database"
  end.

(** [cls(db_host, db_user, db_password, db_database)]: a new instance,
    initialised by the [__init__] its class resolves ([object.__init__]
    takes no arguments). *)
Definition construct (srv : server) (ct : class_table) (cls : string) (c : conn_id)
    (p : conn_params) : M pyobject :=
  let self := mkObj cls c in
  match lookup_method ct cls "__init__" with
  | Some (_, DInit) => py_init srv ct self p;; mret self
  | _ => pym_raise TypeError
  end.

(** What a global name of the module is bound to. *)
Inductive binding :=
| BModule (m : string)             (* import m *)
| BImported (m x : string)         (* from m import x *)
| BClass (c : string)              (* class c *)
| BFunction (f : string).          (* def f *)

Record globals := mkGlobals { g_names : gmap string binding; g_classes : class_table }.

(** A global name used as a class: [NameError] when unbound, [TypeError]
    when bound to something else. *)
Definition global_class (g : globals) (x : string) : M string :=
  match g_names g !! x with
  | Some (BClass c) => mret c
  | Some _ => pym_raise TypeError
  | None => pym_raise (NameError x)
  end.

(** The arguments of both constructor calls, lines 243-246. *)
Definition main_params : conn_params := mkParams "localhost" "root" "Master#123" "Task_db".

(** Lines 248-249: [task_manager = TaskManager(...)], then
    [task_comments = TaskComments(...)], each class looked up in the
    module's globals. *)
Definition make_objects (srv : server) (g : globals) : M (pyobject * pyobject) :=
  c1 ← global_class g "TaskManager";
  task_manager ← construct srv (g_classes g) c1 TM main_params;
  c2 ← global_class g "TaskComments";
  task_comments ← construct srv (g_classes g) c2 TC main_params;
  mret (task_manager, task_comments).

(** [main()], lines 242-366: the two instances, then the [while True]
    loop of [Shell], whose calls go to the [def]s these classes define. *)
Definition py_main (srv : server) (g : globals) (fuel : nat) : M unit :=
  _ ← make_objects srv g;
  main_loop fuel.

(** A top-level statement of a module. *)
Inductive top_stmt :=
| SImport (alias m : string)                        (* import m [as alias] *)
| SFromImport (m : string) (xs : list string)       (* from m import xs *)
| SClass (x : string) (base : option string) (body : gmap string pydef)
| SDef (f : string)
| SIfMain.                                          (* if __name__ == "__main__": main() *)

(** What the module runs against: the server, the installed modules, and
    the loop bound of the model. *)
Record pyenv := mkEnv { env_server : server; env_modules : list string; env_fuel : nat }.

Definition bind_name (x : string) (b : binding) (g : globals) : globals :=
  mkGlobals (<[x := b]> (g_names g)) (g_classes g).

Definition import_module (env : pyenv) (m : string) : M unit :=
  if bool_decide (m ∈ env_modules env) then mret tt else pym_raise (ModuleNotFoundError m).

Definition exec_stmt (env : pyenv) (name : string) (g : globals) (s : top_stmt) : M globals :=
  match s with
  | SImport alias m => import_module env m;; mret (bind_name alias (BModule m) g)
  | SFromImport m xs => import_module env m;; mret (foldl (λ g x, bind_name x (BImported m x) g) g xs)
  | SClass x base body =>
    b ← (match base with None => mret None | Some y => c ← global_class g y; mret (Some c) end);
    mret (mkGlobals (<[x := BClass x]> (g_names g)) (<[x := mkClass b body]> (g_classes g)))
  | SDef f => mret (bind_name f (BFunction f) g)
  | SIfMain =>
    if String.eqb name "__main__" then
      match g_names g !! "main" with
      | Some (BFunction _) => py_main (env_server env) g (env_fuel env);; mret g
      | _ => pym_raise (NameError "main")
      end
    else mret g
  end.

Fixpoint exec_body (env : pyenv) (name : string) (g : globals) (ss : list top_stmt) : M globals :=
  match ss with
  | [] => mret g
  | s :: ss' => g' ← exec_stmt env name g s; exec_body env name g' ss'
  end.

(** Running a module under [__name__ = name], from empty globals. *)
Definition exec_module (env : pyenv) (name : string) (ss : list top_stmt) : M globals :=
  exec_body env name (mkGlobals ∅ ∅) ss.

(** [src/task_manager_system.py] as a module. *)
Definition task_manager_system : list top_stmt :=
  [ SImport "mysql" "mysql.connector";                        (* line 2 *)
    SImport "pd" "pandas";                                    (* line 3 *)
    SFromImport "datetime" ["datetime"; "timedelta"];         (* line 4 *)
    SClass "TaskManager" None TaskManager_body;               (* lines 7-139 *)
    SClass "TaskComments" (Some "TaskManager") TaskComments_body;   (* lines 143-240 *)
    SDef "main";                                              (* lines 242-366 *)
    SIfMain ].                                                (* lines 369-370 *)

End Objects.

Export Objects.

Module ObjectsFacts.

(** ** Attribute lookup *)

(** Python's lookup as a relation: [has_method ct m cls orig d] when an
    instance of [cls] finds [m] as the [def] [d] of class [orig]. *)
Inductive has_method (ct : class_table) (m : string) : string → string → pydef → Prop :=
| HasMethod cls c d :
    ct !! cls = Some c → cl_methods c !! m = Some d → has_method ct m cls cls d
| InheritsMethod cls b orig c d :
    ct !! cls = Some c → cl_methods c !! m = None → cl_base c = Some b →
    has_method ct m b orig d → has_method ct m cls orig d.

Create HintDb objects discriminated.
#[local] Hint Constructors has_method : objects.

Section Lookup.
Context (ct : class_table) (m : string).

Lemma resolve_sound n cls orig d : resolve n ct cls m = Some (orig, d) → has_method ct m cls orig d.
Proof.
  revert cls. induction n as [|n IH]; intros cls; simpl; [done|].
  destruct (ct !! cls) as [c|] eqn:Hc; [|done].
  destruct (cl_methods c !! m) as [d'|] eqn:Hm; [intros [= <- <-]; eauto with objects|].
  destruct (cl_base c) as [b|] eqn:Hb; [|done]. eauto with objects.
Qed.

Lemma resolve_complete cls orig d : has_method ct m cls orig d → ∃ n, resolve n ct cls m = Some (orig, d).
Proof.
  induction 1 as [cls c d Hc Hm|cls b orig c d Hc Hm Hb _ [n IH]].
  - exists 1%nat. simpl. by rewrite Hc, Hm.
  - exists (S n). simpl. by rewrite Hc, Hm, Hb.
Qed.

Lemma has_method_functional cls o1 d1 o2 d2 :
  has_method ct m cls o1 d1 → has_method ct m cls o2 d2 → o1 = o2 ∧ d1 = d2.
Proof.
  intros H1. revert o2 d2. induction H1 as [cls c d Hc Hm|cls b orig c d Hc Hm Hb _ IH];
    intros o2 d2 H2; inversion H2; simplify_eq; auto.
Qed.
End Lookup.

(** ** The module's globals after its definitions *)

Definition main_imports : list string := ["mysql.connector"; "pandas"; "datetime"].

Definition main_classes : class_table :=
  <["TaskComments" := mkClass (Some "TaskManager") TaskComments_body]> $
  <["TaskManager" := mkClass None TaskManager_body]> ∅.

Definition main_globals : globals :=
  mkGlobals
    (<["main" := BFunction "main"]> $ <["TaskComments" := BClass "TaskComments"]> $
     <["TaskManager" := BClass "TaskManager"]> $
     <["timedelta" := BImported "datetime" "timedelta"]> $
     <["datetime" := BImported "datetime" "datetime"]> $
     <["pd" := BModule "pandas"]> $ <["mysql" := BModule "mysql.connector"]> ∅)
    main_classes.

(** A server with the account and database of [main], and one whose root
    password differs. *)
Definition local_server : server := mkServer "localhost" true [("root", "Master#123")] ["Task_db"].
Definition other_password_server : server := mkServer "localhost" true [("root", "secret")] ["Task_db"].

Lemma import_module_ok env m : m ∈ env_modules env → import_module env m = mret tt.
Proof. intros H. unfold import_module. by rewrite bool_decide_true. Qed.

Lemma exec_body_app env name g ss1 ss2 w :
  exec_body env name g (ss1 ++ ss2) w =
    match exec_body env name g ss1 w with
    | (inl e, w') => (inl e, w')
    | (inr g', w') => exec_body env name g' ss2 w'
    end.
Proof.
  revert g w. induction ss1 as [|s ss1 IH]; intros g w; simpl; [done|].
  rewrite !pym_run_bind. destruct (exec_stmt env name g s w) as [[e|g'] w']; [done|]. apply IH.
Qed.

(** The definitions of the module (lines 1-366) bind its names and run
    nothing, whatever [__name__] is. *)
Lemma exec_definitions env name w :
  main_imports ⊆ env_modules env →
  exec_module env name (take 6 task_manager_system) w = (inr main_globals, w).
Proof.
  intros Him. unfold exec_module. cbn [take task_manager_system exec_body exec_stmt].
  rewrite !import_module_ok by (apply Him; set_solver). reflexivity.
Qed.

Lemma set_conn_fresh c w : conn_of w c = fresh_conn → set_conn c fresh_conn w = w.
Proof. destruct c, w; simpl; by intros ->. Qed.

Lemma tm_init_tc w : w_tc ((TaskManager.initialize_database TM) w).2 = w_tc w.
Proof.
  unfold TaskManager.initialize_database, execute_write. pym_simpl.
  by destruct (create_tasks_table (w_db w)) as [[e|[]] d'].
Qed.

(** A constructor call whose connection is accepted: the
    [initialize_database] the class resolves, on a new connection. *)
Lemma construct_run srv ct cls c p o o' f w :
  connect srv p = inr tt →
  lookup_method ct cls "__init__" = Some (o, DInit) →
  lookup_method ct cls "initialize_database" = Some (o', DNullary f) →
  construct srv ct cls c p w = (_ ← f c; mret (mkObj cls c)) (set_conn c fresh_conn w).
Proof.
  intros Hc Hi Hn. unfold construct. rewrite Hi. unfold py_init. rewrite Hc.
  unfold call0. simpl. rewrite Hn. reflexivity.
Qed.

Lemma construct_refused srv ct cls c p e w :
  connect srv p = inl e → (∃ o, lookup_method ct cls "__init__" = Some (o, DInit)) →
  construct srv ct cls c p w = (inl (MySQLError e), w).
Proof. intros Hc [o Hi]. unfold construct. rewrite Hi. unfold py_init. by rewrite Hc. Qed.

Lemma main_globals_classes :
  global_class main_globals "TaskManager" = mret "TaskManager" ∧
  global_class main_globals "TaskComments" = mret "TaskComments".
Proof. split; reflexivity. Qed.

(** What the two constructors resolve in [main_classes]: their own
    [__init__] each, and the [initialize_database] of their own class
    (the [TaskComments] override for [task_comments]). *)
Lemma main_classes_init :
  lookup_method main_classes "TaskManager" "__init__" = Some ("TaskManager", DInit) ∧
  lookup_method main_classes "TaskComments" "__init__" = Some ("TaskComments", DInit) ∧
  lookup_method main_classes "TaskManager" "initialize_database" =
    Some ("TaskManager", DNullary TaskManager.initialize_database) ∧
  lookup_method main_classes "TaskComments" "initialize_database" =
    Some ("TaskComments", DNullary TaskComments.initialize_database).
Proof. split_and!; reflexivity. Qed.

(** The calls of the loop (lines 277-357) resolve, on the class of the
    instance they are made on, to the definitions [Shell.dispatch] calls;
    an instance of [TaskComments] also finds the methods it inherits. *)
Lemma main_call_sites :
  lookup_method main_classes "TaskManager" "add_task" = Some ("TaskManager", DAdd add_task) ∧
  lookup_method main_classes "TaskManager" "view_tasks" = Some ("TaskManager", DFilter view_tasks) ∧
  lookup_method main_classes "TaskManager" "update_task_details" =
    Some ("TaskManager", DUpdate update_task_details) ∧
  lookup_method main_classes "TaskManager" "assign_task" = Some ("TaskManager", DByIdStr assign_task) ∧
  lookup_method main_classes "TaskManager" "view_assign_task" =
    Some ("TaskManager", DFilter view_assign_task) ∧
  lookup_method main_classes "TaskManager" "mark_task_completed" =
    Some ("TaskManager", DById mark_task_completed) ∧
  lookup_method main_classes "TaskManager" "remove_task" = Some ("TaskManager", DById remove_task) ∧
  lookup_method main_classes "TaskManager" "members" = Some ("TaskManager", DNullary members) ∧
  lookup_method main_classes "TaskComments" "add_task_comment" =
    Some ("TaskComments", DByIdStr add_task_comment) ∧
  lookup_method main_classes "TaskComments" "view_commnts" = Some ("TaskComments", DFilter view_commnts) ∧
  lookup_method main_classes "TaskComments" "generate_reports" =
    Some ("TaskComments", DNullary generate_reports) ∧
  lookup_method main_classes "TaskComments" "view_assign_task_by_member" =
    Some ("TaskComments", DMemberReport view_assign_task_by_member) ∧
  lookup_method main_classes "TaskComments" "view_tasks" = Some ("TaskManager", DFilter view_tasks).
Proof. split_and!; reflexivity. Qed.

(** With the connections accepted, the instances of [main] do what the
    first two lines of [Shell.main] do. *)
Lemma make_objects_run srv w :
  connect srv main_params = inr tt → w_tm w = fresh_conn → w_tc w = fresh_conn →
  make_objects srv main_globals w =
    (_ ← (TaskManager.initialize_database TM;; TaskComments.initialize_database TC);
     mret (mkObj "TaskManager" TM, mkObj "TaskComments" TC)) w.
Proof.
  intros Hc Htm Htc. destruct main_globals_classes as [H1 H2].
  destruct main_classes_init as (I1 & I2 & I3 & I4).
  unfold make_objects. change (g_classes main_globals) with main_classes.
  rewrite H1, H2, !pym_bind_ret_l, !pym_run_bind.
  rewrite (construct_run _ _ _ _ _ _ _ _ _ Hc I1 I3), set_conn_fresh by done.
  rewrite pym_run_bind. pose proof (tm_init_tc w) as Htc'.
  destruct (TaskManager.initialize_database TM w) as [[e|[]] w1]; [done|]. simpl in Htc'.
  cbn [mret pym_ret mbind pym_bind]. rewrite pym_bind_ret_l, pym_run_bind.
  rewrite (construct_run _ _ _ _ _ _ _ _ _ Hc I2 I4), set_conn_fresh by (simpl; congruence).
  rewrite !pym_run_bind. by destruct (TaskComments.initialize_database TC w1) as [[e|[]] w2].
Qed.

Lemma py_main_main srv fuel w :
  connect srv main_params = inr tt → w_tm w = fresh_conn → w_tc w = fresh_conn →
  py_main srv main_globals fuel w = main fuel w.
Proof.
  intros Hc Htm Htc. unfold py_main, main. rewrite pym_run_bind, make_objects_run by assumption.
  rewrite !pym_run_bind.
  destruct (TaskManager.initialize_database TM w) as [[e|[]] w1]; [done|].
  rewrite pym_run_bind. by destruct (TaskComments.initialize_database TC w1) as [[e|[]] w2].
Qed.

Lemma exec_if_main env g w :
  exec_body env "__main__" g [SIfMain] w =
    match g_names g !! "main" with
    | Some (BFunction _) =>
      match py_main (env_server env) g (env_fuel env) w with
      | (inl e, w') => (inl e, w')
      | (inr _, w') => (inr g, w')
      end
    | _ => (inl (NameError "main"), w)
    end.
Proof.
  cbn [exec_body exec_stmt]. change (String.eqb "__main__" "__main__") with true. cbv iota.
  rewrite pym_run_bind. destruct (g_names g !! "main") as [[]|]; try done.
  rewrite pym_run_bind. by destruct (py_main _ _ _ w) as [[e|[]] w'].
Qed.

(** C2 (running the file is [main]): the whole file run as a script, in a process that starts with the given
    database and standard input, is [Shell.main]. *)
Theorem script_runs_main env d stdin :
  main_imports ⊆ env_modules env → connect (env_server env) main_params = inr tt →
  exec_module env "__main__" task_manager_system (start d stdin) =
    match main (env_fuel env) (start d stdin) with
    | (inl e, w') => (inl e, w')
    | (inr _, w') => (inr main_globals, w')
    end.
Proof.
  intros Him Hc. change task_manager_system with (take 6 task_manager_system ++ [SIfMain]).
  unfold exec_module. rewrite exec_body_app.
  change (exec_body env "__main__" (mkGlobals ∅ ∅) (take 6 task_manager_system))
    with (exec_module env "__main__" (take 6 task_manager_system)).
  rewrite exec_definitions by done. rewrite exec_if_main.
  change (g_names main_globals !! "main") with (Some (BFunction "main")). cbv iota.
  by rewrite py_main_main.
Qed.

Lemma script_runs_main_witness :
  exec_module (mkEnv local_server main_imports 3) "__main__" task_manager_system
    (start empty_db ["12"]) =
    match main 3 (start empty_db ["12"]) with
    | (inl e, w') => (inl e, w')
    | (inr _, w') => (inr main_globals, w')
    end.
Proof. apply script_runs_main; [done|reflexivity]. Defined.


Lemma exec_module_split env name w :
  exec_module env name task_manager_system w =
    match exec_module env name (take 6 task_manager_system) w with
    | (inl e, w') => (inl e, w')
    | (inr g, w') => exec_body env name g [SIfMain] w'
    end.
Proof. apply (exec_body_app env name _ (take 6 task_manager_system) [SIfMain]). Qed.

(** C24 (importing the file has no effect): importing the file under any other name defines its classes and [main]
    and runs nothing: no connection, no table, no output. *)
Theorem import_runs_nothing env name w :
  main_imports ⊆ env_modules env → name ≠ "__main__" →
  exec_module env name task_manager_system w = (inr main_globals, w).
Proof.
  intros Him Hn. rewrite exec_module_split, exec_definitions by done.
  cbn [exec_body exec_stmt]. apply String.eqb_neq in Hn. by rewrite Hn.
Qed.

Lemma import_runs_nothing_witness :
  exec_module (mkEnv local_server main_imports 3) "task_manager_system" task_manager_system
    (start sample_db ["1"]) = (inr main_globals, start sample_db ["1"]).
Proof. apply import_runs_nothing; [done|discriminate]. Defined.


(** C18 (a refused connection ends the script at once): when the server refuses the connection of [task_manager] (line 248,
    outside any [try]), the script ends with the uncaught
    [mysql.connector.Error] before its first line of output, and the
    world is unchanged. *)
Theorem script_connect_refused env e w :
  main_imports ⊆ env_modules env → connect (env_server env) main_params = inl e →
  exec_module env "__main__" task_manager_system w = (inl (MySQLError e), w).
Proof.
  intros Him Hc. rewrite exec_module_split, exec_definitions, exec_if_main by done.
  change (g_names main_globals !! "main") with (Some (BFunction "main")). cbv iota.
  unfold py_main, make_objects. change (g_classes main_globals) with main_classes.
  destruct main_globals_classes as [H1 _]. destruct main_classes_init as (I1 & _).
  rewrite H1, pym_bind_ret_l, !pym_run_bind, (construct_refused _ _ _ _ _ _ _ Hc) by eauto.
  done.
Qed.

Lemma script_connect_refused_witness :
  exec_module (mkEnv other_password_server main_imports 3) "__main__" task_manager_system
    (start sample_db ["12"]) = (inl (MySQLError ER_ACCESS_DENIED_ERROR), start sample_db ["12"]).
Proof. apply script_connect_refused; [done|reflexivity]. Defined.


(** C16 (the constructors must run in [main]'s order): the order of lines 248-249 matters: on a server without the tables,
    [TaskManager] first creates [tasks_] and then [task_comments] can
    refer to it; [TaskComments] first would fail on its foreign key
    (error 1824), uncaught, with nothing created. *)
Theorem constructor_order srv stdin :
  connect srv main_params = inr tt →
  w_db (make_objects srv main_globals (start empty_db stdin)).2 =
    mkDb (Some empty_table) (Some empty_table) ∧
  construct srv main_classes "TaskComments" TC main_params (start empty_db stdin) =
    (inl (MySQLError (ER_FK_CANNOT_OPEN_PARENT "tasks_")), start empty_db stdin).
Proof.
  intros Hc. destruct main_classes_init as (_ & I2 & _ & I4). split.
  - rewrite make_objects_run by done. reflexivity.
  - rewrite (construct_run _ _ _ _ _ _ _ _ _ Hc I2 I4). reflexivity.
Qed.

Lemma constructor_order_witness :
  w_db (make_objects local_server main_globals (start empty_db ["12"])).2 =
    mkDb (Some empty_table) (Some empty_table) ∧
  construct local_server main_classes "TaskComments" TC main_params (start empty_db ["12"]) =
    (inl (MySQLError (ER_FK_CANNOT_OPEN_PARENT "tasks_")), start empty_db ["12"]).
Proof. apply constructor_order. reflexivity. Defined.


End ObjectsFacts.

Export ObjectsFacts.
