(* ===== verification/Part2.v ===== *)
(** * Part2: the module [src/Task_manager_part2.py]

    The file repeats class [TaskComments] of [src/task_manager_system.py]
    (its lines 4-101 are lines 143-240 there), but its only imports are
    [mysql.connector], [pandas] and [datetime]: the base [TaskManager] of
    line 4 is not a global name of the module.  The methods are
    translated here from this file, as in [TaskComments] and [Reports];
    the module is the list of its top-level statements, run by
    [Objects.exec_module].  [Part2Facts] proves that running it stops with
    [NameError] at line 4, before the class is created, so none of its
    methods can be reached, and that its class body is the one of the main
    module, so the copy differs from it only by the missing import. *)

From S2P Require Import Prelude Db Store Session TaskManager TaskComments Reports Shell Objects.

Module Part2.

(** [initialize_database], lines 15-25. *)
Definition initialize_database (self : conn_id) : M unit :=
  execute_write self create_comments_table;;
  commit self.

(** [add_task_comment(task_id, comment)], lines 27-32. *)
Definition add_task_comment (self : conn_id) (tid : Z) (text : string) : M unit :=
  execute_op self (OComment tid text);;
  commit self;;
  print (ECommentAdded tid).

(** [view_commnts(assigned_to=None)], lines 35-51. *)
Definition view_commnts (self : conn_id) (who : option string) : M unit :=
  comments ← execute_query self (select_comments (where_of who));
  match comments with
  | [] => print ENoTasks
  | _ => py_for comments (λ c, print (ECommentLine (comment_task_id c) (comment c)))
  end.

(** [generate_reports()], lines 67-76. *)
Definition generate_reports (self : conn_id) : M unit :=
  values ← execute_query self select_report;
  match values with
  | [] => print ENoValues
  | _ =>
    to_excel "reports.xlsx" (length values) (FullReport values);;
    print EReportGenerated
  end.

(** [view_assign_task_by_member(assigned_to=None)], lines 78-101. *)
Definition view_assign_task_by_member (self : conn_id) (who : option string) : M (option string) :=
  match who with
  | Some name =>
    if truthy who then
      tasks ← execute_query self (select_short (Some name));
      match tasks with
      | [] => print ENoTasks;; mret None
      | _ =>
        df ← to_datetime_column tasks;
        let file_name := String.append name ".xlsx" in
        to_excel file_name (length df) (MemberReport df);;
        print (EMemberReportGenerated file_name);;
        mret None
      end
    else mret (Some "Please slecet valid memeber name")
  | None => mret (Some "Please slecet valid memeber name")
  end.

(** The body of [class TaskComments(TaskManager):], lines 4-101
    ([__init__], lines 5-13, is the constructor of [Objects]). *)
Definition TaskComments_body : gmap string pydef :=
  <["__init__" := DInit]> $
  <["initialize_database" := DNullary initialize_database]> $
  <["add_task_comment" := DByIdStr add_task_comment]> $ <["view_commnts" := DFilter view_commnts]> $
  <["generate_reports" := DNullary generate_reports]> $
  <["view_assign_task_by_member" := DMemberReport view_assign_task_by_member]> ∅.

(** The module, lines 1-4 and the class statement. *)
Definition task_manager_part2 : list top_stmt :=
  [ SImport "mysql" "mysql.connector";                          (* line 1 *)
    SImport "pd" "pandas";                                      (* line 2 *)
    SFromImport "datetime" ["datetime"];                        (* line 3 *)
    SClass "TaskComments" (Some "TaskManager") TaskComments_body ].   (* lines 4-101 *)

End Part2.

Module Part2Facts.

(** C17 (the duplicate module cannot be imported): with its three imports
    installed, running [src/Task_manager_part2.py] under any name raises
    [NameError: name 'TaskManager' is not defined] at line 4, before the
    class is created; nothing of the world changes. *)
Theorem part2_import_fails env name w :
  main_imports ⊆ env_modules env →
  exec_module env name Part2.task_manager_part2 w = (inl (NameError "TaskManager"), w).
Proof.
  intros Him. unfold exec_module, Part2.task_manager_part2.
  cbn [exec_body exec_stmt]. rewrite !import_module_ok by (apply Him; set_solver).
  reflexivity.
Qed.

Lemma part2_import_fails_witness :
  exec_module (mkEnv local_server main_imports 3) "Task_manager_part2" Part2.task_manager_part2
    (start sample_db []) = (inl (NameError "TaskManager"), start sample_db []).
Proof. apply part2_import_fails. done. Defined.

(** The duplicate is an exact copy: the class body of
    [src/Task_manager_part2.py] is the body of [TaskComments] in
    [src/task_manager_system.py], [def] for [def], so in any globals its
    class statement binds the same class as line 143 there (or fails the
    same way). *)
Theorem part2_same_class env name g :
  exec_stmt env name g (SClass "TaskComments" (Some "TaskManager") Part2.TaskComments_body) =
  exec_stmt env name g (SClass "TaskComments" (Some "TaskManager") TaskComments_body).
Proof. reflexivity. Qed.

End Part2Facts.
